(** * IWI Sales Dashboard: the flash-report loader [data_loader.py]

    A shallow embedding of the ingestion code of the dashboard
    ([parse_date_from_cell], [safe_float], [safe_int], [parse_flash_report],
    [load_all_reports]) and the properties of its specification.

    Conventions of the model.
    - A Python [str] is a [string] whose characters are the code points
      0..255; a cell text with a code point above 255 is outside the model.
    - A Python [float] is an IEEE-754 binary64 value, a [spec_float] of the
      Standard Library with [prec = 53] and [emax = 1024]; [float(str)] is
      the correctly rounded conversion (round to nearest, ties to even).
    - A Python exception is a value of [exn]; a call that may raise returns
      a [result].
    - [repr] of a float and the sort of pandas are parameters of the model
      ([float_repr], [sort_values]).
    - A workbook is given by its worksheets and the titles of its
      chartsheets; the folder is the list of the entries of a directory
      whose path holds none of the pattern characters of [glob].

    The file has the model first ([Section Loader]), then the notions of the
    specification and the data of the examples, then the properties, and at
    the end the worked cases. *)

From Stdlib Require Import ZArith List Bool Ascii String Lia Permutation Sorted.
From Stdlib Require Import DecimalString.
From Stdlib Require Import Floats.SpecFloat.
Import ListNotations.

Open Scope string_scope.
Open Scope list_scope.
Open Scope Z_scope.

(** * The model *)

(** ** Exceptions *)

(** The exceptions the loader meets, all of them subclasses of [Exception].
    [OSError] stands for whatever [load_workbook] raises on a file it cannot
    read. *)
Inductive exn : Type :=
| ValueError
| TypeError
| OverflowError
| KeyError
| IndexError
| OSError.

Inductive result (A : Type) : Type :=
| Ok (a : A)
| Raise (e : exn).

Arguments Ok {A} a.
Arguments Raise {A} e.

Definition bind {A B : Type} (r : result A) (k : A -> result B) : result B :=
  match r with
  | Ok a => k a
  | Raise e => Raise e
  end.

Notation "x <- r ;; k" := (bind r (fun x => k))
  (at level 61, r at next level, right associativity).

Fixpoint mapM {A B : Type} (f : A -> result B) (l : list A) : result (list B) :=
  match l with
  | [] => Ok []
  | a :: l' => b <- f a ;; bs <- mapM f l' ;; Ok (b :: bs)
  end.

(** ** Characters and strings *)

Definition code (c : ascii) : Z := Z.of_N (N_of_ascii c).

Definition is_digit (c : ascii) : bool := (48 <=? code c) && (code c <=? 57).

Definition digit_val (c : ascii) : Z := code c - 48.

(** [Py_ISSPACE]: the C-locale white space that [float()] strips. *)
Definition is_c_space (c : ascii) : bool :=
  ((9 <=? code c) && (code c <=? 13)) || (code c =? 32).

(** [Py_UNICODE_ISSPACE] on the code points 0..255: what [str.strip()]
    removes. *)
Definition is_py_space (c : ascii) : bool :=
  ((9 <=? code c) && (code c <=? 13)) || ((28 <=? code c) && (code c <=? 32))
  || (code c =? 133) || (code c =? 160).

Definition to_lower (c : ascii) : ascii :=
  if (65 <=? code c) && (code c <=? 90)
  then ascii_of_N (N_of_ascii c + 32) else c.

Fixpoint string_map (f : ascii -> ascii) (s : string) : string :=
  match s with
  | EmptyString => EmptyString
  | String c r => String (f c) (string_map f r)
  end.

Fixpoint string_forallb (p : ascii -> bool) (s : string) : bool :=
  match s with
  | EmptyString => true
  | String c r => p c && string_forallb p r
  end.

Fixpoint string_rev_onto (s acc : string) : string :=
  match s with
  | EmptyString => acc
  | String c r => string_rev_onto r (String c acc)
  end.

Definition string_rev (s : string) : string := string_rev_onto s EmptyString.

Fixpoint lstrip (p : ascii -> bool) (s : string) : string :=
  match s with
  | EmptyString => EmptyString
  | String c r => if p c then lstrip p r else s
  end.

Definition rstrip (p : ascii -> bool) (s : string) : string :=
  string_rev (lstrip p (string_rev s)).

(** [str.strip()] *)
Definition py_strip (s : string) : string := rstrip is_py_space (lstrip is_py_space s).

(** [needle in hay] on strings *)
Fixpoint contains (needle hay : string) : bool :=
  prefix needle hay ||
  match hay with
  | EmptyString => false
  | String _ r => contains needle r
  end.

(** ** The float type of Python *)

Definition pyfloat : Type := spec_float.

Definition float_zero : pyfloat := S754_zero false.

(** The binary64 value nearest to [m * 10 ^ e], for [0 <= m]; [neg] is the
    sign. *)
Definition float_of_decimal (neg : bool) (m e : Z) : pyfloat :=
  match m with
  | Zpos p =>
      if 0 <=? e
      then binary_round 53 1024 neg (p * Z.to_pos (10 ^ e)) 0
      else
        let '(q, e', l) := SFdiv_core_binary 53 1024 (Zpos p) 0 (10 ^ (- e)) 0 in
        binary_round_aux 53 1024 neg q e' l
  | _ => S754_zero neg
  end.

(** [float(n)] for a Python [int]: the nearest binary64 value, and
    [OverflowError] when there is none. *)
Definition float_of_int (n : Z) : result pyfloat :=
  match binary_normalize 53 1024 n 0 false with
  | S754_infinity _ => Raise OverflowError
  | f => Ok f
  end.

(** [int(x)] for a Python [float]: truncation toward zero. *)
Definition int_of_float (x : pyfloat) : result Z :=
  match x with
  | S754_zero _ => Ok 0
  | S754_infinity _ => Raise OverflowError
  | S754_nan => Raise ValueError
  | S754_finite s m e =>
      let a := if 0 <=? e then Zpos m * 2 ^ e else Zpos m / 2 ^ (- e) in
      Ok (if s then - a else a)
  end.

(** *** [float(str)] *)

(** [_PyUnicode_TransformDecimalAndSpaceToASCII] on the code points 0..255:
    the two white-space characters above 127 become a blank.  The other
    characters from 127 on are replaced by a question mark there; they are
    left as they are here, and stop the number as the question mark does. *)
Definition transform_space (s : string) : string :=
  string_map (fun c => if (code c =? 133) || (code c =? 160) then " "%char else c) s.

(** [_Py_string_to_number_with_underscores]: an underscore is dropped when
    it stands between two digits, and is an error elsewhere. *)
Fixpoint drop_underscores (prev : ascii) (s : string) : option string :=
  match s with
  | EmptyString => if Ascii.eqb prev "_" then None else Some EmptyString
  | String c r =>
      if Ascii.eqb c "_"
      then if is_digit prev then drop_underscores c r else None
      else if Ascii.eqb prev "_" && negb (is_digit c) then None
           else option_map (String c) (drop_underscores c r)
  end.

Fixpoint take_digits (s : string) : list Z * string :=
  match s with
  | EmptyString => ([], EmptyString)
  | String c r =>
      if is_digit c
      then let '(ds, rest) := take_digits r in (digit_val c :: ds, rest)
      else ([], s)
  end.

Definition digits_value (ds : list Z) : Z :=
  fold_left (fun acc d => 10 * acc + d) ds 0.

Definition take_sign (s : string) : bool * string :=
  match s with
  | String "-" r => (true, r)
  | String "+" r => (false, r)
  | _ => (false, s)
  end.

(** The exponent part, which must reach the end of the text. *)
Definition parse_exponent (s : string) : option Z :=
  match s with
  | EmptyString => Some 0
  | String c r =>
      if Ascii.eqb (to_lower c) "e"
      then
        let '(neg, r1) := take_sign r in
        match take_digits r1 with
        | (d :: ds, EmptyString) =>
            Some (if neg then - digits_value (d :: ds) else digits_value (d :: ds))
        | _ => None
        end
      else None
  end.

(** The decimal numbers [_Py_dg_strtod] reads: sign, digits with an optional
    point, optional exponent.  The result is (sign, m, e) for [m * 10 ^ e]. *)
Definition parse_decimal (s : string) : option (bool * Z * Z) :=
  let '(neg, s1) := take_sign s in
  let '(ip, s2) := take_digits s1 in
  let '(fp, s3) :=
    match s2 with
    | String "." r => take_digits r
    | _ => ([], s2)
    end in
  match (ip ++ fp) with
  | [] => None
  | _ :: _ =>
      match parse_exponent s3 with
      | Some e => Some (neg, digits_value (ip ++ fp), e - Z.of_nat (List.length fp))
      | None => None
      end
  end.

(** [_Py_parse_inf_or_nan] *)
Definition parse_inf_or_nan (s : string) : option pyfloat :=
  let '(neg, s1) := take_sign s in
  let t := string_map to_lower s1 in
  if String.eqb t "inf" || String.eqb t "infinity" then Some (S754_infinity neg)
  else if String.eqb t "nan" then Some S754_nan
  else None.

(** [float(s)]; [None] is [ValueError]. *)
Definition float_of_string (s : string) : option pyfloat :=
  match drop_underscores "000"%char (transform_space s) with
  | None => None
  | Some s1 =>
      let s2 := rstrip is_c_space (lstrip is_c_space s1) in
      match parse_decimal s2 with
      | Some (neg, m, e) => Some (float_of_decimal neg m e)
      | None => parse_inf_or_nan s2
      end
  end.

(** ** Cell values *)

(** What [ws.cell(...).value] returns.  [COther truthy text] stands for the
    remaining values of openpyxl (datetime, time, timedelta): [truthy] is
    its truth value and [text] its [str()]. *)
Inductive cell : Type :=
| CNone
| CStr (s : string)
| CInt (n : Z)
| CFloat (x : pyfloat)
| CBool (b : bool)
| COther (truthy : bool) (text : string).

(** [float(val)] *)
Definition py_float (val : cell) : result pyfloat :=
  match val with
  | CNone => Raise TypeError
  | CStr s =>
      match float_of_string s with
      | Some x => Ok x
      | None => Raise ValueError
      end
  | CInt n => float_of_int n
  | CFloat x => Ok x
  | CBool b => Ok (if b then S754_finite false 4503599627370496 (-52) else float_zero)
  | COther _ _ => Raise TypeError
  end.

(** [val is None or val == '' or val == '-'] *)
Definition is_blank (val : cell) : bool :=
  match val with
  | CNone => true
  | CStr s => String.eqb s "" || String.eqb s "-"
  | _ => false
  end.

(** [try: ... except (ValueError, TypeError): return default] *)
Definition except_value_type {A : Type} (r : result A) (default : A) : result A :=
  match r with
  | Raise ValueError | Raise TypeError => Ok default
  | _ => r
  end.

Definition safe_float (val : cell) : result pyfloat :=
  if is_blank val then Ok float_zero
  else except_value_type (py_float val) float_zero.

Definition safe_int (val : cell) : result Z :=
  if is_blank val then Ok 0
  else except_value_type (x <- py_float val ;; int_of_float x) 0.

(** ** Text and truth value of a cell *)

Section Loader.

(** [repr] of a float, the shortest text that reads back as the same float:
    a function of the Python runtime, not of this repository. *)
Variable float_repr : pyfloat -> string.

(** [str(val)] *)
Definition py_str (val : cell) : string :=
  match val with
  | CNone => "None"
  | CStr s => s
  | CInt n => NilZero.string_of_int (Z.to_int n)
  | CFloat x => float_repr x
  | CBool b => if b then "True" else "False"
  | COther _ text => text
  end.

(** [bool(val)], the value [not val] negates *)
Definition truthy (val : cell) : bool :=
  match val with
  | CNone => false
  | CStr s => negb (String.eqb s "")
  | CInt n => negb (n =? 0)
  | CFloat (S754_zero _) => false
  | CFloat _ => true
  | CBool b => b
  | COther t _ => t
  end.

(** ** The report date *)

Record date : Type := mkdate { year : Z; month : Z; day : Z }.

(** The pattern [\d{1,2}/\d{1,2}/\d{4}] tried at the start of a text.  Each
    piece takes the text and a continuation for what follows it; [\d{1,2}]
    is greedy: two digits are tried first, then one. *)
Definition re_d12 {A : Type} (s : string) (k : string -> string -> option A) : option A :=
  match s with
  | String a r =>
      if is_digit a then
        match
          match r with
          | String b r' => if is_digit b then k (String a (String b "")) r' else None
          | EmptyString => None
          end
        with
        | Some x => Some x
        | None => k (String a "") r
        end
      else None
  | EmptyString => None
  end.

Definition re_slash {A : Type} (s : string) (k : string -> option A) : option A :=
  match s with
  | String "/" r => k r
  | _ => None
  end.

Definition re_d4 {A : Type} (s : string) (k : string -> string -> option A) : option A :=
  match s with
  | String a (String b (String c (String d r))) =>
      if is_digit a && is_digit b && is_digit c && is_digit d
      then k (String a (String b (String c (String d "")))) r
      else None
  | _ => None
  end.

Definition match_date_at (s : string) : option (string * string * string) :=
  re_d12 s (fun m s1 =>
  re_slash s1 (fun s2 =>
  re_d12 s2 (fun d s3 =>
  re_slash s3 (fun s4 =>
  re_d4 s4 (fun y _ => Some (m, d, y)))))).

(** [re.search]: the leftmost position where the pattern matches. *)
Fixpoint search_date (s : string) : option (string * string * string) :=
  match match_date_at s with
  | Some t => Some t
  | None =>
      match s with
      | EmptyString => None
      | String _ r => search_date r
      end
  end.

Definition number_of (s : string) : Z := digits_value (fst (take_digits s)).

Definition is_leap (y : Z) : bool :=
  ((y mod 4 =? 0) && negb (y mod 100 =? 0)) || (y mod 400 =? 0).

Definition days_in_month (y m : Z) : Z :=
  if m =? 2 then (if is_leap y then 29 else 28)
  else if (m =? 4) || (m =? 6) || (m =? 9) || (m =? 11) then 30
  else 31.

Definition valid_date (y m d : Z) : bool :=
  (1 <=? y) && (1 <=? m) && (m <=? 12) && (1 <=? d) && (d <=? days_in_month y m).

(** [datetime.strptime(token, '%m/%d/%Y').date()] on a token the pattern
    matched.  The directives [%m] and [%d] accept the numbers 1..12 and
    1..31 written with one or two digits, [%Y] four digits; the date is then
    built, which fails for year 0 and for a day the month does not have.
    Every failure is a [ValueError]. *)
Definition strptime_mdy (t : string * string * string) : result date :=
  let '(m, d, y) := t in
  if valid_date (number_of y) (number_of m) (number_of d)
  then Ok (mkdate (number_of y) (number_of m) (number_of d))
  else Raise ValueError.

Definition parse_date_from_cell (value : cell) : result (option date) :=
  if negb (truthy value) then Ok None
  else
    match search_date (py_str value) with
    | Some t => d <- strptime_mdy t ;; Ok (Some d)
    | None => Ok None
    end.

(** ** The workbook *)

(** A sheet gives the value of the cell at a row and a column, both counted
    from 1; [CNone] where the sheet has no cell. *)
Definition worksheet : Type := Z -> Z -> cell.

(** What [load_workbook(filepath)] finds: an exception, or the workbook: its
    worksheets by title, and the titles of its chartsheets, which have no
    cells. *)
Inductive file : Type :=
| Unreadable (e : exn)
| Workbook (sheets : list (string * worksheet)) (chartsheets : list string).

(** The first worksheet of a title. *)
Fixpoint get_sheet (name : string) (sheets : list (string * worksheet)) : result worksheet :=
  match sheets with
  | [] => Raise KeyError
  | (n, ws) :: rest => if String.eqb n name then Ok ws else get_sheet name rest
  end.

(** A sheet of a workbook. *)
Inductive sheet : Type :=
| Worksheet (ws : worksheet)
| Chartsheet.

(** [wb[name]]: openpyxl looks among the worksheets, then among the
    chartsheets, and raises [KeyError] when no sheet has the title. *)
Definition workbook_getitem (name : string) (sheets : list (string * worksheet))
           (chartsheets : list string) : result sheet :=
  match get_sheet name sheets with
  | Ok ws => Ok (Worksheet ws)
  | Raise _ =>
      if existsb (fun n => String.eqb n name) chartsheets
      then Ok Chartsheet
      else Raise KeyError
  end.

(** [ws['A2']] and [ws.cell(row=..., column=...)] need a worksheet: a
    chartsheet has neither, and the first of them, [ws['A2']], raises
    [TypeError]. *)
Definition cells_of (s : sheet) : result worksheet :=
  match s with
  | Worksheet ws => Ok ws
  | Chartsheet => Raise TypeError
  end.

(** ** Records *)

Inductive value : Type :=
| VDate (d : date)
| VStr (s : string)
| VFloat (x : pyfloat)
| VInt (n : Z).

(** A record is the dict the parser builds: its keys in the order of the
    dict display. *)
Definition record : Type := list (string * value).

Inductive coercion : Type := AsFloat | AsInt.

Definition coerce (c : coercion) (v : cell) : result value :=
  match c with
  | AsFloat => x <- safe_float v ;; Ok (VFloat x)
  | AsInt => n <- safe_int v ;; Ok (VInt n)
  end.

(** Key, column and coercion of each numeric field of a record kind. *)
Definition schema : Type := list (string * Z * coercion).

Definition sales_schema : schema :=
  [ ("day_sales_ty", 2, AsFloat);
    ("day_sales_ly", 3, AsFloat);
    ("day_sales_diff", 4, AsFloat);
    ("day_sales_pct", 5, AsFloat);
    ("wtd_sales_ty", 6, AsFloat);
    ("wtd_sales_ly", 7, AsFloat);
    ("wtd_sales_diff", 8, AsFloat);
    ("wtd_sales_pct", 9, AsFloat);
    ("ptd_sales_ty", 10, AsFloat);
    ("ptd_sales_ly", 11, AsFloat);
    ("ptd_sales_diff", 12, AsFloat);
    ("ptd_sales_pct", 13, AsFloat);
    ("ytd_sales_ty", 14, AsFloat);
    ("ytd_sales_ly", 15, AsFloat);
    ("ytd_sales_diff", 16, AsFloat);
    ("ytd_sales_pct", 17, AsFloat);
    ("r13_sales_ty", 18, AsFloat);
    ("r13_sales_ly", 19, AsFloat);
    ("r13_sales_diff", 20, AsFloat);
    ("r13_sales_pct", 21, AsFloat) ].

(** The brand total has the keys and the columns of a sales record. *)
Definition brand_total_schema : schema := sales_schema.

Definition transactions_schema : schema :=
  [ ("day_trans_ty", 2, AsInt);
    ("day_trans_ly", 3, AsInt);
    ("day_trans_diff", 4, AsInt);
    ("day_trans_pct", 5, AsFloat);
    ("wtd_trans_ty", 6, AsInt);
    ("wtd_trans_ly", 7, AsInt);
    ("wtd_trans_diff", 8, AsInt);
    ("wtd_trans_pct", 9, AsFloat);
    ("ptd_trans_ty", 10, AsInt);
    ("ptd_trans_ly", 11, AsInt);
    ("ptd_trans_diff", 12, AsInt);
    ("ptd_trans_pct", 13, AsFloat);
    ("ytd_trans_ty", 14, AsInt);
    ("ytd_trans_ly", 15, AsInt);
    ("ytd_trans_diff", 16, AsInt);
    ("ytd_trans_pct", 17, AsFloat);
    ("r13_trans_ty", 18, AsInt);
    ("r13_trans_ly", 19, AsInt);
    ("r13_trans_diff", 20, AsInt);
    ("r13_trans_pct", 21, AsFloat) ].

Definition channels_schema : schema :=
  [ ("avg_check_ty", 2, AsFloat);
    ("avg_check_ly", 3, AsFloat);
    ("avg_check_diff", 4, AsFloat);
    ("avg_check_pct", 5, AsFloat);
    ("dine_in_sales", 6, AsFloat);
    ("dine_in_trans", 7, AsInt);
    ("dine_in_avg_check", 8, AsFloat);
    ("dine_in_pct_sales", 9, AsFloat);
    ("carry_out_sales", 10, AsFloat);
    ("carry_out_trans", 11, AsInt);
    ("carry_out_avg_check", 12, AsFloat);
    ("carry_out_pct_sales", 13, AsFloat);
    ("delivery_sales", 14, AsFloat);
    ("delivery_trans", 15, AsInt);
    ("delivery_avg_check", 16, AsFloat);
    ("delivery_pct_sales", 17, AsFloat);
    ("drive_thru_sales", 18, AsFloat);
    ("drive_thru_trans", 19, AsInt);
    ("drive_thru_avg_check", 20, AsFloat);
    ("drive_thru_pct_sales", 21, AsFloat) ].

Definition labor_schema : schema :=
  [ ("labor_dollars", 2, AsFloat);
    ("labor_pct", 3, AsFloat);
    ("olo_sales", 4, AsFloat);
    ("doordash", 5, AsFloat);
    ("ubereats", 6, AsFloat);
    ("grubhub", 7, AsFloat);
    ("eatstreet", 8, AsFloat);
    ("ezcater", 9, AsFloat);
    ("total_3rd_party_dollars", 10, AsFloat);
    ("total_3rd_party_pct", 11, AsFloat) ].

(** The values of a dict display are evaluated in order: the first
    coercion that raises ends the evaluation. *)
Definition read_fields (ws : worksheet) (row : Z) (sch : schema) : result record :=
  mapM (fun '(k, col, c) => v <- coerce c (ws row col) ;; Ok (k, v)) sch.

(** [range(lo, hi)] *)
Definition range (lo hi : Z) : list Z :=
  map (fun i => lo + Z.of_nat i) (seq 0 (Z.to_nat (hi - lo))).

Inductive kind : Type := Sales | Transactions | Channels | Labor.

Definition kind_schema (k : kind) : schema :=
  match k with
  | Sales => sales_schema
  | Transactions => transactions_schema
  | Channels => channels_schema
  | Labor => labor_schema
  end.

Definition kind_rows (k : kind) : list Z :=
  match k with
  | Sales => range 8 16
  | Transactions => range 54 62
  | Channels => range 66 74
  | Labor => range 78 86
  end.

(** The label texts a section skips, beside the empty labels. *)
Definition skip_label (k : kind) (text : string) : bool :=
  match k with
  | Sales => contains "Totals" text || contains "Brand" text
  | _ => contains "Totals" text
  end.

Definition store_record (k : kind) (ws : worksheet) (d : date) (row : Z) : result record :=
  fs <- read_fields ws row (kind_schema k) ;;
  Ok (("date", VDate d) :: ("store", VStr (py_strip (py_str (ws row 1)))) :: fs).

(** One of the four loops over the rows of a section. *)
Fixpoint scan_rows (k : kind) (ws : worksheet) (d : date) (rows : list Z) : result (list record) :=
  match rows with
  | [] => Ok []
  | row :: rest =>
      let store_name := ws row 1 in
      if negb (truthy store_name) || skip_label k (py_str store_name)
      then scan_rows k ws d rest
      else
        r <- store_record k ws d row ;;
        rs <- scan_rows k ws d rest ;;
        Ok (r :: rs)
  end.

Definition store_records (k : kind) (ws : worksheet) (d : date) : result (list record) :=
  scan_rows k ws d (kind_rows k).

Definition brand_total_record (ws : worksheet) (d : date) : result record :=
  fs <- read_fields ws 16 brand_total_schema ;;
  Ok (("date", VDate d) :: fs).

Record parsed : Type := mkparsed {
  p_date : date;
  p_sales : list record;
  p_brand_total : record;
  p_transactions : list record;
  p_channels : list record;
  p_labor : list record
}.

Definition sheet_name : string := "Multibrand_DailyFlashReport".

(** [parse_flash_report(filepath)], on what the path holds.  [Ok None] is
    the [return None] of a header without a date. *)
Definition parse_flash_report (f : file) : result (option parsed) :=
  match f with
  | Unreadable e => Raise e
  | Workbook sheets chartsheets =>
      s <- workbook_getitem sheet_name sheets chartsheets ;;
      ws <- cells_of s ;;
      report_date <- parse_date_from_cell (ws 2 1) ;;
      match report_date with
      | None => Ok None
      | Some d =>
          sales_records <- store_records Sales ws d ;;
          brand_total <- brand_total_record ws d ;;
          trans_records <- store_records Transactions ws d ;;
          channel_records <- store_records Channels ws d ;;
          labor_records <- store_records Labor ws d ;;
          Ok (Some (mkparsed d sales_records brand_total trans_records
                             channel_records labor_records))
      end
  end.

(** ** The directory and the candidates *)

(** An entry of the folder: its name, its modification time
    ([os.path.getmtime], a finite float, of which only the order is used)
    and what the path holds.  The folder is the list of its entries in the
    order in which [glob.glob] enumerates them; its path is taken to hold
    none of the characters that [glob] reads as a pattern.  A file that
    disappears between its parse and the reading of its time is outside the
    model. *)
Record dir_entry : Type := mkfile {
  fname : string;
  fmtime : Z;
  fcontent : file
}.

Fixpoint strip_prefix (p s : string) : option string :=
  match p with
  | EmptyString => Some s
  | String a p' =>
      match s with
      | String b s' => if Ascii.eqb a b then strip_prefix p' s' else None
      | EmptyString => None
      end
  end.

Definition ends_with (suffix s : string) : bool :=
  prefix (string_rev suffix) (string_rev s).

(** The names the pattern [Multibrand_FlashReport*.xlsx] matches (with the
    case-sensitive matching of POSIX). *)
Definition glob_match (n : string) : bool :=
  match strip_prefix "Multibrand_FlashReport" n with
  | Some rest => ends_with ".xlsx" rest
  | None => false
  end.

Definition PREFERRED_SUFFIXES : list string := ["[74]"].

Fixpoint span_digits (s : string) : string * string :=
  match s with
  | EmptyString => (EmptyString, EmptyString)
  | String c r =>
      if is_digit c
      then let '(ds, rest) := span_digits r in (String c ds, rest)
      else (EmptyString, s)
  end.

(** The pattern [\[\d+\]] at the start of a text: the digits are taken
    greedily, and giving one back never helps since a digit would follow. *)
Definition match_suffix_at (s : string) : option string :=
  match s with
  | String "[" r =>
      match span_digits r with
      | (String d ds, String "]" _) => Some ("[" ++ String d ds ++ "]")%string
      | _ => None
      end
  | _ => None
  end.

Fixpoint search_suffix (s : string) : option string :=
  match match_suffix_at s with
  | Some t => Some t
  | None =>
      match s with
      | EmptyString => None
      | String _ r => search_suffix r
      end
  end.

Definition is_preferred (basename : string) : bool :=
  let suffix :=
    match search_suffix basename with
    | Some t => t
    | None => EmptyString
    end in
  existsb (String.eqb suffix) PREFERRED_SUFFIXES.

(** The tuple [(filepath, mtime, preferred, result)] *)
Record entry : Type := mkentry {
  e_path : string;
  e_mtime : Z;
  e_preferred : bool;
  e_result : parsed
}.

Definition date_eqb (a b : date) : bool :=
  (year a =? year b) && (month a =? month b) && (day a =? day b).

(** [parsed_by_date]: a dict keeps its keys in the order of their first
    insertion. *)
Definition groups : Type := list (date * list entry).

(** [parsed_by_date.setdefault(rdate, []).append(e)] *)
Fixpoint setdefault_append (rdate : date) (e : entry) (g : groups) : groups :=
  match g with
  | [] => [(rdate, [e])]
  | (d, es) :: rest =>
      if date_eqb rdate d then (d, es ++ [e]) :: rest
      else (d, es) :: setdefault_append rdate e rest
  end.

(** [try: body except Exception: handler]; every value of [exn] is an
    [Exception]. *)
Definition try_except {A : Type} (body : result A) (handler : exn -> result A) : result A :=
  match body with
  | Ok a => Ok a
  | Raise e => handler e
  end.

Fixpoint foldM {A B : Type} (f : A -> B -> result A) (a : A) (l : list B) : result A :=
  match l with
  | [] => Ok a
  | b :: l' => a' <- f a b ;; foldM f a' l'
  end.

(** The body of the first loop, for one file.  The handler prints a message
    and goes on with the next file; the message is not modelled. *)
Definition first_pass_file (acc : groups) (f : dir_entry) : result groups :=
  try_except
    (res <- parse_flash_report (fcontent f) ;;
     match res with
     | None => Ok acc
     | Some r =>
         Ok (setdefault_append (p_date r)
               (mkentry (fname f) (fmtime f) (is_preferred (fname f)) r) acc)
     end)
    (fun _ => Ok acc).

Definition first_pass (files : list dir_entry) : result groups :=
  foldM first_pass_file [] files.

(** ** Winner selection *)

(** [(a[2], a[1]) < (b[2], b[1])]: tuples compare item by item, and [False]
    is less than [True]. *)
Definition key_lt (a b : entry) : bool :=
  match e_preferred a, e_preferred b with
  | false, true => true
  | true, false => false
  | _, _ => e_mtime a <? e_mtime b
  end.

Fixpoint insert_sorted (x : entry) (l : list entry) : list entry :=
  match l with
  | [] => [x]
  | y :: r => if key_lt y x then y :: insert_sorted x r else x :: y :: r
  end.

(** The stable sort in ascending order of the key: entries of equal key
    stay in the order they had. *)
Definition sort_ascending (l : list entry) : list entry :=
  fold_right insert_sorted [] l.

(** [entries.sort(key=lambda e: (e[2], e[1]), reverse=True)]: the list is
    reversed, sorted in ascending order by the stable sort, and reversed
    again. *)
Definition sort_reverse (l : list entry) : list entry :=
  rev (sort_ascending (rev l)).

(** [entries[0]] after the sort *)
Definition winner (entries : list entry) : result entry :=
  match sort_reverse entries with
  | [] => Raise IndexError
  | w :: _ => Ok w
  end.

Record collected : Type := mkcollected {
  all_sales : list record;
  all_brand_totals : list record;
  all_transactions : list record;
  all_channels : list record;
  all_labor : list record
}.

(** The body of the second loop, for one date. *)
Definition second_pass_group (a : collected) (g : date * list entry) : result collected :=
  w <- winner (snd g) ;;
  let result := e_result w in
  Ok (mkcollected
        (all_sales a ++ p_sales result)
        (all_brand_totals a ++ [p_brand_total result])
        (all_transactions a ++ p_transactions result)
        (all_channels a ++ p_channels result)
        (all_labor a ++ p_labor result)).

Definition second_pass (g : groups) : result collected :=
  foldM second_pass_group (mkcollected [] [] [] [] []) g.

(** ** The tables *)

Record DataFrame : Type := mkframe {
  columns : list string;
  rows : list record
}.

(** [pd.DataFrame()] *)
Definition empty_frame : DataFrame := mkframe [] [].

Definition add_keys (cols : list string) (r : record) : list string :=
  fold_left (fun cs kv => if existsb (String.eqb (fst kv)) cs then cs else cs ++ [fst kv])
            r cols.

(** [pd.DataFrame(l)] for a list of dicts: the columns are the keys in the
    order of their first appearance.  The dicts of one list have the same
    keys here, so that no cell of the table is missing. *)
Definition pd_DataFrame (l : list record) : DataFrame :=
  mkframe (fold_left add_keys l []) l.

(** [pd.DataFrame(l) if l else pd.DataFrame()] *)
Definition frame_of (l : list record) : DataFrame :=
  match l with
  | [] => empty_frame
  | _ :: _ => pd_DataFrame l
  end.

(** [df.empty] *)
Definition df_empty (df : DataFrame) : bool :=
  match columns df, rows df with
  | _ :: _, _ :: _ => false
  | _, _ => true
  end.

(** [df.sort_values('date').reset_index(drop=True)] on the rows.  pandas
    sorts with an algorithm that need not keep rows of equal date in their
    order; the function is left open. *)
Variable sort_values : list record -> list record.

Definition sort_by_date (df : DataFrame) : DataFrame :=
  if negb (df_empty df) && existsb (String.eqb "date") (columns df)
  then mkframe (columns df) (sort_values (rows df))
  else df.

Record data : Type := mkdata {
  sales : DataFrame;
  brand_totals : DataFrame;
  transactions : DataFrame;
  channels : DataFrame;
  labor : DataFrame
}.

Definition load_all_reports (folder : list dir_entry) : result data :=
  let files := filter (fun f => glob_match (fname f)) folder in
  parsed_by_date <- first_pass files ;;
  a <- second_pass parsed_by_date ;;
  Ok (mkdata
        (sort_by_date (frame_of (all_sales a)))
        (sort_by_date (frame_of (all_brand_totals a)))
        (sort_by_date (frame_of (all_transactions a)))
        (sort_by_date (frame_of (all_channels a)))
        (sort_by_date (frame_of (all_labor a)))).

(** * Notions of the specification and of the proofs *)

Definition all_digits (s : string) : bool := string_forallb is_digit s.

(** The number a text of digits writes. *)
Definition decimal_number (s : string) : Z :=
  fold_left (fun acc c => 10 * acc + digit_val c) (list_ascii_of_string s) 0.

(** A numeric-looking text: a sign, digits, and possibly a point followed
    by digits, as in 1234.5 and 12.9. *)
Definition numeric_text (sign ip fp : string) : string :=
  (sign ++ ip ++ (if String.eqb fp "" then "" else "." ++ fp))%string.

Fixpoint string_repeat (c : ascii) (n : nat) : string :=
  match n with
  | O => EmptyString
  | S n' => String c (string_repeat c n')
  end.

(** A one followed by four hundred zeros. *)
Definition huge_number_text : string := String "1" (string_repeat "0" 400).

(** The characters of a numeric-looking text. *)
Definition plain_char (c : ascii) : bool :=
  is_digit c || Ascii.eqb c "+" || Ascii.eqb c "-" || Ascii.eqb c ".".

Definition digits_of (s : string) : list Z := map digit_val (list_ascii_of_string s).

(** The order of the specification: preferred entries first, and the newer
    first among entries of the same preference. *)
Definition ranks_before (a b : entry) : Prop :=
  (e_preferred b = true -> e_preferred a = true) /\
  (e_preferred a = e_preferred b -> e_mtime b <= e_mtime a).

(** The last of the entries that no entry exceeds. *)
Fixpoint last_max (l : list entry) : option entry :=
  match l with
  | [] => None
  | x :: r =>
      match last_max r with
      | None => Some x
      | Some w => if key_lt w x then Some x else Some w
      end
  end.

(** The sorted list ends with [w], which no entry exceeds. *)
Definition ends_with_max (s : list entry) (w : entry) : Prop :=
  exists init, s = init ++ [w] /\ forall y, In y init -> key_lt w y = false.

(** The rows a section passes over. *)
Definition skipped (k : kind) (ws : worksheet) (row : Z) : bool :=
  negb (truthy (ws row 1)) || skip_label k (py_str (ws row 1)).

Definition section_of (k : kind) (p : parsed) : list record :=
  match k with
  | Sales => p_sales p
  | Transactions => p_transactions p
  | Channels => p_channels p
  | Labor => p_labor p
  end.

(** A file whose parse gives a result. *)
Definition parses (f : dir_entry) : bool :=
  match parse_flash_report (fcontent f) with
  | Ok (Some _) => true
  | _ => false
  end.

(** What the first loop does with one file. *)
Definition group_step (acc : groups) (f : dir_entry) : groups :=
  match parse_flash_report (fcontent f) with
  | Ok (Some r) =>
      setdefault_append (p_date r)
        (mkentry (fname f) (fmtime f) (is_preferred (fname f)) r) acc
  | _ => acc
  end.

(** What the second loop collects from the winners, in their order. *)
Definition collect (acc : collected) (winners : list entry) : collected :=
  mkcollected
    (all_sales acc ++ flat_map (fun w => p_sales (e_result w)) winners)
    (all_brand_totals acc ++ map (fun w => p_brand_total (e_result w)) winners)
    (all_transactions acc ++ flat_map (fun w => p_transactions (e_result w)) winners)
    (all_channels acc ++ flat_map (fun w => p_channels (e_result w)) winners)
    (all_labor acc ++ flat_map (fun w => p_labor (e_result w)) winners).

(** A report some file parses to. *)
Definition parse_result (r : parsed) : Prop :=
  exists f, parse_flash_report f = Ok (Some r).

(** The groups the first loop can build: no date twice, no group empty, and
    every candidate a parsed report under its own date. *)
Definition well_grouped (g : groups) : Prop :=
  NoDup (map fst g) /\
  forall d es, In (d, es) g ->
    es <> [] /\
    forall e, In e es -> p_date (e_result e) = d /\ parse_result (e_result e).

(** The date of the report a file parses to, if it does. *)
Definition report_date_of (f : dir_entry) : list date :=
  match parse_flash_report (fcontent f) with
  | Ok (Some r) => [p_date r]
  | _ => []
  end.

(** The dates of the reports read from the matching files of a folder. *)
Definition parsed_dates (folder : list dir_entry) : list date :=
  flat_map report_date_of (filter (fun f => glob_match (fname f)) folder).

(** [r[key]] *)
Fixpoint lookup (key : string) (r : record) : option value :=
  match r with
  | [] => None
  | (k, v) :: rest => if String.eqb k key then Some v else lookup key rest
  end.

Definition has_date (d : date) (r : record) : bool :=
  match lookup "date" r with
  | Some (VDate x) => date_eqb x d
  | _ => false
  end.

(** The columns of a table of store records. *)
Definition kind_columns (k : kind) : list string :=
  "date" :: "store" :: map (fun f => fst (fst f)) (kind_schema k).

(** The columns of the table of brand totals. *)
Definition brand_columns : list string :=
  "date" :: map (fun f => fst (fst f)) brand_total_schema.

(** The keys of the numeric fields of the brand total and the columns of
    row 16 that the dict display of the source reads them from. *)
Definition brand_total_cells : list (string * Z) :=
  [ ("day_sales_ty", 2); ("day_sales_ly", 3); ("day_sales_diff", 4);
    ("day_sales_pct", 5);
    ("wtd_sales_ty", 6); ("wtd_sales_ly", 7); ("wtd_sales_diff", 8);
    ("wtd_sales_pct", 9);
    ("ptd_sales_ty", 10); ("ptd_sales_ly", 11); ("ptd_sales_diff", 12);
    ("ptd_sales_pct", 13);
    ("ytd_sales_ty", 14); ("ytd_sales_ly", 15); ("ytd_sales_diff", 16);
    ("ytd_sales_pct", 17);
    ("r13_sales_ty", 18); ("r13_sales_ly", 19); ("r13_sales_diff", 20);
    ("r13_sales_pct", 21) ].

(** The cells of the sheet that the parser can read: the header cell A2,
    the rows of the four sections with their label and their numeric
    columns, and the numeric columns of row 16. *)
Definition cell_read (row col : Z) : bool :=
  (row =? 2) && (col =? 1)
  || (((8 <=? row) && (row <=? 15)) || ((54 <=? row) && (row <=? 61))
      || ((66 <=? row) && (row <=? 73))) && ((1 <=? col) && (col <=? 21))
  || (row =? 16) && ((2 <=? col) && (col <=? 21))
  || ((78 <=? row) && (row <=? 85)) && ((1 <=? col) && (col <=? 11)).

Definition empty_data : data :=
  mkdata empty_frame empty_frame empty_frame empty_frame empty_frame.

(** Two sheets with the same cells, two files with the same sheets, two
    folders with the same files in the same order. *)
Definition same_cells (a b : worksheet) : Prop := forall row col, a row col = b row col.

Definition same_file (a b : file) : Prop :=
  match a, b with
  | Unreadable e, Unreadable e' => e = e'
  | Workbook s c, Workbook s' c' =>
      Forall2 (fun x y => fst x = fst y /\ same_cells (snd x) (snd y)) s s' /\
      c = c'
  | _, _ => False
  end.

Definition same_folder (a b : list dir_entry) : Prop :=
  Forall2 (fun x y => fname x = fname y /\ fmtime x = fmtime y /\
                      same_file (fcontent x) (fcontent y)) a b.

(** The five tables of the records collected. *)
Definition tables (a : collected) : data :=
  mkdata
    (sort_by_date (frame_of (all_sales a)))
    (sort_by_date (frame_of (all_brand_totals a)))
    (sort_by_date (frame_of (all_transactions a)))
    (sort_by_date (frame_of (all_channels a)))
    (sort_by_date (frame_of (all_labor a))).


(** The value a coercion gives for a blank cell. *)
Definition default_value (c : coercion) : value :=
  match c with
  | AsFloat => VFloat float_zero
  | AsInt => VInt 0
  end.

(** A token of the shape M/D/YYYY: one or two digits for the month and for
    the day, four for the year. *)
Definition date_token (m d y : string) : bool :=
  all_digits m && all_digits d && all_digits y &&
  ((String.length m =? 1) || (String.length m =? 2))%nat &&
  ((String.length d =? 1) || (String.length d =? 2))%nat &&
  (String.length y =? 4)%nat.

Definition token_text (m d y : string) : string :=
  (m ++ "/" ++ d ++ "/" ++ y)%string.

Definition starts_with_token (s : string) : Prop :=
  exists m d y post, date_token m d y = true /\ s = (token_text m d y ++ post)%string.

(** The text holds a date token somewhere. *)
Definition has_date_token (s : string) : Prop :=
  exists pre rest, s = (pre ++ rest)%string /\ starts_with_token rest.

(** The token is the first one of the text: none starts before it. *)
Definition first_token (s pre m d y post : string) : Prop :=
  s = (pre ++ token_text m d y ++ post)%string /\
  date_token m d y = true /\
  forall pre' rest, s = (pre' ++ rest)%string ->
    (String.length pre' < String.length pre)%nat -> ~ starts_with_token rest.

(** The candidates of a date among the files, in the order of the files:
    what the first loop appends under the date. *)
Definition candidates_of (d : date) (files : list dir_entry) : list entry :=
  flat_map (fun f =>
              match parse_flash_report (fcontent f) with
              | Ok (Some r) =>
                  if date_eqb (p_date r) d
                  then [mkentry (fname f) (fmtime f) (is_preferred (fname f)) r]
                  else []
              | _ => []
              end)
           files.

(** [parsed_by_date.get(d, [])] *)
Fixpoint group_of (d : date) (g : groups) : list entry :=
  match g with
  | [] => []
  | (d', es) :: rest => if date_eqb d d' then es else group_of d rest
  end.

(** The table of a kind of store records. *)
Definition table_of (k : kind) (t : data) : DataFrame :=
  match k with
  | Sales => sales t
  | Transactions => transactions t
  | Channels => channels t
  | Labor => labor t
  end.

(** A record under a date. *)
Definition dated (d : date) (r : record) : Prop := lookup "date" r = Some (VDate d).

Fixpoint distinct (l : list string) : bool :=
  match l with
  | [] => true
  | x :: r => negb (existsb (String.eqb x) r) && distinct r
  end.

(** ** Example sheets and folders *)

(** A sheet given by the list of its cells. *)
Definition sheet_of (l : list (Z * Z * cell)) : worksheet :=
  fun row col =>
    match find (fun x => (fst (fst x) =? row) && (snd (fst x) =? col)) l with
    | Some x => snd x
    | None => CNone
    end.

(** A report with one store: its header, the label of row 8 and the day
    sales of the store and of the brand. *)
Definition report_sheet (header label : string) (amount : Z) : worksheet :=
  sheet_of [ (2, 1, CStr header);
             (8, 1, CStr label); (8, 2, CInt amount);
             (16, 2, CInt amount);
             (54, 1, CStr label); (54, 2, CStr "12.9") ].

Definition june1_sheet : worksheet := report_sheet "Selected Date:6/1/2026" "Store A" 100.

Definition june1_rerun_sheet : worksheet :=
  report_sheet "Selected Date:6/1/2026" "Store A" 250.

Definition june2_sheet : worksheet := report_sheet "Selected Date:6/2/2026" "Store A" 70.

Definition no_date_sheet : worksheet := report_sheet "Daily Flash Report" "Store A" 100.

Definition bad_date_sheet : worksheet :=
  report_sheet "Selected Date:13/45/2026" "Store A" 100.

Definition grand_totals_sheet : worksheet :=
  report_sheet "Selected Date:6/1/2026" "Grand Totals" 100.

Definition upper_totals_sheet : worksheet :=
  report_sheet "Selected Date:6/1/2026" "TOTALS" 100.

(** A sheet whose row 10 is labelled as the brand row, and whose row 16 is
    empty. *)
Definition brand_sheet : worksheet :=
  sheet_of [ (2, 1, CStr "Selected Date:6/1/2026");
             (10, 1, CStr "Brand Total"); (10, 2, CInt 100) ].

(** A report with the text [inf] in a cell that is read as a count. *)
Definition overflow_sheet : worksheet :=
  sheet_of [ (2, 1, CStr "Selected Date:6/1/2026");
             (54, 1, CStr "Store A"); (54, 2, CStr "inf") ].

Definition report_file (n : string) (t : Z) (ws : worksheet) : dir_entry :=
  mkfile n t (Workbook [(sheet_name, ws)] []).

(** The folder of the scenario: an older file with the preferred tag and a
    newer one without it, for the same date; and a file for the next day. *)
Definition scenario_folder : list dir_entry :=
  [ report_file "Multibrand_FlashReport[50].xlsx" 2000 june1_sheet;
    report_file "Multibrand_FlashReport[74].xlsx" 1000 june1_rerun_sheet;
    report_file "Multibrand_FlashReport[75].xlsx" 3000 june2_sheet ].

(** A folder without a usable file: a name the pattern does not match, a
    file that cannot be read, a workbook without the sheet, a report without
    a date. *)
Definition unusable_folder : list dir_entry :=
  [ report_file "notes.xlsx" 5 june1_sheet;
    mkfile "Multibrand_FlashReport[1].xlsx" 10 (Unreadable OSError);
    mkfile "Multibrand_FlashReport[2].xlsx" 11 (Workbook [("Sheet1", june1_sheet)] []);
    report_file "Multibrand_FlashReport[3].xlsx" 12 no_date_sheet ].

(** The same folder with a broken file among the reports. *)
Definition mixed_folder : list dir_entry :=
  mkfile "Multibrand_FlashReport[1].xlsx" 10 (Unreadable OSError) :: scenario_folder.

(** A stand-in for [repr] in the examples, none of which reads the text of a
    float cell. *)
Definition example_repr (x : pyfloat) : string :=
  match x with
  | S754_zero s => if s then "-0.0" else "0.0"
  | S754_infinity s => if s then "-inf" else "inf"
  | S754_nan => "nan"
  | S754_finite _ _ _ => "1.0"
  end.

Definition date_ltb (a b : date) : bool :=
  (year a <? year b)
  || ((year a =? year b)
      && ((month a <? month b) || ((month a =? month b) && (day a <? day b)))).

Definition row_date (r : record) : date :=
  match lookup "date" r with
  | Some (VDate d) => d
  | _ => mkdate 0 0 0
  end.

Fixpoint insert_by_date (r : record) (l : list record) : list record :=
  match l with
  | [] => [r]
  | x :: l' =>
      if date_ltb (row_date x) (row_date r) then x :: insert_by_date r l'
      else r :: x :: l'
  end.

(** A sort of the rows by date for the examples: the stable one. *)
Definition example_sort (l : list record) : list record :=
  fold_right insert_by_date [] l.

Definition feb22_sheet : worksheet := report_sheet "Selected Date:2/22/2026" "Store A" 100.

(** The cells of [june1_sheet] listed in another order. *)
Definition june1_sheet_again : worksheet :=
  sheet_of [ (54, 2, CStr "12.9"); (54, 1, CStr "Store A");
             (16, 2, CInt 100);
             (8, 2, CInt 100); (8, 1, CStr "Store A");
             (2, 1, CStr "Selected Date:6/1/2026") ].

(** The pair of the date and the store of a row. *)
Definition date_store (r : record) : option value * option value :=
  (lookup "date" r, lookup "store" r).

(** A sheet whose header cell holds a number instead of a text. *)
Definition number_header_sheet : worksheet :=
  sheet_of [ (2, 1, CInt 20260601); (8, 1, CStr "Store A"); (8, 2, CInt 100) ].

(** The sheet of 6/1/2026 with a note in every cell that the parser does not
    read. *)
Definition annotated_sheet : worksheet :=
  fun row col => if cell_read row col then june1_sheet row col else CStr "note".

(** Two candidates of a date: a preferred one and a newer one. *)
Definition tagged_entry : entry :=
  mkentry "Multibrand_FlashReport[74].xlsx" 1000 true
          (mkparsed (mkdate 2026 6 1) [] [] [] [] []).

Definition newer_entry : entry :=
  mkentry "Multibrand_FlashReport[50].xlsx" 2000 false
          (mkparsed (mkdate 2026 6 1) [] [] [] [] []).

(** A workbook in which the name of the report sheet is that of a
    chartsheet. *)
Definition chart_workbook : file :=
  Workbook [("Data", june1_sheet)] [sheet_name].

(** * The dashboard: [dashboard.py]

    The functions of the dashboard that work on the tables of the loader.
    The selections of the side bar, [selected_date] and [selected_stores],
    are globals of the script; they are arguments here. *)

(** [s.split(sep)] for a separator that is not empty: the text is cut at
    the occurrences of the separator found from the left, which do not
    overlap.  [skip] counts the characters of the occurrence just found that
    are still to pass; [cur] is the part being read, reversed. *)
Fixpoint split_from (sep s : string) (skip : nat) (cur : string) : list string :=
  match s with
  | EmptyString => [string_rev cur]
  | String c r =>
      match skip with
      | S k => split_from sep r k cur
      | O =>
          if prefix sep s
          then string_rev cur :: split_from sep r (String.length sep - 1) EmptyString
          else split_from sep r 0 (String c cur)
      end
  end.

Definition py_split (sep s : string) : list string := split_from sep s 0 EmptyString.

(** [short_store(name)], for the names of the stores, which are strings. *)
Definition short_store (name : string) : string :=
  let parts := py_split " - " name in
  match parts with
  | _ :: p :: _ => p
  | _ => name
  end.

(** [df[key]]: the values of a column, [None] where a row has none, and
    [KeyError] for a key that is no column of the table. *)
Definition get_column (df : DataFrame) (key : string) : result (list (option value)) :=
  if existsb (String.eqb key) (columns df)
  then Ok (map (lookup key) (rows df))
  else Raise KeyError.

(** [column == selected_date], value by value *)
Definition eq_date (selected_date : date) (v : option value) : bool :=
  match v with
  | Some (VDate d) => date_eqb d selected_date
  | _ => false
  end.

(** [column.isin(selected_stores)], value by value *)
Definition isin (selected_stores : list string) (v : option value) : bool :=
  match v with
  | Some (VStr s) => existsb (String.eqb s) selected_stores
  | _ => false
  end.

(** [a & b] on two masks *)
Fixpoint mask_and (a b : list bool) : list bool :=
  match a, b with
  | x :: a', y :: b' => (x && y) :: mask_and a' b'
  | _, _ => []
  end.

(** The rows a mask keeps. *)
Fixpoint select_rows (l : list record) (mask : list bool) : list record :=
  match l, mask with
  | r :: l', m :: mask' => if m then r :: select_rows l' mask' else select_rows l' mask'
  | _, _ => []
  end.

(** [df[mask]] *)
Definition df_mask (df : DataFrame) (mask : list bool) : DataFrame :=
  mkframe (columns df) (select_rows (rows df) mask).

(** [filter_df(df)]: the rows of the selected date and stores. *)
Definition filter_df (selected_date : date) (selected_stores : list string)
           (df : DataFrame) : result DataFrame :=
  dates <- get_column df "date" ;;
  stores <- get_column df "store" ;;
  let mask := mask_and (map (eq_date selected_date) dates)
                       (map (isin selected_stores) stores) in
  Ok (df_mask df mask).

(** [filter_stores(df)]: the rows of the selected stores, for all dates. *)
Definition filter_stores (selected_stores : list string) (df : DataFrame) : result DataFrame :=
  stores <- get_column df "store" ;;
  Ok (df_mask df (map (isin selected_stores) stores)).

(** [brand_df[brand_df['date'] == selected_date]], the [day_brand] of the
    script. *)
Definition day_brand (selected_date : date) (brand_df : DataFrame) : result DataFrame :=
  dates <- get_column brand_df "date" ;;
  Ok (df_mask brand_df (map (eq_date selected_date) dates)).

(** A row of a store that is selected. *)
Definition store_selected (selected_stores : list string) (r : record) : bool :=
  isin selected_stores (lookup "store" r).
(** * Properties *)

(** ** Strings *)

Lemma append_assoc (s t u : string) : ((s ++ t) ++ u = s ++ (t ++ u))%string.
Proof. induction s as [|c s IH]; simpl; congruence. Qed.

Lemma append_nil_r (s : string) : (s ++ "")%string = s.
Proof. induction s as [|c s IH]; simpl; congruence. Qed.

Lemma string_rev_onto_app (s acc : string) :
  string_rev_onto s acc = (string_rev s ++ acc)%string.
Proof.
  unfold string_rev. revert acc.
  induction s as [|c s IH]; intros acc; simpl; [reflexivity|].
  rewrite IH, (IH (String c "")).
  rewrite append_assoc. reflexivity.
Qed.

Lemma string_rev_cons (c : ascii) (s : string) :
  string_rev (String c s) = (string_rev s ++ String c "")%string.
Proof. unfold string_rev at 1. simpl. apply string_rev_onto_app. Qed.

Lemma string_rev_app (s t : string) :
  string_rev (s ++ t) = (string_rev t ++ string_rev s)%string.
Proof.
  induction s as [|c s IH]; simpl.
  - rewrite append_nil_r. reflexivity.
  - rewrite !string_rev_cons, IH, append_assoc. reflexivity.
Qed.

Lemma string_rev_involutive (s : string) : string_rev (string_rev s) = s.
Proof.
  induction s as [|c s IH]; [reflexivity|].
  rewrite string_rev_cons, string_rev_app, IH. reflexivity.
Qed.

Lemma string_forallb_app (p : ascii -> bool) (s t : string) :
  string_forallb p (s ++ t) = string_forallb p s && string_forallb p t.
Proof.
  induction s as [|c s IH]; simpl; [reflexivity|].
  rewrite IH, andb_assoc. reflexivity.
Qed.

Lemma string_forallb_rev (p : ascii -> bool) (s : string) :
  string_forallb p (string_rev s) = string_forallb p s.
Proof.
  induction s as [|c s IH]; [reflexivity|].
  rewrite string_rev_cons, string_forallb_app, IH. simpl.
  rewrite andb_true_r. apply andb_comm.
Qed.

Lemma string_forallb_impl (p q : ascii -> bool) (s : string) :
  (forall c, p c = true -> q c = true) ->
  string_forallb p s = true -> string_forallb q s = true.
Proof.
  intros Hpq. induction s as [|c s IH]; simpl; [reflexivity|].
  intros H. apply andb_true_iff in H. destruct H as [Hc Hs].
  rewrite (Hpq _ Hc), (IH Hs). reflexivity.
Qed.

Lemma lstrip_none (p : ascii -> bool) (s : string) :
  string_forallb (fun c => negb (p c)) s = true -> lstrip p s = s.
Proof.
  destruct s as [|c s]; simpl; [reflexivity|].
  intros H. apply andb_true_iff in H. destruct H as [Hc _].
  apply negb_true_iff in Hc. rewrite Hc. reflexivity.
Qed.

Lemma rstrip_none (p : ascii -> bool) (s : string) :
  string_forallb (fun c => negb (p c)) s = true -> rstrip p s = s.
Proof.
  intros H. unfold rstrip.
  rewrite lstrip_none by (rewrite string_forallb_rev; exact H).
  apply string_rev_involutive.
Qed.


Lemma ascii_cases (P : ascii -> Prop) :
  (forall n, (n < 256)%nat -> P (ascii_of_nat n)) -> forall c, P c.
Proof.
  intros H c. rewrite <- (ascii_nat_embedding c). apply H. apply nat_ascii_bounded.
Qed.

Lemma plain_char_facts (c : ascii) :
  plain_char c = true ->
  Ascii.eqb c "_" = false /\ is_c_space c = false /\
  ((code c =? 133) || (code c =? 160)) = false.
Proof.
  destruct c as [[] [] [] [] [] [] [] []]; vm_compute; intros H;
    first [discriminate H | repeat split].
Qed.

Lemma digit_plain (c : ascii) : is_digit c = true -> plain_char c = true.
Proof. intros H. unfold plain_char. rewrite H. reflexivity. Qed.

Lemma transform_space_plain (s : string) :
  string_forallb plain_char s = true -> transform_space s = s.
Proof.
  unfold transform_space.
  induction s as [|c s IH]; simpl; [reflexivity|].
  intros H. apply andb_true_iff in H. destruct H as [Hc Hs].
  destruct (plain_char_facts c Hc) as (_ & _ & ->).
  rewrite (IH Hs). reflexivity.
Qed.

Lemma drop_underscores_plain (s : string) (prev : ascii) :
  string_forallb plain_char s = true -> Ascii.eqb prev "_" = false ->
  drop_underscores prev s = Some s.
Proof.
  revert prev. induction s as [|c s IH]; simpl; intros prev H Hp.
  - rewrite Hp. reflexivity.
  - apply andb_true_iff in H. destruct H as [Hc Hs].
    destruct (plain_char_facts c Hc) as (Hu & _ & _).
    rewrite Hu, Hp. simpl. rewrite (IH c Hs Hu). reflexivity.
Qed.

Lemma strip_plain (s : string) :
  string_forallb plain_char s = true ->
  rstrip is_c_space (lstrip is_c_space s) = s.
Proof.
  intros H.
  assert (Hn : string_forallb (fun c => negb (is_c_space c)) s = true).
  { revert H. apply string_forallb_impl. intros c Hc.
    destruct (plain_char_facts c Hc) as (_ & -> & _). reflexivity. }
  rewrite lstrip_none by exact Hn. apply rstrip_none, Hn.
Qed.


Lemma digits_value_digits_of (s : string) : digits_value (digits_of s) = decimal_number s.
Proof.
  unfold digits_value, digits_of, decimal_number.
  generalize 0. induction (list_ascii_of_string s) as [|c l IH]; intros acc; simpl;
    [reflexivity | apply IH].
Qed.

Lemma digits_of_app (s t : string) : digits_of (s ++ t) = digits_of s ++ digits_of t.
Proof.
  unfold digits_of. induction s as [|c s IH]; simpl; [reflexivity|].
  f_equal. exact IH.
Qed.

Lemma take_digits_app (s rest : string) :
  all_digits s = true ->
  take_digits (s ++ rest) =
  (digits_of s ++ fst (take_digits rest), snd (take_digits rest)).
Proof.
  unfold all_digits. induction s as [|c s IH]; simpl; intros H.
  - destruct (take_digits rest); reflexivity.
  - apply andb_true_iff in H. destruct H as [Hc Hs].
    rewrite Hc, (IH Hs). reflexivity.
Qed.

Lemma take_digits_all (s : string) :
  all_digits s = true -> take_digits s = (digits_of s, EmptyString).
Proof.
  intros H. rewrite <- (append_nil_r s) at 1.
  rewrite take_digits_app by exact H. simpl. rewrite app_nil_r. reflexivity.
Qed.

Lemma take_sign_digit (c : ascii) (s : string) :
  is_digit c = true -> take_sign (String c s) = (false, String c s).
Proof.
  destruct c as [[] [] [] [] [] [] [] []]; vm_compute; intros H;
    first [discriminate H | reflexivity].
Qed.

Lemma parse_decimal_numeric (sign ip fp : string) :
  In sign [""; "+"; "-"] -> ip <> "" ->
  all_digits ip = true -> all_digits fp = true ->
  parse_decimal (numeric_text sign ip fp) =
  Some (String.eqb sign "-", decimal_number (ip ++ fp), - Z.of_nat (String.length fp)).
Proof.
  intros Hsign Hne Hip Hfp.
  assert (Hs : take_sign (numeric_text sign ip fp) =
               (String.eqb sign "-",
                (ip ++ (if String.eqb fp "" then "" else "." ++ fp))%string)).
  { unfold numeric_text. destruct ip as [|c ip]; [congruence|].
    simpl in Hip. apply andb_true_iff in Hip. destruct Hip as [Hc _].
    simpl in Hsign. destruct Hsign as [<-|[<-|[<-|[]]]]; simpl; try reflexivity.
    apply take_sign_digit, Hc. }
  unfold parse_decimal. rewrite Hs.
  rewrite take_digits_app by exact Hip.
  assert (Hd : digits_of ip <> []).
  { destruct ip; [congruence | discriminate]. }
  destruct fp as [|f fp].
  - simpl. rewrite !app_nil_r, append_nil_r.
    destruct (digits_of ip) eqn:E; [congruence|].
    rewrite <- E, digits_value_digits_of. reflexivity.
  - change (String.eqb (String f fp) "") with false. cbv iota.
    change ("." ++ String f fp)%string with (String "." (String f fp)).
    change (take_digits (String "." (String f fp))) with
      (@nil Z, String "." (String f fp)).
    cbn [fst snd]. rewrite app_nil_r.
    rewrite take_digits_all by exact Hfp.
    destruct (digits_of ip ++ digits_of (String f fp)) eqn:E.
    { apply app_eq_nil in E. tauto. }
    rewrite <- E, <- digits_of_app, digits_value_digits_of.
    cbn [parse_exponent]. f_equal. f_equal.
    unfold digits_of. rewrite length_map.
    clear. generalize (String f fp). intros s.
    induction s as [|c s IH]; [reflexivity|].
    cbn [list_ascii_of_string List.length String.length]. lia.
Qed.

Lemma numeric_text_plain (sign ip fp : string) :
  In sign [""; "+"; "-"] -> all_digits ip = true -> all_digits fp = true ->
  string_forallb plain_char (numeric_text sign ip fp) = true.
Proof.
  intros Hsign Hip Hfp. unfold numeric_text.
  rewrite !string_forallb_app.
  assert (D : forall s, all_digits s = true -> string_forallb plain_char s = true).
  { intros s. apply string_forallb_impl, digit_plain. }
  rewrite (D _ Hip).
  replace (string_forallb plain_char sign) with true
    by (simpl in Hsign; destruct Hsign as [<-|[<-|[<-|[]]]]; reflexivity).
  destruct (String.eqb fp ""); [reflexivity|].
  simpl. rewrite (D _ Hfp). reflexivity.
Qed.

Lemma float_of_string_numeric (sign ip fp : string) :
  In sign [""; "+"; "-"] -> ip <> "" ->
  all_digits ip = true -> all_digits fp = true ->
  float_of_string (numeric_text sign ip fp) =
  Some (float_of_decimal (String.eqb sign "-") (decimal_number (ip ++ fp))
                         (- Z.of_nat (String.length fp))).
Proof.
  intros Hsign Hne Hip Hfp.
  pose proof (numeric_text_plain sign ip fp Hsign Hip Hfp) as Hplain.
  unfold float_of_string.
  rewrite transform_space_plain by exact Hplain.
  rewrite drop_underscores_plain by (exact Hplain || reflexivity).
  rewrite strip_plain by exact Hplain.
  rewrite parse_decimal_numeric by assumption.
  reflexivity.
Qed.

(** ** The coercions *)

Lemma safe_float_blank (v : cell) : is_blank v = true -> safe_float v = Ok float_zero.
Proof. intros H. unfold safe_float. rewrite H. reflexivity. Qed.

Lemma safe_int_blank (v : cell) : is_blank v = true -> safe_int v = Ok 0.
Proof. intros H. unfold safe_int. rewrite H. reflexivity. Qed.

Lemma safe_float_parse_failure (v : cell) :
  py_float v = Raise ValueError \/ py_float v = Raise TypeError ->
  safe_float v = Ok float_zero.
Proof.
  intros H. unfold safe_float. destruct (is_blank v); [reflexivity|].
  destruct H as [-> | ->]; reflexivity.
Qed.

Lemma safe_int_parse_failure (v : cell) :
  py_float v = Raise ValueError \/ py_float v = Raise TypeError ->
  safe_int v = Ok 0.
Proof.
  intros H. unfold safe_int. destruct (is_blank v); [reflexivity|].
  destruct H as [-> | ->]; reflexivity.
Qed.

Lemma safe_float_cases (v : cell) :
  (exists x, safe_float v = Ok x) \/ safe_float v = Raise OverflowError.
Proof.
  unfold safe_float. destruct (is_blank v); [left; eauto|].
  destruct (py_float v) as [x|[]] eqn:E; simpl; eauto.
  - destruct v; simpl in E; try discriminate.
    + destruct (float_of_string s); discriminate.
    + unfold float_of_int in E.
      destruct (binary_normalize 53 1024 n 0 false); discriminate.
  - destruct v; simpl in E; try discriminate.
    + destruct (float_of_string s); discriminate.
    + unfold float_of_int in E.
      destruct (binary_normalize 53 1024 n 0 false); discriminate.
  - destruct v; simpl in E; try discriminate.
    + destruct (float_of_string s); discriminate.
    + unfold float_of_int in E.
      destruct (binary_normalize 53 1024 n 0 false); discriminate.
Qed.

Lemma numeric_text_not_blank (sign ip fp : string) :
  In sign [""; "+"; "-"] -> ip <> "" -> all_digits ip = true ->
  is_blank (CStr (numeric_text sign ip fp)) = false.
Proof.
  intros Hsign Hne Hip. unfold numeric_text.
  destruct ip as [|c ip]; [congruence|].
  simpl in Hip. apply andb_true_iff in Hip. destruct Hip as [Hc _].
  assert (Hm : Ascii.eqb c "-" = false).
  { revert Hc. clear. destruct c as [[] [] [] [] [] [] [] []]; vm_compute;
      intros H; first [discriminate H | reflexivity]. }
  simpl in Hsign. destruct Hsign as [<-|[<-|[<-|[]]]]; simpl.
  - rewrite Hm. reflexivity.
  - reflexivity.
  - reflexivity.
Qed.

(** [int()] discards the fraction of a finite float, toward zero. *)
Lemma int_of_float_finite (sg : bool) (m : positive) (e : Z) :
  exists n, int_of_float (S754_finite sg m e) = Ok n /\
    (if sg then n <= 0 else 0 <= n) /\
    Z.abs n * 2 ^ Z.max 0 (- e) <= Zpos m * 2 ^ Z.max 0 e
      < (Z.abs n + 1) * 2 ^ Z.max 0 (- e).
Proof.
  set (a := if 0 <=? e then Zpos m * 2 ^ e else Zpos m / 2 ^ (- e)).
  exists (if sg then - a else a). split; [reflexivity|].
  assert (Ha : 0 <= a /\
               a * 2 ^ Z.max 0 (- e) <= Zpos m * 2 ^ Z.max 0 e
                 < (a + 1) * 2 ^ Z.max 0 (- e)).
  { unfold a. destruct (Z.leb_spec 0 e) as [He|He].
    - rewrite (Z.max_l 0 (- e)), (Z.max_r 0 e) by lia.
      change (2 ^ 0) with 1. pose proof (Z.pow_nonneg 2 e). nia.
    - rewrite (Z.max_r 0 (- e)), (Z.max_l 0 e) by lia.
      change (2 ^ 0) with 1.
      assert (Hp : 0 < 2 ^ (- e)) by (apply Z.pow_pos_nonneg; lia).
      pose proof (Z.div_pos (Zpos m) _ ltac:(lia) Hp).
      pose proof (Z.mul_div_le (Zpos m) _ Hp).
      pose proof (Z.mul_succ_div_gt (Zpos m) _ Hp).
      nia. }
  destruct Ha as [Ha0 Ha]. destruct sg.
  - split; [lia|]. rewrite Z.abs_opp, Z.abs_eq by lia. exact Ha.
  - split; [lia|]. rewrite Z.abs_eq by lia. exact Ha.
Qed.

Lemma digits2_pos_lower (p : positive) : 2 ^ (Zpos (digits2_pos p) - 1) <= Zpos p.
Proof.
  induction p as [p IH|p IH|]; cbn [digits2_pos].
  - rewrite Pos2Z.inj_succ. replace (Z.succ (Zpos (digits2_pos p)) - 1)
      with (Z.succ (Zpos (digits2_pos p) - 1)) by lia.
    rewrite Z.pow_succ_r by lia. lia.
  - rewrite Pos2Z.inj_succ. replace (Z.succ (Zpos (digits2_pos p)) - 1)
      with (Z.succ (Zpos (digits2_pos p) - 1)) by lia.
    rewrite Z.pow_succ_r by lia. lia.
  - simpl. lia.
Qed.

Lemma digits2_pos_iter (p k : positive) :
  digits2_pos (Pos.iter xO p k) = (digits2_pos p + k)%positive.
Proof.
  induction k as [|k IH] using Pos.peano_ind.
  - simpl. lia.
  - rewrite Pos.iter_succ. cbn [digits2_pos]. rewrite IH. lia.
Qed.

Lemma iter_xO_value (p k : positive) : Zpos (Pos.iter xO p k) = Zpos p * 2 ^ Zpos k.
Proof.
  induction k as [|k IH] using Pos.peano_ind.
  - simpl. lia.
  - rewrite Pos.iter_succ, Pos2Z.inj_xO, IH, Pos2Z.inj_succ, Z.pow_succ_r by lia. lia.
Qed.

(** An integer below 2^53 is a binary64 number. *)
Lemma binary_round_small (neg : bool) (p : positive) :
  Zpos p < 2 ^ 53 ->
  exists m e, binary_round 53 1024 neg p 0 = S754_finite neg m e /\
              e <= 0 /\ Zpos m = Zpos p * 2 ^ (- e).
Proof.
  intros Hp.
  assert (Hd : Zpos (digits2_pos p) <= 53).
  { pose proof (digits2_pos_lower p) as H.
    destruct (Z_le_gt_dec (Zpos (digits2_pos p)) 53) as [|Hgt]; [assumption|].
    exfalso. assert (2 ^ 53 <= 2 ^ (Zpos (digits2_pos p) - 1))
      by (apply Z.pow_le_mono_r; lia). lia. }
  unfold binary_round.
  assert (Hf : fexp 53 1024 (Zpos (digits2_pos p) + 0) = Zpos (digits2_pos p) - 53).
  { unfold fexp, emin. lia. }
  rewrite Hf. unfold shl_align.
  destruct (Zpos (digits2_pos p) - 53 - 0) as [|k|k] eqn:Ek; try lia.
  - exists p, 0. split; [|split; [lia|simpl; lia]].
    unfold binary_round_aux, shr_fexp. cbn [Zdigits2 shr_record_of_loc].
    replace (fexp 53 1024 (Zpos (digits2_pos p) + 0) - 0) with 0
      by (unfold fexp, emin; lia).
    cbn [shr shr_m loc_of_shr_record round_nearest_even Zdigits2 shr_record_of_loc].
    replace (fexp 53 1024 (Zpos (digits2_pos p) + 0) - 0) with 0
      by (unfold fexp, emin; lia).
    reflexivity.
  - exists (Pos.iter xO p k), (Zpos (digits2_pos p) - 53).
    split; [|split; [lia|]].
    + unfold binary_round_aux, shr_fexp. cbn [Zdigits2 shr_record_of_loc].
      rewrite digits2_pos_iter.
      replace (fexp 53 1024 (Zpos (digits2_pos p + k) + (Zpos (digits2_pos p) - 53))
               - (Zpos (digits2_pos p) - 53)) with 0
        by (unfold fexp, emin; lia).
      cbn [shr shr_m loc_of_shr_record round_nearest_even Zdigits2 shr_record_of_loc].
      rewrite digits2_pos_iter.
      replace (fexp 53 1024 (Zpos (digits2_pos p + k) + (Zpos (digits2_pos p) - 53))
               - (Zpos (digits2_pos p) - 53)) with 0
        by (unfold fexp, emin; lia).
      cbn [shr shr_m].
      replace (Zpos (digits2_pos p) - 53 <=? 1024 - 53) with true
        by (symmetry; apply Z.leb_le; lia).
      reflexivity.
    + rewrite iter_xO_value. f_equal. f_equal. lia.
Qed.

(** The coercions keep a whole number below 2^53 as it is. *)
Lemma float_of_decimal_small (neg : bool) (n : Z) :
  0 < n < 2 ^ 53 ->
  exists m e, float_of_decimal neg n 0 = S754_finite neg m e /\
              e <= 0 /\ Zpos m = n * 2 ^ (- e) /\
              int_of_float (S754_finite neg m e) = Ok (if neg then - n else n).
Proof.
  intros Hn. destruct n as [|p|p]; try lia.
  destruct (binary_round_small neg p) as (m & e & Hr & He & Hm); [lia|].
  exists m, e. unfold float_of_decimal. cbn [Z.leb Z.compare Z.pow Z.to_pos].
  rewrite Pos.mul_1_r. split; [exact Hr|]. split; [exact He|]. split; [exact Hm|].
  cbn [int_of_float]. rewrite Hm.
  destruct (Z.leb_spec 0 e) as [H0|H0].
  - replace e with 0 by lia. change (2 ^ (- 0)) with 1. change (2 ^ 0) with 1.
    rewrite !Z.mul_1_r. reflexivity.
  - rewrite Z.div_mul by (apply Z.pow_nonzero; lia). reflexivity.
Qed.

(** C6 (amended).  For a numeric-looking text (a sign, digits, and possibly
    a point with digits), [safe_float] returns what [float()] reads, the
    binary64 float nearest to the number written; when that float is finite
    [safe_int] returns it with its fraction discarded, toward zero; when it
    is zero [safe_int] returns 0; and for a whole number between 0 and 2^53
    both coercions keep the number as it is. *)
Theorem numeric_text_coercion (sign ip fp : string) :
  In sign [""; "+"; "-"] -> ip <> "" ->
  all_digits ip = true -> all_digits fp = true ->
  let text := numeric_text sign ip fp in
  let x := float_of_decimal (String.eqb sign "-") (decimal_number (ip ++ fp))
                            (- Z.of_nat (String.length fp)) in
  safe_float (CStr text) = Ok x /\
  (forall sg m e, x = S754_finite sg m e ->
     exists n, safe_int (CStr text) = Ok n /\
       (if sg then n <= 0 else 0 <= n) /\
       Z.abs n * 2 ^ Z.max 0 (- e) <= Zpos m * 2 ^ Z.max 0 e
         < (Z.abs n + 1) * 2 ^ Z.max 0 (- e)) /\
  (forall sg, x = S754_zero sg -> safe_int (CStr text) = Ok 0) /\
  (fp = "" -> 0 < decimal_number ip < 2 ^ 53 ->
     safe_int (CStr text)
     = Ok (if String.eqb sign "-" then - decimal_number ip else decimal_number ip) /\
     exists m e, x = S754_finite (String.eqb sign "-") m e /\
                 e <= 0 /\ Zpos m = decimal_number ip * 2 ^ (- e)).
Proof.
  intros Hsign Hne Hip Hfp text x.
  pose proof (float_of_string_numeric sign ip fp Hsign Hne Hip Hfp) as Hf.
  pose proof (numeric_text_not_blank sign ip fp Hsign Hne Hip) as Hb.
  fold text in Hf, Hb. fold x in Hf.
  unfold safe_float, safe_int. rewrite Hb. cbn [py_float]. rewrite Hf.
  split; [reflexivity|]. split; [|split].
  - intros sg m e Hx. rewrite Hx.
    destruct (int_of_float_finite sg m e) as (n & Hn & Hs & Ht).
    exists n. cbn [bind]. rewrite Hn. auto.
  - intros sg Hx. rewrite Hx. reflexivity.
  - intros -> Hsmall. unfold x. rewrite append_nil_r. cbn [String.length Z.of_nat Z.opp].
    destruct (float_of_decimal_small (String.eqb sign "-") _ Hsmall)
      as (m & e & Hx & He & Hm & Hi).
    rewrite Hx. cbn [bind]. rewrite Hi. split; [reflexivity|]. eauto.
Qed.

Lemma safe_int_cases (v : cell) :
  (exists n, safe_int v = Ok n) \/ safe_int v = Raise OverflowError.
Proof.
  unfold safe_int. destruct (is_blank v); [left; eauto|].
  assert (H : forall r : result Z,
             (forall e, r = Raise e -> e = ValueError \/ e = TypeError \/ e = OverflowError) ->
             (exists n, except_value_type r 0 = Ok n)
             \/ except_value_type r 0 = Raise OverflowError).
  { intros [n|e] He; simpl; [eauto|].
    destruct (He e eq_refl) as [->|[->| ->]]; eauto. }
  apply H. intros e He.
  destruct (py_float v) as [x|e'] eqn:E; simpl in He.
  - destruct x; simpl in He; try discriminate; injection He as <-; auto.
  - injection He as <-. destruct v; simpl in E; try (injection E as <-; auto).
    + destruct (float_of_string s); [discriminate | injection E as <-; auto].
    + unfold float_of_int in E.
      destruct (binary_normalize 53 1024 n 0 false); try discriminate.
      injection E as <-. auto.
    + discriminate.
    + discriminate.
Qed.

(** C4.  The coercions at inputs where they raise: [safe_int] raises
    [OverflowError] on the texts [inf], [-Infinity] and [1e999] and on an
    infinite float, and both coercions raise it on an integer too large for
    a float.  The exception is not among those the coercions catch. *)
Theorem coercion_overflow_escapes :
  safe_int (CStr "inf") = Raise OverflowError /\
  safe_int (CStr "-Infinity") = Raise OverflowError /\
  safe_int (CStr "1e999") = Raise OverflowError /\
  safe_int (CFloat (S754_infinity false)) = Raise OverflowError /\
  safe_float (CInt (10 ^ 400)) = Raise OverflowError /\
  safe_int (CInt (10 ^ 400)) = Raise OverflowError.
Proof. vm_compute. repeat split. Qed.
(** ** Winner selection *)

Lemma key_lt_irrefl (a : entry) : key_lt a a = false.
Proof. unfold key_lt. destruct (e_preferred a); apply Z.ltb_irrefl. Qed.

Lemma key_lt_trans (a b c : entry) :
  key_lt a b = true -> key_lt b c = true -> key_lt a c = true.
Proof.
  unfold key_lt.
  destruct (e_preferred a), (e_preferred b), (e_preferred c);
    try discriminate; try reflexivity; rewrite !Z.ltb_lt; lia.
Qed.

(** [a <= b] and [b < c] give [a < c]. *)
Lemma key_le_lt_trans (a b c : entry) :
  key_lt b a = false -> key_lt b c = true -> key_lt a c = true.
Proof.
  unfold key_lt.
  destruct (e_preferred a), (e_preferred b), (e_preferred c);
    try discriminate; try reflexivity;
    rewrite ?Z.ltb_lt, ?Z.ltb_ge; lia.
Qed.

Lemma key_le_trans (a b c : entry) :
  key_lt b a = false -> key_lt c b = false -> key_lt c a = false.
Proof.
  unfold key_lt.
  destruct (e_preferred a), (e_preferred b), (e_preferred c);
    try discriminate; try reflexivity;
    rewrite ?Z.ltb_lt, ?Z.ltb_ge; lia.
Qed.

Lemma insert_sorted_perm (x : entry) (l : list entry) :
  Permutation (insert_sorted x l) (x :: l).
Proof.
  induction l as [|y l IH]; simpl; [reflexivity|].
  destruct (key_lt y x); [|reflexivity].
  rewrite IH. apply perm_swap.
Qed.

Lemma sort_ascending_perm (l : list entry) : Permutation (sort_ascending l) l.
Proof.
  induction l as [|x l IH]; simpl; [reflexivity|].
  rewrite insert_sorted_perm. constructor. exact IH.
Qed.

Lemma sort_reverse_perm (l : list entry) : Permutation (sort_reverse l) l.
Proof.
  unfold sort_reverse.
  rewrite <- Permutation_rev, sort_ascending_perm, <- Permutation_rev. reflexivity.
Qed.


Lemma insert_sorted_ends (x w : entry) (s : list entry) :
  ends_with_max s w ->
  ends_with_max (insert_sorted x s) (if key_lt w x then x else w).
Proof.
  intros (init & -> & Hmax).
  destruct (key_lt w x) eqn:Hwx.
  - exists (init ++ [w]). split.
    + induction init as [|y init IH]; simpl.
      * rewrite Hwx. reflexivity.
      * rewrite (key_le_lt_trans y w x) by (auto using in_eq).
        f_equal. apply IH. intros z Hz. apply Hmax. now right.
    + intros y Hy. apply in_app_or in Hy. destruct Hy as [Hy|[<-|[]]].
      * destruct (key_lt x y) eqn:E; [|reflexivity].
        rewrite <- (Hmax y Hy). symmetry. eapply key_lt_trans; eassumption.
      * destruct (key_lt x w) eqn:E; [|reflexivity].
        rewrite <- (key_lt_irrefl w). symmetry. eapply key_lt_trans; eassumption.
  - induction init as [|y init IH]; simpl.
    + rewrite Hwx. exists [x]. split; [reflexivity|].
      intros y [<-|[]]. exact Hwx.
    + destruct (key_lt y x).
      * destruct IH as (init' & Heq & Hmax').
        { intros z Hz. apply Hmax. now right. }
        exists (y :: init'). split; [simpl; now rewrite Heq|].
        intros z [<-|Hz]; [apply Hmax; now left | now apply Hmax'].
      * exists (x :: y :: init). split; [reflexivity|].
        intros z [<-|Hz]; [exact Hwx | now apply Hmax].
Qed.

Lemma sort_ascending_ends (l : list entry) (w : entry) :
  last_max l = Some w -> ends_with_max (sort_ascending l) w.
Proof.
  revert w. induction l as [|x l IH]; simpl; intros w H; [discriminate|].
  destruct (last_max l) as [w'|] eqn:E.
  - specialize (IH w' eq_refl).
    apply (insert_sorted_ends x) in IH.
    destruct (key_lt w' x); injection H as <-; exact IH.
  - destruct l as [|y l]; [|simpl in E; destruct (last_max l) as [w'|];
      [destruct (key_lt w' y)|]; discriminate].
    injection H as <-. exists []. split; [reflexivity|]. intros y [].
Qed.

Lemma last_max_position (l : list entry) (w : entry) :
  last_max l = Some w ->
  exists l1 l2, l = l1 ++ w :: l2 /\
    (forall e, In e l1 -> key_lt w e = false) /\
    (forall e, In e l2 -> key_lt e w = true).
Proof.
  revert w. induction l as [|x l IH]; simpl; intros w H; [discriminate|].
  destruct (last_max l) as [w'|] eqn:E.
  - destruct (IH w' eq_refl) as (l1 & l2 & -> & H1 & H2).
    destruct (key_lt w' x) eqn:Hwx; injection H as <-.
    + exists [], (l1 ++ w' :: l2). split; [reflexivity|]. split; [intros e []|].
      intros e He. apply in_app_or in He. destruct He as [He|[<-|He]].
      * eapply key_le_lt_trans; [apply H1, He | exact Hwx].
      * exact Hwx.
      * eapply key_lt_trans; [apply H2, He | exact Hwx].
    + exists (x :: l1), l2. split; [reflexivity|]. split; [|exact H2].
      intros e [<-|He]; [exact Hwx | now apply H1].
  - destruct l as [|y l]; [|simpl in E; destruct (last_max l) as [w'|];
      [destruct (key_lt w' y)|]; discriminate].
    injection H as <-. exists [], []. split; [reflexivity|].
    split; intros e [].
Qed.

Lemma last_max_some (l : list entry) : l <> [] -> exists w, last_max l = Some w.
Proof.
  destruct l as [|x l]; [congruence|]. intros _. simpl.
  destruct (last_max l) as [w|]; [destruct (key_lt w x)|]; eauto.
Qed.

(** The winner is the first of the entries that no entry exceeds. *)
Lemma winner_position (entries : list entry) :
  entries <> [] ->
  exists w before after,
    winner entries = Ok w /\ entries = before ++ w :: after /\
    (forall e, In e before -> key_lt e w = true) /\
    (forall e, In e after -> key_lt w e = false).
Proof.
  intros Hne.
  destruct (last_max_some (rev entries)) as [w Hw].
  { intros E. apply Hne. rewrite <- (rev_involutive entries), E. reflexivity. }
  destruct (sort_ascending_ends _ _ Hw) as (init & Hs & _).
  destruct (last_max_position _ _ Hw) as (l1 & l2 & Hl & H1 & H2).
  exists w, (rev l2), (rev l1). split; [|split; [|split]].
  - unfold winner, sort_reverse. rewrite Hs, rev_app_distr. reflexivity.
  - rewrite <- (rev_involutive entries), Hl, rev_app_distr. simpl.
    rewrite <- app_assoc. reflexivity.
  - intros e He. apply H2, in_rev, He.
  - intros e He. apply H1, in_rev, He.
Qed.

Lemma key_lt_false_iff (a b : entry) : key_lt a b = false <-> ranks_before a b.
Proof.
  unfold key_lt, ranks_before.
  destruct (e_preferred a), (e_preferred b); rewrite ?Z.ltb_ge;
    intuition (try discriminate; try lia).
Qed.

Lemma key_lt_true_iff (a b : entry) :
  key_lt a b = true <->
  (e_preferred a = false /\ e_preferred b = true) \/
  (e_preferred a = e_preferred b /\ e_mtime a < e_mtime b).
Proof.
  unfold key_lt.
  destruct (e_preferred a), (e_preferred b); rewrite ?Z.ltb_lt;
    intuition (try discriminate; try lia).
Qed.

Lemma insert_sorted_sorted (x : entry) (s : list entry) :
  StronglySorted (fun a b => key_lt b a = false) s ->
  StronglySorted (fun a b => key_lt b a = false) (insert_sorted x s).
Proof.
  induction 1 as [|y r Hr IH Hy]; simpl.
  - constructor; constructor.
  - destruct (key_lt y x) eqn:Hyx.
    + constructor; [exact IH|].
      eapply Permutation_Forall; [symmetry; apply insert_sorted_perm|].
      constructor; [|exact Hy].
      destruct (key_lt x y) eqn:E; [|reflexivity].
      rewrite <- (key_lt_irrefl y). symmetry. eapply key_lt_trans; eassumption.
    + constructor; [constructor; assumption|].
      constructor; [exact Hyx|].
      eapply Forall_impl; [|exact Hy]. intros z Hz.
      eapply key_le_trans; eassumption.
Qed.

Lemma sort_ascending_sorted (l : list entry) :
  StronglySorted (fun a b => key_lt b a = false) (sort_ascending l).
Proof.
  induction l as [|x l IH]; simpl; [constructor|].
  apply insert_sorted_sorted, IH.
Qed.

Lemma StronglySorted_snoc {A : Type} (R : A -> A -> Prop) (s : list A) (a : A) :
  StronglySorted R s -> Forall (fun y => R y a) s -> StronglySorted R (s ++ [a]).
Proof.
  induction 1 as [|y r Hr IH Hy]; simpl; intros Ha.
  - constructor; constructor.
  - inversion Ha as [|? ? Hya Hra]; subst.
    constructor; [apply IH, Hra|].
    apply Forall_app. split; [exact Hy|]. constructor; [exact Hya|constructor].
Qed.

Lemma StronglySorted_rev {A : Type} (R : A -> A -> Prop) (l : list A) :
  StronglySorted R l -> StronglySorted (fun a b => R b a) (rev l).
Proof.
  induction 1 as [|y r Hr IH Hy]; simpl; [constructor|].
  apply StronglySorted_snoc; [exact IH|].
  apply Forall_rev. exact Hy.
Qed.

Lemma sort_reverse_sorted (l : list entry) :
  StronglySorted ranks_before (sort_reverse l).
Proof.
  unfold sort_reverse.
  pose proof (StronglySorted_rev _ _ (sort_ascending_sorted (rev l))) as H.
  induction H as [|y r Hr IH Hy]; constructor; [exact IH|].
  eapply Forall_impl; [|exact Hy]. intros z Hz. apply key_lt_false_iff, Hz.
Qed.

(** The winner among the entries of a list that is not empty. *)
Lemma winner_of_entries (entries : list entry) :
  entries <> [] ->
  exists w before after,
    Permutation (sort_reverse entries) entries /\
    StronglySorted ranks_before (sort_reverse entries) /\
    winner entries = Ok w /\
    entries = before ++ w :: after /\
    (forall e, In e entries -> e_preferred e = true -> e_preferred w = true) /\
    (forall e, In e entries -> e_preferred e = e_preferred w ->
               e_mtime e <= e_mtime w) /\
    (forall e, In e before -> e_preferred e = e_preferred w ->
               e_mtime e < e_mtime w).
Proof.
  intros Hne.
  destruct (winner_position entries Hne) as (w & before & after & Hw & He & Hb & Ha).
  exists w, before, after.
  assert (Hall : forall e, In e entries -> ranks_before w e).
  { intros e Hin. apply key_lt_false_iff. rewrite He in Hin.
    apply in_app_or in Hin. destruct Hin as [Hin|[<-|Hin]].
    - destruct (key_lt w e) eqn:E; [|reflexivity].
      rewrite <- (key_lt_irrefl e). symmetry.
      eapply key_lt_trans; [apply Hb, Hin | exact E].
    - apply key_lt_irrefl.
    - apply Ha, Hin. }
  split; [apply sort_reverse_perm|]. split; [apply sort_reverse_sorted|].
  split; [exact Hw|]. split; [exact He|]. split; [|split].
  - intros e Hin. apply (Hall e Hin).
  - intros e Hin Hp. apply (Hall e Hin). congruence.
  - intros e Hin Hp. apply Hb, key_lt_true_iff in Hin.
    destruct Hin as [[H1 H2]|[_ H]]; [congruence | exact H].
Qed.
(** ** The parser *)

Lemma scan_rows_filter (k : kind) (ws : worksheet) (d : date) (keep : Z -> bool)
      (rows : list Z) :
  (forall row, In row rows -> keep row = false -> skipped k ws row = true) ->
  scan_rows k ws d rows = scan_rows k ws d (filter keep rows).
Proof.
  induction rows as [|row rows IH]; intros H; [reflexivity|].
  assert (IH' : scan_rows k ws d rows = scan_rows k ws d (filter keep rows)).
  { apply IH. intros r Hr. apply H. now right. }
  cbn [filter]. destruct (keep row) eqn:Hk.
  - cbn [scan_rows]. rewrite IH'. reflexivity.
  - cbn [scan_rows]. fold (skipped k ws row).
    rewrite (H row (or_introl eq_refl) Hk). exact IH'.
Qed.

Lemma scan_rows_origin (k : kind) (ws : worksheet) (d : date) (rows : list Z)
      (recs : list record) :
  scan_rows k ws d rows = Ok recs ->
  forall rec, In rec recs ->
  exists row, In row rows /\ skipped k ws row = false /\
              store_record k ws d row = Ok rec.
Proof.
  revert recs. induction rows as [|row rows IH]; intros recs H rec Hin.
  - injection H as <-. destruct Hin.
  - cbn [scan_rows] in H. fold (skipped k ws row) in H.
    destruct (skipped k ws row) eqn:Hs.
    + destruct (IH recs H rec Hin) as (r & Hr & Hk & Hrec).
      exists r. split; [now right | now split].
    + destruct (store_record k ws d row) as [r0|e] eqn:E0; [|discriminate].
      cbn [bind] in H.
      destruct (scan_rows k ws d rows) as [rs|e] eqn:E1; [|discriminate].
      cbn [bind] in H. injection H as <-.
      destruct Hin as [<-|Hin].
      * exists row. split; [now left | now split].
      * destruct (IH rs eq_refl rec Hin) as (r & Hr & Hk & Hrec).
        exists r. split; [now right | now split].
Qed.

Lemma skip_label_totals (k : kind) (text : string) :
  contains "Totals" text = true -> skip_label k text = true.
Proof. intros H. destruct k; simpl; rewrite H; reflexivity. Qed.

(** C2 (amended).  In each of the four sections (sales, transactions,
    channel mix, labor), a row whose label text contains [Totals], written
    exactly so, at any position, is left out of the records of the section:
    the records are those of the scan without that row, and every record of
    the section comes from another row, whose label does not contain
    [Totals].  The test is case-sensitive. *)
Theorem totals_row_excluded (k : kind) (ws : worksheet) (d : date) (r : Z) :
  contains "Totals" (py_str (ws r 1)) = true ->
  store_records k ws d
  = scan_rows k ws d (filter (fun row => negb (row =? r)) (kind_rows k)) /\
  forall recs rec, store_records k ws d = Ok recs -> In rec recs ->
    exists row, In row (kind_rows k) /\ row <> r /\
                contains "Totals" (py_str (ws row 1)) = false /\
                store_record k ws d row = Ok rec.
Proof.
  intros Ht.
  assert (Hs : skipped k ws r = true).
  { unfold skipped. rewrite (skip_label_totals k _ Ht). apply orb_true_r. }
  split.
  - apply scan_rows_filter. intros row _ Hk.
    apply negb_false_iff, Z.eqb_eq in Hk. subst row. exact Hs.
  - intros recs rec Hrecs Hin.
    destruct (scan_rows_origin k ws d _ recs Hrecs rec Hin) as (row & Hr & Hk & Hrec).
    exists row. split; [exact Hr|]. split; [congruence|]. split; [|exact Hrec].
    destruct (contains "Totals" (py_str (ws row 1))) eqn:E; [|reflexivity].
    unfold skipped in Hk. rewrite (skip_label_totals k _ E), orb_true_r in Hk.
    discriminate.
Qed.

(** What [wb[name]] and the first access to a cell give together. *)
Lemma workbook_getitem_bind {A : Type} (name : string)
      (sheets : list (string * worksheet)) (chartsheets : list string)
      (k : worksheet -> result A) :
  (s <- workbook_getitem name sheets chartsheets ;; ws <- cells_of s ;; k ws)
  = match get_sheet name sheets with
    | Ok ws => k ws
    | Raise _ =>
        if existsb (fun n => String.eqb n name) chartsheets
        then Raise TypeError
        else Raise KeyError
    end.
Proof.
  unfold workbook_getitem. destruct (get_sheet name sheets); [reflexivity|].
  destruct (existsb _ chartsheets); reflexivity.
Qed.

(** A successful parse, piece by piece. *)
Lemma parse_flash_report_ok (f : file) (p : parsed) :
  parse_flash_report f = Ok (Some p) ->
  exists sheets chartsheets ws,
    f = Workbook sheets chartsheets /\ get_sheet sheet_name sheets = Ok ws /\
    parse_date_from_cell (ws 2 1) = Ok (Some (p_date p)) /\
    (forall k, store_records k ws (p_date p) = Ok (section_of k p)) /\
    brand_total_record ws (p_date p) = Ok (p_brand_total p).
Proof.
  destruct f as [e|sheets chartsheets]; [discriminate|]. cbn [parse_flash_report].
  rewrite workbook_getitem_bind.
  destruct (get_sheet sheet_name sheets) as [ws|e] eqn:Hws;
    [|destruct (existsb _ chartsheets); discriminate].
  cbn [bind].
  destruct (parse_date_from_cell (ws 2 1)) as [[d|]|e] eqn:Hd; try discriminate.
  cbn [bind].
  destruct (store_records Sales ws d) as [s|e] eqn:Hs; [|discriminate]. cbn [bind].
  destruct (brand_total_record ws d) as [b|e] eqn:Hb; [|discriminate]. cbn [bind].
  destruct (store_records Transactions ws d) as [t|e] eqn:Ht; [|discriminate]. cbn [bind].
  destruct (store_records Channels ws d) as [c|e] eqn:Hc; [|discriminate]. cbn [bind].
  destruct (store_records Labor ws d) as [l|e] eqn:Hl; [|discriminate]. cbn [bind].
  intros H. injection H as <-. exists sheets, chartsheets, ws.
  cbn [p_date p_brand_total].
  repeat split; try assumption. intros []; assumption.
Qed.


Lemma mapM_ext {A B : Type} (f g : A -> result B) (l : list A) :
  (forall a, f a = g a) -> mapM f l = mapM g l.
Proof.
  intros H. induction l as [|a l IH]; simpl; [reflexivity|].
  rewrite H, IH. reflexivity.
Qed.

(** The fields of a record only depend on the cells of its row. *)
Lemma read_fields_row_ext (a b : worksheet) (row : Z) (sch : schema) :
  (forall col, a row col = b row col) ->
  read_fields a row sch = read_fields b row sch.
Proof.
  intros H. unfold read_fields. apply mapM_ext.
  intros [[k col] c]. rewrite (H col). reflexivity.
Qed.

Lemma read_fields_ext (a b : worksheet) (row : Z) (sch : schema) :
  same_cells a b -> read_fields a row sch = read_fields b row sch.
Proof. intros H. apply read_fields_row_ext. intros col. apply H. Qed.

Lemma skip_label_brand (text : string) :
  contains "Brand" text = true -> skip_label Sales text = true.
Proof. intros H. simpl. rewrite H. apply orb_true_r. Qed.

(** C7 (amended).  A row of the sales section whose label text contains
    [Brand] is left out of the sales records: the records are those of the
    scan without that row, and every sales record comes from another row,
    whose label does not contain [Brand].  The brand total is not taken from
    that row: it is read from row 16, and two sheets with the same row 16
    give the same brand total. *)
Theorem brand_row_excluded (ws : worksheet) (d : date) (r : Z) :
  contains "Brand" (py_str (ws r 1)) = true ->
  store_records Sales ws d
  = scan_rows Sales ws d (filter (fun row => negb (row =? r)) (kind_rows Sales)) /\
  (forall recs rec, store_records Sales ws d = Ok recs -> In rec recs ->
     exists row, In row (kind_rows Sales) /\ row <> r /\
                 contains "Brand" (py_str (ws row 1)) = false /\
                 store_record Sales ws d row = Ok rec) /\
  (forall ws', (forall col, ws' 16 col = ws 16 col) ->
     brand_total_record ws' d = brand_total_record ws d).
Proof.
  intros Hb.
  assert (Hs : skipped Sales ws r = true).
  { unfold skipped. rewrite (skip_label_brand _ Hb). apply orb_true_r. }
  split; [|split].
  - apply scan_rows_filter. intros row _ Hk.
    apply negb_false_iff, Z.eqb_eq in Hk. subst row. exact Hs.
  - intros recs rec Hrecs Hin.
    destruct (scan_rows_origin Sales ws d _ recs Hrecs rec Hin) as (row & Hr & Hk & Hrec).
    exists row. split; [exact Hr|]. split; [congruence|]. split; [|exact Hrec].
    destruct (contains "Brand" (py_str (ws row 1))) eqn:E; [|reflexivity].
    unfold skipped in Hk. rewrite (skip_label_brand _ E), orb_true_r in Hk.
    discriminate.
  - intros ws' H. unfold brand_total_record.
    rewrite (read_fields_row_ext ws' ws 16 _ H). reflexivity.
Qed.

Lemma coerce_blank (c : coercion) (v : cell) :
  is_blank v = true -> coerce c v = Ok (default_value c).
Proof.
  intros H. destruct c; simpl.
  - rewrite (safe_float_blank v H). reflexivity.
  - rewrite (safe_int_blank v H). reflexivity.
Qed.

Lemma read_fields_blank (ws : worksheet) (row : Z) (sch : schema) :
  Forall (fun f => is_blank (ws row (snd (fst f))) = true) sch ->
  read_fields ws row sch
  = Ok (map (fun f => (fst (fst f), default_value (snd f))) sch).
Proof.
  unfold read_fields. induction 1 as [|[[k col] c] sch Hb _ IH]; simpl; [reflexivity|].
  simpl in Hb. rewrite (coerce_blank c _ Hb). simpl. rewrite IH. reflexivity.
Qed.

Lemma brand_total_date (ws : worksheet) (d : date) (b : record) :
  brand_total_record ws d = Ok b -> lookup "date" b = Some (VDate d).
Proof.
  unfold brand_total_record.
  destruct (read_fields ws 16 brand_total_schema); simpl; [|discriminate].
  intros H. injection H as <-. reflexivity.
Qed.

(** The brand total of a report: read from row 16, and all zero when the
    row is empty. *)
Lemma brand_total_of_report (f : file) (p : parsed) :
  parse_flash_report f = Ok (Some p) ->
  exists sheets chartsheets ws,
    f = Workbook sheets chartsheets /\ get_sheet sheet_name sheets = Ok ws /\
    brand_total_record ws (p_date p) = Ok (p_brand_total p) /\
    lookup "date" (p_brand_total p) = Some (VDate (p_date p)) /\
    ((forall col, 2 <= col <= 21 -> ws 16 col = CNone) ->
     p_brand_total p
     = ("date", VDate (p_date p))
         :: map (fun f => (fst (fst f), VFloat float_zero)) brand_total_schema).
Proof.
  intros H.
  destruct (parse_flash_report_ok f p H) as (sheets & cs & ws & Hf & Hs & _ & _ & Hb).
  exists sheets, cs, ws. split; [exact Hf|]. split; [exact Hs|]. split; [exact Hb|].
  split; [exact (brand_total_date _ _ _ Hb)|].
  intros Hnone. unfold brand_total_record in Hb.
  rewrite read_fields_blank in Hb.
  - simpl in Hb. injection Hb as <-. reflexivity.
  - unfold brand_total_schema, sales_schema.
    repeat constructor; cbn [fst snd]; rewrite Hnone by lia; reflexivity.
Qed.

(** ** The date of the header *)

Lemma re_d12_some {A : Type} (s : string) (k : string -> string -> option A) (x : A) :
  re_d12 s k = Some x ->
  exists t rest, s = (t ++ rest)%string /\ all_digits t = true /\
    (String.length t = 1 \/ String.length t = 2)%nat /\ k t rest = Some x.
Proof.
  unfold re_d12. destruct s as [|a r]; [discriminate|].
  destruct (is_digit a) eqn:Ha; [|discriminate].
  destruct r as [|b r'].
  - intros H. exists (String a ""), "". unfold all_digits. simpl. rewrite Ha. auto.
  - destruct (is_digit b) eqn:Hb.
    + destruct (k (String a (String b "")) r') as [x'|] eqn:E.
      * intros H. injection H as <-.
        exists (String a (String b "")), r'. unfold all_digits. simpl.
        rewrite Ha, Hb. auto.
      * intros H. exists (String a ""), (String b r'). unfold all_digits. simpl.
        rewrite Ha. auto.
    + intros H. exists (String a ""), (String b r'). unfold all_digits. simpl.
      rewrite Ha. auto.
Qed.

Lemma re_d12_token {A : Type} (t rest : string) (k : string -> string -> option A) (x : A) :
  all_digits t = true -> (String.length t = 1 \/ String.length t = 2)%nat ->
  k t (String "/" rest) = Some x ->
  re_d12 (t ++ String "/" rest) k = Some x.
Proof.
  unfold all_digits. intros Hd Hl Hk.
  destruct t as [|a [|b [|c t]]]; simpl in Hl; try lia.
  - simpl in Hd. rewrite andb_true_r in Hd. simpl. rewrite Hd. simpl. exact Hk.
  - simpl in Hd. rewrite andb_true_r in Hd. apply andb_true_iff in Hd.
    destruct Hd as [Ha Hb]. simpl. rewrite Ha, Hb, Hk. reflexivity.
Qed.

Lemma re_slash_some {A : Type} (s : string) (k : string -> option A) (x : A) :
  re_slash s k = Some x -> exists rest, s = String "/" rest /\ k rest = Some x.
Proof.
  unfold re_slash. destruct s as [|c r]; [discriminate|].
  destruct (Ascii.eqb_spec c "/") as [->|Hc].
  - intros H. eauto.
  - destruct c as [[] [] [] [] [] [] [] []]; try discriminate. congruence.
Qed.

Lemma re_d4_some {A : Type} (s : string) (k : string -> string -> option A) (x : A) :
  re_d4 s k = Some x ->
  exists t rest, s = (t ++ rest)%string /\ all_digits t = true /\
    String.length t = 4%nat /\ k t rest = Some x.
Proof.
  unfold re_d4. destruct s as [|a [|b [|c [|d r]]]]; try discriminate.
  destruct (is_digit a && is_digit b && is_digit c && is_digit d) eqn:E; [|discriminate].
  intros H. exists (String a (String b (String c (String d "")))), r.
  unfold all_digits. simpl. rewrite andb_true_r, <- !andb_assoc in *. auto.
Qed.

Lemma re_d4_token {A : Type} (t rest : string) (k : string -> string -> option A) :
  all_digits t = true -> String.length t = 4%nat ->
  re_d4 (t ++ rest) k = k t rest.
Proof.
  unfold all_digits. intros Hd Hl.
  destruct t as [|a [|b [|c [|d [|e t]]]]]; simpl in Hl; try lia.
  simpl in Hd. rewrite andb_true_r, !andb_assoc in Hd. simpl. rewrite Hd. reflexivity.
Qed.

Lemma date_token_iff (m d y : string) :
  date_token m d y = true <->
  all_digits m = true /\ all_digits d = true /\ all_digits y = true /\
  (String.length m = 1 \/ String.length m = 2)%nat /\
  (String.length d = 1 \/ String.length d = 2)%nat /\
  String.length y = 4%nat.
Proof.
  unfold date_token.
  rewrite !andb_true_iff, !orb_true_iff, !Nat.eqb_eq. tauto.
Qed.

(** The pattern matches at the start of a text exactly when the text starts
    with a token, and it captures that token. *)
Lemma match_date_at_sound (s m d y : string) :
  match_date_at s = Some (m, d, y) ->
  date_token m d y = true /\ exists post, s = (token_text m d y ++ post)%string.
Proof.
  unfold match_date_at. intros H.
  apply re_d12_some in H. destruct H as (m' & s1 & -> & Hm & Hlm & H).
  apply re_slash_some in H. destruct H as (s2 & -> & H).
  apply re_d12_some in H. destruct H as (d' & s3 & -> & Hd & Hld & H).
  apply re_slash_some in H. destruct H as (s4 & -> & H).
  apply re_d4_some in H. destruct H as (y' & post & -> & Hy & Hly & H).
  injection H as -> -> ->. split.
  - apply date_token_iff. tauto.
  - exists post. unfold token_text. rewrite !append_assoc. reflexivity.
Qed.

Lemma match_date_at_token (m d y post : string) :
  date_token m d y = true ->
  match_date_at (token_text m d y ++ post) = Some (m, d, y).
Proof.
  intros H. apply date_token_iff in H.
  destruct H as (Hm & Hd & Hy & Hlm & Hld & Hly).
  unfold match_date_at, token_text. rewrite !append_assoc.
  change ("/" ++ d ++ "/" ++ y ++ post)%string
    with (String "/" (d ++ String "/" (y ++ post))).
  apply re_d12_token; [assumption..|]. cbn [re_slash].
  apply re_d12_token; [assumption..|]. cbn [re_slash].
  rewrite re_d4_token by assumption. reflexivity.
Qed.

Lemma starts_with_token_iff (s : string) :
  starts_with_token s <-> match_date_at s <> None.
Proof.
  split.
  - intros (m & d & y & post & Ht & ->). rewrite match_date_at_token by exact Ht.
    discriminate.
  - destruct (match_date_at s) as [[[m d] y]|] eqn:E; [|congruence]. intros _.
    destruct (match_date_at_sound _ _ _ _ E) as (Ht & post & ->).
    exists m, d, y, post. auto.
Qed.

Lemma search_date_first (pre rest : string) (t : string * string * string) :
  match_date_at rest = Some t ->
  (forall pre' rest', (pre ++ rest)%string = (pre' ++ rest')%string ->
     (String.length pre' < String.length pre)%nat -> match_date_at rest' = None) ->
  search_date (pre ++ rest) = Some t.
Proof.
  intros Hm. induction pre as [|c pre IH]; intros Hfirst.
  - cbn [append]. destruct rest; cbn [search_date]; rewrite Hm; reflexivity.
  - cbn [append search_date].
    change (String c (pre ++ rest)) with (String c pre ++ rest)%string.
    rewrite (Hfirst "" (String c pre ++ rest)%string eq_refl) by (simpl; lia).
    apply IH. intros pre' rest' E Hl.
    apply (Hfirst (String c pre')); [simpl; congruence | simpl; lia].
Qed.

Lemma search_date_some (s : string) (t : string * string * string) :
  search_date s = Some t ->
  exists pre rest, s = (pre ++ rest)%string /\ match_date_at rest = Some t.
Proof.
  induction s as [|c s IH]; cbn [search_date].
  - destruct (match_date_at "") eqn:E; [|discriminate].
    intros H. injection H as ->. exists "", "". auto.
  - destruct (match_date_at (String c s)) eqn:E.
    + intros H. injection H as ->. exists "", (String c s). auto.
    + intros H. destruct (IH H) as (pre & rest & -> & Hm).
      exists (String c pre), rest. auto.
Qed.

Lemma search_date_none (s : string) :
  ~ has_date_token s -> search_date s = None.
Proof.
  intros H. destruct (search_date s) as [t|] eqn:E; [|reflexivity].
  exfalso. apply H. destruct (search_date_some s t E) as (pre & rest & -> & Hm).
  exists pre, rest. split; [reflexivity|].
  apply starts_with_token_iff. congruence.
Qed.

Lemma number_of_digits (s : string) :
  all_digits s = true -> number_of s = decimal_number s.
Proof.
  intros H. unfold number_of. rewrite take_digits_all by exact H.
  apply digits_value_digits_of.
Qed.

Lemma search_date_first_token (s pre m d y post : string) :
  first_token s pre m d y post -> search_date s = Some (m, d, y).
Proof.
  intros (-> & Ht & Hfirst). apply search_date_first.
  - apply match_date_at_token, Ht.
  - intros pre' rest' E Hl.
    destruct (match_date_at rest') eqn:Em; [|reflexivity].
    exfalso. apply (Hfirst pre' rest' E Hl).
    apply starts_with_token_iff. congruence.
Qed.

(** C5 (amended).  The date of the header cell A2.  When the text of the cell
    holds no token of the shape M/D/YYYY, [parse_date_from_cell] returns
    [None] and [parse_flash_report] returns no result, without raising.
    When the cell is not empty and its text holds such a token, the first
    token of the text is taken: if it is a date of the calendar (month 1 to
    12, day within the month, year at least 1), it is the date returned and
    the date of every report parsed from the workbook; if it is not,
    [ValueError] is raised by [parse_date_from_cell] and by
    [parse_flash_report]. *)
Theorem header_date (sheets : list (string * worksheet)) (chartsheets : list string)
        (ws : worksheet) :
  get_sheet sheet_name sheets = Ok ws ->
  (~ has_date_token (py_str (ws 2 1)) ->
     parse_date_from_cell (ws 2 1) = Ok None /\
     parse_flash_report (Workbook sheets chartsheets) = Ok None) /\
  (forall pre m d y post,
     truthy (ws 2 1) = true ->
     first_token (py_str (ws 2 1)) pre m d y post ->
     let report_date :=
       mkdate (decimal_number y) (decimal_number m) (decimal_number d) in
     (valid_date (decimal_number y) (decimal_number m) (decimal_number d) = true ->
        parse_date_from_cell (ws 2 1) = Ok (Some report_date) /\
        forall p, parse_flash_report (Workbook sheets chartsheets) = Ok (Some p) ->
                  p_date p = report_date) /\
     (valid_date (decimal_number y) (decimal_number m) (decimal_number d) = false ->
        parse_date_from_cell (ws 2 1) = Raise ValueError /\
        parse_flash_report (Workbook sheets chartsheets) = Raise ValueError)).
Proof.
  intros Hs. split.
  - intros Hno.
    assert (Hd : parse_date_from_cell (ws 2 1) = Ok None).
    { unfold parse_date_from_cell. rewrite (search_date_none _ Hno).
      destruct (truthy (ws 2 1)); reflexivity. }
    split; [exact Hd|]. cbn [parse_flash_report].
    rewrite workbook_getitem_bind, Hs. cbn [bind]. rewrite Hd. reflexivity.
  - intros pre m d y post Htruthy Hfirst report_date.
    pose proof (search_date_first_token _ _ _ _ _ _ Hfirst) as Hsearch.
    destruct Hfirst as (_ & Ht & _). apply date_token_iff in Ht.
    destruct Ht as (Hm & Hd & Hy & _).
    assert (Hp : parse_date_from_cell (ws 2 1)
                 = if valid_date (decimal_number y) (decimal_number m) (decimal_number d)
                   then Ok (Some report_date) else Raise ValueError).
    { unfold parse_date_from_cell, strptime_mdy. rewrite Htruthy, Hsearch. cbn [negb].
      rewrite !number_of_digits by assumption.
      destruct (valid_date _ _ _); reflexivity. }
    split; intros Hv; rewrite Hv in Hp; (split; [exact Hp|]).
    + intros p H.
      destruct (parse_flash_report_ok _ _ H) as (s' & c' & ws' & E & Hs' & Hd' & _).
      injection E as <- <-. rewrite Hs in Hs'. injection Hs' as <-.
      rewrite Hp in Hd'. injection Hd' as <-. reflexivity.
    + cbn [parse_flash_report]. rewrite workbook_getitem_bind, Hs. cbn [bind].
      rewrite Hp. reflexivity.
Qed.

(** The token [re.search] finds is the first token of the text. *)
Lemma search_date_finds_first (s m d y : string) :
  search_date s = Some (m, d, y) -> exists pre post, first_token s pre m d y post.
Proof.
  induction s as [|c s IH]; cbn [search_date].
  - intros H. discriminate H.
  - destruct (match_date_at (String c s)) as [t|] eqn:E.
    + intros H. injection H as ->.
      destruct (match_date_at_sound _ _ _ _ E) as (Ht & post & Hs).
      exists "", post. split; [exact Hs|]. split; [exact Ht|].
      intros pre' rest _ Hl. simpl in Hl. lia.
    + intros H. destruct (IH H) as (pre & post & Hs & Ht & Hfirst).
      exists (String c pre), post. split; [simpl; rewrite <- Hs; reflexivity|].
      split; [exact Ht|].
      intros pre' rest E' Hl Hst. destruct pre' as [|c' pre'].
      * simpl in E'. subst rest. apply starts_with_token_iff in Hst. congruence.
      * simpl in E'. injection E' as _ E'. simpl in Hl.
        apply (Hfirst pre' rest E'); [lia | exact Hst].
Qed.

(** A text that holds a token has a first token. *)
Lemma has_date_token_first (s : string) :
  has_date_token s -> exists pre m d y post, first_token s pre m d y post.
Proof.
  intros H. destruct (search_date s) as [[[m d] y]|] eqn:E.
  - destruct (search_date_finds_first _ _ _ _ E) as (pre & post & Hf).
    exists pre, m, d, y, post. exact Hf.
  - exfalso. destruct H as (pre & rest & -> & Hst).
    apply starts_with_token_iff in Hst.
    destruct (match_date_at rest) as [t|] eqn:Em; [|congruence].
    clear Hst. induction pre as [|c pre IH].
    + simpl in E. destruct rest; cbn [search_date] in E; rewrite Em in E; discriminate.
    + cbn [append search_date] in E.
      destruct (match_date_at (String c (pre ++ rest))); [discriminate|].
      apply IH, E.
Qed.

(** ** The aggregator *)

Lemma date_eqb_eq (a b : date) : date_eqb a b = true <-> a = b.
Proof.
  unfold date_eqb. destruct a as [y m d], b as [y' m' d']; simpl.
  rewrite !andb_true_iff, !Z.eqb_eq. split.
  - intros [[-> ->] ->]. reflexivity.
  - intros H. injection H as -> -> ->. auto.
Qed.

Lemma date_eqb_refl (a : date) : date_eqb a a = true.
Proof. apply date_eqb_eq. reflexivity. Qed.

Lemma date_eqb_neq (a b : date) : date_eqb a b = false <-> a <> b.
Proof.
  rewrite <- date_eqb_eq. destruct (date_eqb a b); split; congruence.
Qed.

Lemma foldM_pure {A B : Type} (f : A -> B -> result A) (g : A -> B -> A)
      (l : list B) (a : A) :
  (forall a b, f a b = Ok (g a b)) -> foldM f a l = Ok (fold_left g l a).
Proof.
  intros H. revert a. induction l as [|b l IH]; intros a; simpl; [reflexivity|].
  rewrite H. simpl. apply IH.
Qed.

(** No exception leaves the body of the first loop. *)
Lemma first_pass_file_ok (acc : groups) (f : dir_entry) :
  first_pass_file acc f = Ok (group_step acc f).
Proof.
  unfold first_pass_file, group_step.
  destruct (parse_flash_report (fcontent f)) as [[r|]|e]; reflexivity.
Qed.

Lemma first_pass_ok (files : list dir_entry) :
  first_pass files = Ok (fold_left group_step files []).
Proof. apply foldM_pure, first_pass_file_ok. Qed.

Lemma group_step_fails (acc : groups) (f : dir_entry) :
  parses f = false -> group_step acc f = acc.
Proof.
  unfold parses, group_step.
  destruct (parse_flash_report (fcontent f)) as [[r|]|e]; [discriminate| |]; reflexivity.
Qed.

Lemma fold_group_step_filter (files : list dir_entry) (acc : groups) :
  fold_left group_step (filter parses files) acc = fold_left group_step files acc.
Proof.
  revert acc. induction files as [|f files IH]; intros acc; simpl; [reflexivity|].
  destruct (parses f) eqn:E; simpl.
  - apply IH.
  - rewrite (group_step_fails acc f E). apply IH.
Qed.

Lemma setdefault_append_keys (d : date) (e : entry) (g : groups) :
  map fst (setdefault_append d e g)
  = if existsb (date_eqb d) (map fst g) then map fst g else map fst g ++ [d].
Proof.
  induction g as [|[d' es] g IH]; simpl; [reflexivity|].
  destruct (date_eqb d d') eqn:E; simpl; [reflexivity|].
  rewrite IH. destruct (existsb (date_eqb d) (map fst g)); reflexivity.
Qed.

Lemma existsb_date_In (d : date) (l : list date) :
  existsb (date_eqb d) l = true <-> In d l.
Proof.
  rewrite existsb_exists. split.
  - intros (x & Hx & E). apply date_eqb_eq in E. now subst.
  - intros H. exists d. split; [exact H | apply date_eqb_refl].
Qed.

Lemma setdefault_append_In (d : date) (e : entry) (g : groups) (d' : date)
      (es : list entry) :
  In (d', es) (setdefault_append d e g) ->
  In (d', es) g \/
  (d' = d /\ ((es = [e] /\ ~ In d (map fst g)) \/
              exists es0, In (d, es0) g /\ es = es0 ++ [e])).
Proof.
  induction g as [|[d0 es0] g IH]; simpl.
  - intros [H|[]]. injection H as <- <-. right. split; [reflexivity|]. left. tauto.
  - destruct (date_eqb d d0) eqn:E.
    + apply date_eqb_eq in E. subst d0. intros [H|H].
      * injection H as <- <-. right. split; [reflexivity|]. right.
        exists es0. split; [now left | reflexivity].
      * left. now right.
    + apply date_eqb_neq in E. intros [H|H].
      * left. now left.
      * destruct (IH H) as [H1|(-> & [[-> Hn]|(es1 & Hin & ->)])].
        -- left. now right.
        -- right. split; [reflexivity|]. left. split; [reflexivity|].
           intros [F|F]; [congruence | contradiction].
        -- right. split; [reflexivity|]. right. exists es1. split; [now right | reflexivity].
Qed.

Lemma setdefault_append_well_grouped (e : entry) (g : groups) :
  parse_result (e_result e) ->
  well_grouped g ->
  well_grouped (setdefault_append (p_date (e_result e)) e g).
Proof.
  intros Hr [Hnd Hg]. split.
  - rewrite setdefault_append_keys.
    destruct (existsb (date_eqb (p_date (e_result e))) (map fst g)) eqn:E; [exact Hnd|].
    apply Permutation_NoDup with (l := p_date (e_result e) :: map fst g).
    + apply Permutation_cons_append.
    + constructor; [|exact Hnd]. rewrite <- existsb_date_In, E. discriminate.
  - intros d es Hin. apply setdefault_append_In in Hin.
    destruct Hin as [Hin|(-> & [[-> _]|(es0 & Hin & ->)])].
    + apply Hg, Hin.
    + split; [discriminate|]. intros x [<-|[]]. auto.
    + destruct (Hg _ _ Hin) as [_ H0]. split.
      * destruct es0; discriminate.
      * intros x Hx. apply in_app_or in Hx. destruct Hx as [Hx|[<-|[]]]; auto.
Qed.

Lemma group_step_well_grouped (g : groups) (f : dir_entry) :
  well_grouped g -> well_grouped (group_step g f).
Proof.
  intros H. unfold group_step.
  destruct (parse_flash_report (fcontent f)) as [[r|]|e] eqn:E; try exact H.
  apply (setdefault_append_well_grouped
           (mkentry (fname f) (fmtime f) (is_preferred (fname f)) r)); [|exact H].
  exists (fcontent f). exact E.
Qed.

Lemma fold_group_step_well_grouped (files : list dir_entry) (g : groups) :
  well_grouped g -> well_grouped (fold_left group_step files g).
Proof.
  revert g. induction files as [|f files IH]; intros g H; simpl; [exact H|].
  apply IH, group_step_well_grouped, H.
Qed.

Lemma well_grouped_nil : well_grouped [].
Proof. split; [constructor | intros d es []]. Qed.

Lemma sort_reverse_nonempty (es : list entry) : es <> [] -> sort_reverse es <> [].
Proof.
  intros H E. apply H. apply Permutation_nil.
  rewrite <- E. apply sort_reverse_perm.
Qed.

Lemma collect_step (acc : collected) (w : entry) (ws : list entry) :
  collect (collect acc [w]) ws = collect acc (w :: ws).
Proof.
  unfold collect. simpl. rewrite !app_nil_r, <- !app_assoc. reflexivity.
Qed.

Lemma collect_nil (acc : collected) : collect acc [] = acc.
Proof. destruct acc. unfold collect. simpl. rewrite !app_nil_r. reflexivity. Qed.

(** The second loop raises nothing on groups that are not empty, and
    collects the records of the winner of each group. *)
Lemma second_pass_from (g : groups) (acc : collected) :
  (forall d es, In (d, es) g -> es <> []) ->
  exists winners,
    Forall2 (fun grp w => winner (snd grp) = Ok w) g winners /\
    foldM second_pass_group acc g = Ok (collect acc winners).
Proof.
  revert acc. induction g as [|[d es] g IH]; intros acc H.
  - exists []. split; [constructor|]. simpl. rewrite collect_nil. reflexivity.
  - destruct (winner_position es) as (w & _ & _ & Hw & _).
    { apply (H d). now left. }
    destruct (IH (collect acc [w])) as (ws & Hws & Hf).
    { intros d' es' Hin. apply (H d'). now right. }
    exists (w :: ws). split; [constructor; assumption|].
    simpl. unfold second_pass_group at 1. simpl. rewrite Hw. simpl.
    rewrite <- collect_step, <- Hf. f_equal.
    unfold collect. simpl. rewrite !app_nil_r. reflexivity.
Qed.

Lemma second_pass_ok (g : groups) :
  well_grouped g ->
  exists winners,
    Forall2 (fun grp w => winner (snd grp) = Ok w) g winners /\
    second_pass g = Ok (collect (mkcollected [] [] [] [] []) winners).
Proof.
  intros [_ H]. apply second_pass_from. intros d es Hin. apply (H d es Hin).
Qed.

(** The run of [load_all_reports], step by step. *)
Lemma load_all_reports_run (folder : list dir_entry) :
  let g := fold_left group_step (filter (fun f => glob_match (fname f)) folder) [] in
  well_grouped g /\
  exists winners,
    Forall2 (fun grp w => winner (snd grp) = Ok w) g winners /\
    load_all_reports folder
    = Ok (tables (collect (mkcollected [] [] [] [] []) winners)).
Proof.
  intros g.
  assert (Hg : well_grouped g)
    by apply fold_group_step_well_grouped, well_grouped_nil.
  split; [exact Hg|].
  destruct (second_pass_ok g Hg) as (ws & Hws & Hs).
  exists ws. split; [exact Hws|].
  unfold load_all_reports. rewrite first_pass_ok. cbn [bind].
  fold g. rewrite Hs. reflexivity.
Qed.

Lemma filter_parses_glob (folder : list dir_entry) :
  filter (fun f => glob_match (fname f)) (filter parses folder)
  = filter parses (filter (fun f => glob_match (fname f)) folder).
Proof.
  induction folder as [|f folder IH]; simpl; [reflexivity|].
  destruct (parses f) eqn:Ep, (glob_match (fname f)) eqn:Eg; simpl;
    rewrite ?Ep, ?Eg, IH; reflexivity.
Qed.

(** The result only depends on the groups of the first loop. *)
Lemma load_all_reports_groups (a b : list dir_entry) :
  fold_left group_step (filter (fun f => glob_match (fname f)) a) []
  = fold_left group_step (filter (fun f => glob_match (fname f)) b) [] ->
  load_all_reports a = load_all_reports b.
Proof.
  intros H. unfold load_all_reports. rewrite !first_pass_ok. cbn [bind].
  rewrite H. reflexivity.
Qed.

(** C8.  Failure isolation.  [load_all_reports] returns its tables for every
    folder: no exception leaves it.  Its result is the one for the folder
    without the files whose parse gives no result, and removing one such
    file from the folder does not change the result.  A file that cannot be
    read, a workbook without the sheet and a sheet without a date are such
    files. *)
Theorem failure_isolation (folder : list dir_entry) :
  (exists d, load_all_reports folder = Ok d) /\
  load_all_reports folder = load_all_reports (filter parses folder) /\
  (forall before f after,
     folder = before ++ f :: after -> parses f = false ->
     load_all_reports folder = load_all_reports (before ++ after)) /\
  (forall f, In f folder ->
     (exists e, fcontent f = Unreadable e) \/
     (exists sheets chartsheets,
        fcontent f = Workbook sheets chartsheets /\
        get_sheet sheet_name sheets = Raise KeyError) \/
     (exists sheets chartsheets ws,
        fcontent f = Workbook sheets chartsheets /\
        get_sheet sheet_name sheets = Ok ws /\
        parse_date_from_cell (ws 2 1) = Ok None) ->
     parses f = false).
Proof.
  split; [|split; [|split]].
  - destruct (load_all_reports_run folder) as (_ & ws & _ & H). eauto.
  - apply load_all_reports_groups.
    rewrite filter_parses_glob, fold_group_step_filter. reflexivity.
  - intros before f after -> Hf. apply load_all_reports_groups.
    rewrite !filter_app. simpl. destruct (glob_match (fname f)); [|reflexivity].
    rewrite !fold_left_app. simpl. rewrite (group_step_fails _ f Hf). reflexivity.
  - intros f _ H. unfold parses.
    destruct H as [(e & ->)|[(sheets & cs & -> & Hk)|(sheets & cs & ws & -> & Hs & Hd)]];
      cbn [parse_flash_report]; try rewrite workbook_getitem_bind.
    + reflexivity.
    + rewrite Hk. destruct (existsb _ cs); reflexivity.
    + rewrite Hs. cbn [bind]. rewrite Hd. reflexivity.
Qed.

(** C3 (amended).  When no file of the folder matches the pattern, or the
    parse of every matching file gives no result, [load_all_reports] raises
    nothing and returns five tables without rows and without columns. *)
Theorem no_usable_file (folder : list dir_entry) :
  (forall f, In f folder -> glob_match (fname f) = true -> parses f = false) ->
  load_all_reports folder = Ok empty_data /\
  columns (sales empty_data) = [] /\ rows (sales empty_data) = [] /\
  columns (brand_totals empty_data) = [] /\ rows (brand_totals empty_data) = [] /\
  columns (transactions empty_data) = [] /\ rows (transactions empty_data) = [] /\
  columns (channels empty_data) = [] /\ rows (channels empty_data) = [] /\
  columns (labor empty_data) = [] /\ rows (labor empty_data) = [].
Proof.
  intros H. split; [|repeat split].
  assert (Hg : fold_left group_step (filter (fun f => glob_match (fname f)) folder) []
               = []).
  { rewrite <- fold_group_step_filter.
    replace (filter parses (filter (fun f => glob_match (fname f)) folder))
      with (@nil dir_entry); [reflexivity|].
    symmetry. induction folder as [|f folder IH]; [reflexivity|]. simpl.
    assert (IH' := IH (fun x Hx => H x (or_intror Hx))).
    destruct (glob_match (fname f)) eqn:E; [|exact IH'].
    simpl. rewrite (H f (or_introl eq_refl) E). exact IH'. }
  unfold load_all_reports. rewrite first_pass_ok. cbn [bind]. rewrite Hg. reflexivity.
Qed.

(** ** Two runs *)

Lemma scan_rows_ext (k : kind) (a b : worksheet) (d : date) (rows : list Z) :
  same_cells a b -> scan_rows k a d rows = scan_rows k b d rows.
Proof.
  intros H. induction rows as [|row rows IH]; simpl; [reflexivity|].
  unfold store_record. rewrite (H row 1), IH, (read_fields_ext a b row _ H).
  reflexivity.
Qed.

Lemma get_sheet_same (name : string) (s s' : list (string * worksheet)) :
  Forall2 (fun x y => fst x = fst y /\ same_cells (snd x) (snd y)) s s' ->
  match get_sheet name s, get_sheet name s' with
  | Ok a, Ok b => same_cells a b
  | Raise e, Raise e' => e = e'
  | _, _ => False
  end.
Proof.
  induction 1 as [|[n a] [n' b] s s' [Hn Hc] _ IH]; simpl; [reflexivity|].
  simpl in Hn, Hc. subst n'.
  destruct (String.eqb n name); [exact Hc | exact IH].
Qed.

Lemma parse_flash_report_ext (a b : file) :
  same_file a b -> parse_flash_report a = parse_flash_report b.
Proof.
  destruct a as [e|s c], b as [e'|s' c']; cbn [same_file parse_flash_report];
    try contradiction.
  - intros ->. reflexivity.
  - intros [H ->]. rewrite !workbook_getitem_bind.
    pose proof (get_sheet_same sheet_name s s' H) as Hs.
    destruct (get_sheet sheet_name s) as [wa|ea], (get_sheet sheet_name s') as [wb|eb];
      try contradiction; [|reflexivity].
    cbn [bind]. rewrite (Hs 2 1).
    destruct (parse_date_from_cell (wb 2 1)) as [[d|]|e]; simpl; try reflexivity.
    unfold store_records, brand_total_record.
    rewrite !(scan_rows_ext _ wa wb d _ Hs), (read_fields_ext wa wb 16 _ Hs).
    reflexivity.
Qed.

Lemma fold_group_step_same (a b : list dir_entry) (acc : groups) :
  same_folder a b ->
  fold_left group_step (filter (fun f => glob_match (fname f)) a) acc
  = fold_left group_step (filter (fun f => glob_match (fname f)) b) acc.
Proof.
  intros H. revert acc.
  induction H as [|x y a b (Hn & Hm & Hf) _ IH]; intros acc; simpl; [reflexivity|].
  rewrite <- Hn. destruct (glob_match (fname x)); [|apply IH]. simpl.
  replace (group_step acc y) with (group_step acc x); [apply IH|].
  unfold group_step. rewrite (parse_flash_report_ext _ _ Hf), Hn, Hm. reflexivity.
Qed.

(** C9.  Two runs on folders with the same files in the same order of
    enumeration, of the same names, the same modification times and the
    same cells, return the same five tables: same rows, same values, same
    order. *)
Theorem runs_agree (a b : list dir_entry) :
  same_folder a b -> load_all_reports a = load_all_reports b.
Proof.
  intros H. apply load_all_reports_groups, fold_group_step_same, H.
Qed.

(** ** The table of brand totals *)

Lemma winner_In (es : list entry) (w : entry) : winner es = Ok w -> In w es.
Proof.
  unfold winner. destruct (sort_reverse es) as [|x l] eqn:E; [discriminate|].
  intros H. injection H as <-.
  apply (Permutation_in x (sort_reverse_perm es)). rewrite E. now left.
Qed.

Lemma group_step_keys (acc : groups) (f : dir_entry) (d : date) :
  In d (map fst (group_step acc f)) <-> In d (map fst acc) \/ In d (report_date_of f).
Proof.
  unfold group_step, report_date_of.
  destruct (parse_flash_report (fcontent f)) as [[r|]|e]; simpl; try tauto.
  rewrite setdefault_append_keys.
  destruct (existsb (date_eqb (p_date r)) (map fst acc)) eqn:E.
  - apply existsb_date_In in E. intuition (subst; auto).
  - rewrite in_app_iff. simpl. tauto.
Qed.

Lemma fold_group_step_keys (files : list dir_entry) (acc : groups) (d : date) :
  In d (map fst (fold_left group_step files acc))
  <-> In d (map fst acc) \/ In d (flat_map report_date_of files).
Proof.
  revert acc. induction files as [|f files IH]; intros acc; simpl; [tauto|].
  rewrite IH, group_step_keys, in_app_iff. tauto.
Qed.

Lemma date_eqb_sym (a b : date) : date_eqb a b = date_eqb b a.
Proof.
  unfold date_eqb.
  rewrite (Z.eqb_sym (year a)), (Z.eqb_sym (month a)), (Z.eqb_sym (day a)).
  reflexivity.
Qed.

Lemma count_NoDup (d : date) (l : list date) :
  NoDup l ->
  List.length (filter (fun k => date_eqb k d) l)
  = if existsb (date_eqb d) l then 1%nat else 0%nat.
Proof.
  induction 1 as [|x l Hx Hl IH]; simpl; [reflexivity|].
  rewrite (date_eqb_sym d x).
  destruct (date_eqb x d) eqn:E; simpl.
  - apply date_eqb_eq in E. subst x. rewrite IH.
    destruct (existsb (date_eqb d) l) eqn:E'; [|reflexivity].
    apply existsb_date_In in E'. contradiction.
  - exact IH.
Qed.

Lemma filter_perm {A : Type} (p : A -> bool) (l l' : list A) :
  Permutation l l' -> Permutation (filter p l) (filter p l').
Proof.
  induction 1 as [|x l l' _ IH|x y l|l l' l'' _ IH1 _ IH2]; simpl.
  - constructor.
  - destruct (p x); [constructor|]; exact IH.
  - destruct (p x), (p y); try reflexivity. apply perm_swap.
  - etransitivity; eassumption.
Qed.

Lemma rows_frame_of (l : list record) : rows (frame_of l) = l.
Proof. destruct l; reflexivity. Qed.

Hypothesis sort_values_perm : forall l, Permutation (sort_values l) l.

Lemma sort_by_date_perm (df : DataFrame) : Permutation (rows (sort_by_date df)) (rows df).
Proof.
  unfold sort_by_date.
  destruct (negb (df_empty df) && existsb (String.eqb "date") (columns df));
    [apply sort_values_perm | reflexivity].
Qed.

Lemma winners_brand_dates (g : groups) (winners : list entry) :
  well_grouped g ->
  Forall2 (fun grp w => winner (snd grp) = Ok w) g winners ->
  map (lookup "date") (map (fun w => p_brand_total (e_result w)) winners)
  = map (fun d => Some (VDate d)) (map fst g).
Proof.
  intros [_ Hg] H.
  induction H as [|[d es] w g ws Hw _ IH]; simpl; [reflexivity|].
  simpl in Hw. apply winner_In in Hw.
  destruct (Hg d es (or_introl eq_refl)) as [_ He].
  destruct (He w Hw) as [Hd (f & Hf)].
  destruct (brand_total_of_report f _ Hf) as (_ & _ & _ & _ & _ & _ & Hl & _).
  rewrite Hl, Hd. f_equal. apply IH.
  intros d' es' Hin. apply Hg. now right.
Qed.

Lemma count_dates (d : date) (l : list record) (keys : list date) :
  map (lookup "date") l = map (fun k => Some (VDate k)) keys ->
  List.length (filter (has_date d) l)
  = List.length (filter (fun k => date_eqb k d) keys).
Proof.
  revert keys. induction l as [|r l IH]; intros [|k keys]; simpl; try discriminate;
    [reflexivity|].
  intros H. injection H as Hr Hl. unfold has_date at 1. rewrite Hr.
  destruct (date_eqb k d); simpl; rewrite (IH keys Hl); reflexivity.
Qed.


(** ** The records of the winner fill the tables *)

Lemma group_of_setdefault_append (d d' : date) (e : entry) (g : groups) :
  group_of d (setdefault_append d' e g)
  = if date_eqb d d' then group_of d g ++ [e] else group_of d g.
Proof.
  induction g as [|[d0 es] g IH]; simpl.
  - destruct (date_eqb d d'); reflexivity.
  - destruct (date_eqb d' d0) eqn:E0; simpl.
    + apply date_eqb_eq in E0. subst d0.
      destruct (date_eqb d d'); reflexivity.
    + rewrite IH. destruct (date_eqb d d0) eqn:E1; [|reflexivity].
      apply date_eqb_eq in E1. subst d0.
      rewrite date_eqb_sym, E0. reflexivity.
Qed.

(** The group of a date holds the candidates of the date in the order in
    which the files were enumerated. *)
Lemma group_of_fold (d : date) (files : list dir_entry) (acc : groups) :
  group_of d (fold_left group_step files acc)
  = group_of d acc ++ candidates_of d files.
Proof.
  revert acc. induction files as [|f files IH]; intros acc; simpl.
  - rewrite app_nil_r. reflexivity.
  - rewrite IH. unfold group_step.
    destruct (parse_flash_report (fcontent f)) as [[r|]|e]; try reflexivity.
    rewrite group_of_setdefault_append, (date_eqb_sym d).
    destruct (date_eqb (p_date r) d); [|reflexivity].
    rewrite <- app_assoc. reflexivity.
Qed.

Lemma group_of_In (d : date) (es : list entry) (g : groups) :
  NoDup (map fst g) -> In (d, es) g -> group_of d g = es.
Proof.
  induction g as [|[d0 es0] g IH]; simpl; intros Hnd Hin; [contradiction|].
  inversion Hnd as [|? ? Hn Hnd']; subst.
  destruct Hin as [H|H].
  - injection H as -> ->. rewrite date_eqb_refl. reflexivity.
  - destruct (date_eqb d d0) eqn:E; [|apply IH; assumption].
    apply date_eqb_eq in E. subst d0. exfalso. apply Hn.
    apply (in_map fst) in H. exact H.
Qed.

Lemma group_of_nonempty (d : date) (g : groups) :
  group_of d g <> [] -> In (d, group_of d g) g.
Proof.
  induction g as [|[d0 es0] g IH]; simpl; intros H; [congruence|].
  destruct (date_eqb d d0) eqn:E.
  - apply date_eqb_eq in E. subst d0. now left.
  - right. apply IH, H.
Qed.

Lemma store_record_dated (k : kind) (ws : worksheet) (d : date) (row : Z) (rec : record) :
  store_record k ws d row = Ok rec -> dated d rec.
Proof.
  unfold store_record. destruct (read_fields ws row (kind_schema k)); simpl;
    [|discriminate].
  intros H. injection H as <-. reflexivity.
Qed.

(** Every record of a report carries the date of the report. *)
Lemma report_records_dated (k : kind) (r : parsed) :
  parse_result r -> Forall (dated (p_date r)) (section_of k r).
Proof.
  intros (f & Hf). destruct (parse_flash_report_ok f r Hf) as (_ & _ & ws & _ & _ & _ & Hk & _).
  apply Forall_forall. intros rec Hin.
  destruct (scan_rows_origin k ws _ _ _ (Hk k) rec Hin) as (row & _ & _ & Hrec).
  eapply store_record_dated, Hrec.
Qed.

Lemma filter_dated_same (d : date) (l : list record) :
  Forall (dated d) l -> filter (has_date d) l = l.
Proof.
  induction 1 as [|r l Hr _ IH]; simpl; [reflexivity|].
  unfold has_date at 1. unfold dated in Hr. rewrite Hr, date_eqb_refl, IH.
  reflexivity.
Qed.

Lemma filter_dated_other (d d' : date) (l : list record) :
  d' <> d -> Forall (dated d') l -> filter (has_date d) l = [].
Proof.
  intros Hne. induction 1 as [|r l Hr _ IH]; simpl; [reflexivity|].
  unfold has_date at 1. unfold dated in Hr. rewrite Hr.
  replace (date_eqb d' d) with false by (symmetry; apply date_eqb_neq, Hne).
  exact IH.
Qed.

Lemma filter_flat_map_winners (proj : parsed -> list record) (d : date)
      (g : groups) (winners : list entry) :
  (forall r, parse_result r -> Forall (dated (p_date r)) (proj r)) ->
  well_grouped g ->
  Forall2 (fun grp w => winner (snd grp) = Ok w) g winners ->
  filter (has_date d) (flat_map (fun w => proj (e_result w)) winners)
  = match winner (group_of d g) with
    | Ok w => proj (e_result w)
    | Raise _ => []
    end.
Proof.
  intros Hproj [Hnd Hg] H.
  induction H as [|[d0 es] w g ws Hw _ IH]; [reflexivity|].
  simpl in Hw. inversion Hnd as [|? ? Hn Hnd']; subst.
  assert (Hg' : forall d1 es1, In (d1, es1) g ->
            es1 <> [] /\
            forall e, In e es1 -> p_date (e_result e) = d1 /\ parse_result (e_result e)).
  { intros d1 es1 Hin. apply Hg. now right. }
  specialize (IH Hnd' Hg').
  destruct (Hg d0 es (or_introl eq_refl)) as [_ He].
  destruct (He w (winner_In _ _ Hw)) as [Hd Hr].
  cbn [flat_map group_of]. rewrite filter_app, IH.
  destruct (date_eqb d d0) eqn:E.
  - apply date_eqb_eq in E. subst d.
    rewrite Hw, filter_dated_same by (rewrite <- Hd; apply Hproj, Hr).
    assert (Hnil : group_of d0 g = []).
    { destruct (group_of d0 g) as [|x l] eqn:Eg; [reflexivity|].
      exfalso. apply Hn.
      assert (Hin : In (d0, group_of d0 g) g)
        by (apply group_of_nonempty; rewrite Eg; discriminate).
      apply (in_map fst) in Hin. exact Hin. }
    rewrite Hnil. apply app_nil_r.
  - apply date_eqb_neq in E.
    rewrite (filter_dated_other d d0) by (congruence || (rewrite <- Hd; apply Hproj, Hr)).
    reflexivity.
Qed.

Lemma table_rows (k : kind) (winners : list entry) :
  Permutation
    (rows (table_of k (tables (collect (mkcollected [] [] [] [] []) winners))))
    (flat_map (fun w => section_of k (e_result w)) winners).
Proof.
  destruct k; cbn [table_of tables sales transactions channels labor collect
                   all_sales all_transactions all_channels all_labor app section_of];
    rewrite sort_by_date_perm, rows_frame_of; reflexivity.
Qed.

Lemma table_of_tables (k : kind) (winners : list entry) :
  table_of k (tables (collect (mkcollected [] [] [] [] []) winners))
  = sort_by_date (frame_of (flat_map (fun w => section_of k (e_result w)) winners)).
Proof. destruct k; reflexivity. Qed.

(** The rows under a date, for any part of the reports that carries the
    date of its report. *)
Lemma table_rows_of_date (proj : parsed -> list record) (d : date) (g : groups)
      (winners : list entry) (w : entry) (l : list record) :
  (forall r, parse_result r -> Forall (dated (p_date r)) (proj r)) ->
  well_grouped g ->
  Forall2 (fun grp w => winner (snd grp) = Ok w) g winners ->
  winner (group_of d g) = Ok w ->
  l = flat_map (fun w => proj (e_result w)) winners ->
  Permutation (filter (has_date d) (rows (sort_by_date (frame_of l))))
              (proj (e_result w)).
Proof.
  intros Hproj Hg Hws Hw ->.
  rewrite (filter_perm (has_date d) _ _ (sort_by_date_perm _)), rows_frame_of.
  rewrite (filter_flat_map_winners proj d g winners Hproj Hg Hws), Hw.
  reflexivity.
Qed.

Lemma brand_rows_of_date (d : date) (g : groups) (winners : list entry) (w : entry) :
  well_grouped g ->
  Forall2 (fun grp w => winner (snd grp) = Ok w) g winners ->
  winner (group_of d g) = Ok w ->
  filter (has_date d)
         (rows (brand_totals (tables (collect (mkcollected [] [] [] [] []) winners))))
  = [p_brand_total (e_result w)].
Proof.
  intros Hg Hws Hw.
  cbn [tables brand_totals collect all_brand_totals app].
  apply Permutation_length_1_inv, Permutation_sym.
  apply (table_rows_of_date (fun r => [p_brand_total r]) d g winners w);
    try assumption.
  - intros p (f & Hf). constructor; [|constructor].
    destruct (brand_total_of_report f p Hf) as (_ & _ & _ & _ & _ & _ & Hl & _).
    exact Hl.
  - clear. induction winners as [|x ws IH]; simpl; congruence.
Qed.

(** X19.  For every date of which some matching file holds a report, and
    for every kind of store records, the rows of the table under the date
    are, up to their order, the records of the winner among the candidates
    of the date; and the table of brand totals has one row under the date,
    the brand total of the winner. *)
Theorem winner_records_in_tables (folder : list dir_entry) (d : date) :
  let candidates := candidates_of d (filter (fun f => glob_match (fname f)) folder) in
  candidates <> [] ->
  exists w t,
    winner candidates = Ok w /\
    load_all_reports folder = Ok t /\
    (forall k, Permutation (filter (has_date d) (rows (table_of k t)))
                           (section_of k (e_result w))) /\
    filter (has_date d) (rows (brand_totals t)) = [p_brand_total (e_result w)].
Proof.
  intros candidates Hne.
  destruct (load_all_reports_run folder) as (Hg & ws & Hws & Hload).
  set (g := fold_left group_step (filter (fun f => glob_match (fname f)) folder) [])
    in Hg, Hws.
  assert (Hgroup : group_of d g = candidates).
  { unfold g. rewrite group_of_fold. reflexivity. }
  destruct (winner_position candidates Hne) as (w & _ & _ & Hw & _).
  exists w. eexists. split; [exact Hw|]. split; [exact Hload|]. split.
  - intros k. rewrite (filter_perm _ _ _ (table_rows k ws)).
    rewrite (filter_flat_map_winners (section_of k) d g ws
               (report_records_dated k) Hg Hws).
    rewrite Hgroup, Hw. reflexivity.
  - cbn [tables brand_totals collect all_brand_totals app].
    set (bt := map (fun w => p_brand_total (e_result w)) ws).
    assert (Hperm : Permutation (filter (has_date d) (rows (sort_by_date (frame_of bt))))
                                (filter (has_date d) bt)).
    { apply filter_perm. rewrite sort_by_date_perm, rows_frame_of. reflexivity. }
    assert (Hbt : filter (has_date d) bt = [p_brand_total (e_result w)]).
    { assert (Hfm : flat_map (fun x => [p_brand_total (e_result x)]) ws = bt).
      { unfold bt. clear. induction ws as [|x ws IH]; simpl; congruence. }
      rewrite <- Hfm.
      rewrite (filter_flat_map_winners (fun r => [p_brand_total r]) d g ws);
        [rewrite Hgroup, Hw; reflexivity | | exact Hg | exact Hws].
      intros r (f & Hf). constructor; [|constructor].
      destruct (brand_total_of_report f r Hf) as (_ & _ & _ & _ & _ & _ & Hl & _).
      exact Hl. }
    rewrite Hbt in Hperm. symmetry in Hperm.
    apply Permutation_length_1_inv in Hperm. exact Hperm.
Qed.

(** C1.  Winner selection per date.  The first loop groups under a date the
    candidates of the date, in the order in which the files are enumerated.
    The candidates are ordered by preference first and by modification time
    next, both descending (the sorted list is a permutation of the
    candidates in which no entry is followed by one that ranks before it),
    and the winner is the first of the sorted list.  So: when some candidate
    is preferred the winner is preferred, whatever the modification times;
    no candidate of the preference of the winner is newer than the winner;
    and among the candidates of the same preference and the same
    modification time the winner is the first in the order of enumeration
    (every such candidate enumerated before the winner is strictly
    older).  The aggregator takes the records of that winner and of no other
    candidate of the date: provided [sort_values] permutes the rows, the
    rows that the tables of [load_all_reports] hold under the date are the
    records of the winner, and the one brand total under the date is the
    winner's. *)
Theorem winner_selection (folder : list dir_entry) (d : date) :
  let files := filter (fun f => glob_match (fname f)) folder in
  let candidates := candidates_of d files in
  candidates <> [] ->
  exists g w before after t,
    first_pass files = Ok g /\ In (d, candidates) g /\
    Permutation (sort_reverse candidates) candidates /\
    StronglySorted ranks_before (sort_reverse candidates) /\
    winner candidates = Ok w /\
    candidates = before ++ w :: after /\
    (forall e, In e candidates -> e_preferred e = true -> e_preferred w = true) /\
    (forall e, In e candidates -> e_preferred e = e_preferred w ->
               e_mtime e <= e_mtime w) /\
    (forall e, In e before -> e_preferred e = e_preferred w ->
               e_mtime e < e_mtime w) /\
    load_all_reports folder = Ok t /\
    (forall k, Permutation (filter (has_date d) (rows (table_of k t)))
                           (section_of k (e_result w))) /\
    filter (has_date d) (rows (brand_totals t)) = [p_brand_total (e_result w)].
Proof.
  intros files candidates Hne.
  destruct (winner_of_entries candidates Hne)
    as (w & before & after & Hperm & Hsorted & Hw & Hsplit & Hpref & Hnew & Hold).
  destruct (load_all_reports_run folder) as (Hg & ws & Hws & Hload).
  set (g := fold_left group_step files []) in Hg, Hws.
  assert (Hgroup : group_of d g = candidates)
    by (unfold g; rewrite group_of_fold; reflexivity).
  exists g, w, before, after. eexists.
  split; [apply first_pass_ok|]. split.
  { rewrite <- Hgroup. apply group_of_nonempty. rewrite Hgroup. exact Hne. }
  do 7 (split; [assumption|]).
  split; [exact Hload|]. split.
  - intros k. rewrite table_of_tables.
    apply (table_rows_of_date (section_of k) d g ws w);
      [apply report_records_dated | exact Hg | exact Hws | | reflexivity].
    rewrite Hgroup. exact Hw.
  - apply (brand_rows_of_date d g ws w Hg Hws). rewrite Hgroup. exact Hw.
Qed.

(** ** The columns of the tables *)

Lemma distinct_NoDup (l : list string) : distinct l = true -> NoDup l.
Proof.
  induction l as [|x l IH]; simpl; intros H; constructor.
  - apply andb_true_iff in H. destruct H as [H _]. apply negb_true_iff in H.
    intros Hin. assert (E : existsb (String.eqb x) l = true).
    { apply existsb_exists. exists x. split; [exact Hin | apply String.eqb_refl]. }
    congruence.
  - apply IH. apply andb_true_iff in H. tauto.
Qed.

Lemma existsb_string_In (x : string) (l : list string) :
  existsb (String.eqb x) l = true <-> In x l.
Proof.
  rewrite existsb_exists. split.
  - intros (y & Hy & E). apply String.eqb_eq in E. now subst.
  - intros H. exists x. split; [exact H | apply String.eqb_refl].
Qed.

Lemma add_keys_fresh (cs : list string) (r : record) :
  NoDup (cs ++ map fst r) -> add_keys cs r = cs ++ map fst r.
Proof.
  unfold add_keys. revert cs. induction r as [|[k v] r IH]; intros cs H; simpl.
  - rewrite app_nil_r. reflexivity.
  - simpl in H.
    assert (Hk : existsb (String.eqb k) cs = false).
    { destruct (existsb (String.eqb k) cs) eqn:E; [|reflexivity].
      apply existsb_string_In in E. apply NoDup_remove_2 in H.
      exfalso. apply H, in_or_app. now left. }
    rewrite Hk, IH.
    + rewrite <- app_assoc. reflexivity.
    + rewrite <- app_assoc. exact H.
Qed.

Lemma add_keys_known (cs : list string) (r : record) :
  (forall k, In k (map fst r) -> In k cs) -> add_keys cs r = cs.
Proof.
  unfold add_keys. induction r as [|[k v] r IH]; intros H; simpl; [reflexivity|].
  replace (existsb (String.eqb k) cs) with true.
  - apply IH. intros k' Hk'. apply H. now right.
  - symmetry. apply existsb_string_In, H. now left.
Qed.

(** The columns of a table built from records that all have the same keys. *)
Lemma pd_DataFrame_columns (cols : list string) (r : record) (l : list record) :
  NoDup cols -> Forall (fun x => map fst x = cols) (r :: l) ->
  columns (pd_DataFrame (r :: l)) = cols.
Proof.
  intros Hnd H. inversion H as [|? ? Hr Hl]; subst.
  unfold pd_DataFrame. cbn [columns fold_left].
  rewrite (add_keys_fresh [] r) by exact Hnd. cbn [app].
  clear H. induction l as [|x l IH]; [reflexivity|].
  inversion Hl as [|? ? Hx Hl']; subst. cbn [fold_left].
  rewrite add_keys_known by (rewrite Hx; auto). apply IH, Hl'.
Qed.

Lemma read_fields_keys (ws : worksheet) (row : Z) (sch : schema) (fs : record) :
  read_fields ws row sch = Ok fs -> map fst fs = map (fun f => fst (fst f)) sch.
Proof.
  unfold read_fields. revert fs.
  induction sch as [|[[k col] c] sch IH]; simpl; intros fs H.
  - injection H as <-. reflexivity.
  - destruct (coerce c (ws row col)) as [v|e]; [|discriminate]. simpl in H.
    destruct (mapM _ sch) as [fs'|e]; [|discriminate]. simpl in H.
    injection H as <-. simpl. f_equal. apply IH. reflexivity.
Qed.

Lemma report_records_keys (k : kind) (r : parsed) :
  parse_result r -> Forall (fun rec => map fst rec = kind_columns k) (section_of k r).
Proof.
  intros (f & Hf). destruct (parse_flash_report_ok f r Hf) as (_ & _ & ws & _ & _ & _ & Hk & _).
  apply Forall_forall. intros rec Hin.
  destruct (scan_rows_origin k ws _ _ _ (Hk k) rec Hin) as (row & _ & _ & Hrec).
  unfold store_record in Hrec.
  destruct (read_fields ws row (kind_schema k)) as [fs|e] eqn:E; [|discriminate].
  simpl in Hrec. injection Hrec as <-. simpl.
  rewrite (read_fields_keys _ _ _ _ E). reflexivity.
Qed.

Lemma columns_sort_by_date (df : DataFrame) : columns (sort_by_date df) = columns df.
Proof.
  unfold sort_by_date.
  destruct (negb (df_empty df) && existsb (String.eqb "date") (columns df)); reflexivity.
Qed.

Lemma Forall2_In_right {A B : Type} (R : A -> B -> Prop) (l : list A) (l' : list B)
      (y : B) :
  Forall2 R l l' -> In y l' -> exists x, In x l /\ R x y.
Proof.
  induction 1 as [|a b l l' Hab _ IH]; intros Hin; [destruct Hin|].
  destruct Hin as [<-|Hin].
  - exists a. split; [now left | exact Hab].
  - destruct (IH Hin) as (x & Hx & Hr). exists x. split; [now right | exact Hr].
Qed.

(** A table of store records that has rows has the columns of its kind. *)
Lemma table_columns (folder : list dir_entry) (t : data) (k : kind) :
  load_all_reports folder = Ok t ->
  rows (table_of k t) <> [] -> columns (table_of k t) = kind_columns k.
Proof.
  intros Hload.
  destruct (load_all_reports_run folder) as ([_ Hg] & ws & Hws & Hrun).
  rewrite Hload in Hrun. injection Hrun as ->.
  set (g := fold_left group_step (filter (fun f => glob_match (fname f)) folder) [])
    in Hg, Hws.
  assert (Hkeys : Forall (fun rec => map fst rec = kind_columns k)
                         (flat_map (fun w => section_of k (e_result w)) ws)).
  { apply Forall_flat_map, Forall_forall. intros w Hw.
    apply report_records_keys.
    destruct (Forall2_In_right _ _ _ _ Hws Hw) as ((d & es) & Hin & Hwin).
    simpl in Hwin. apply winner_In in Hwin.
    destruct (Hg d es Hin) as [_ He]. apply (He w Hwin). }
  assert (Hcols : forall l,
            Forall (fun rec => map fst rec = kind_columns k) l ->
            rows (sort_by_date (frame_of l)) <> [] ->
            columns (sort_by_date (frame_of l)) = kind_columns k).
  { intros [|r l] Hl Hrows.
    - exfalso. apply Hrows. reflexivity.
    - rewrite columns_sort_by_date. apply pd_DataFrame_columns; [|exact Hl].
      apply distinct_NoDup. destruct k; reflexivity. }
  destruct k; cbn [table_of tables sales transactions channels labor collect
                   all_sales all_transactions all_channels all_labor app];
    apply Hcols; exact Hkeys.
Qed.

(** * Further properties of the loader *)

(** ** The coercions *)

Lemma py_float_raises (v : cell) (e : exn) :
  py_float v = Raise e ->
  (e = TypeError /\ (v = CNone \/ exists t text, v = COther t text)) \/
  (e = ValueError /\ exists s, v = CStr s) \/
  (e = OverflowError /\ exists n, v = CInt n /\ float_of_int n = Raise OverflowError).
Proof.
  destruct v as [|s|n|x|b|t text]; simpl; intros H; try discriminate.
  - injection H as <-. left. auto.
  - destruct (float_of_string s); [discriminate|]. injection H as <-. right. left. eauto.
  - right. right.
    assert (He : e = OverflowError).
    { unfold float_of_int in H.
      destruct (binary_normalize 53 1024 n 0 false); try discriminate.
      injection H as <-. reflexivity. }
    subst e. eauto.
  - injection H as <-. left. split; [reflexivity|]. right. eauto.
Qed.

(** X1.  The coercions raise nothing but [OverflowError], and only on two
    kinds of cells: [safe_float] on an integer too large for a float;
    [safe_int] on such an integer or on a cell that [float()] reads as an
    infinite float.  On every other cell both return a value. *)
Theorem coercions_raise_only_overflow (v : cell) (e : exn) :
  (safe_float v = Raise e ->
     e = OverflowError /\
     exists n, v = CInt n /\ float_of_int n = Raise OverflowError) /\
  (safe_int v = Raise e ->
     e = OverflowError /\
     ((exists n, v = CInt n /\ float_of_int n = Raise OverflowError) \/
      exists s, py_float v = Ok (S754_infinity s))).
Proof.
  split.
  - unfold safe_float. destruct (is_blank v); [discriminate|].
    destruct (py_float v) as [x|e'] eqn:E; [discriminate|].
    destruct (py_float_raises v e' E) as [[-> _]|[[-> _]|[-> Hn]]]; simpl;
      try discriminate.
    intros H. injection H as <-. auto.
  - unfold safe_int. destruct (is_blank v); [discriminate|].
    destruct (py_float v) as [x|e'] eqn:E.
    + cbn [bind]. destruct x; simpl; try discriminate.
      intros H. injection H as <-. split; [reflexivity|]. right. eauto.
    + destruct (py_float_raises v e' E) as [[-> _]|[[-> _]|[-> Hn]]]; simpl;
        try discriminate.
      intros H. injection H as <-. auto.
Qed.

Lemma binary_normalize_small (n : Z) :
  - 2 ^ 53 < n < 2 ^ 53 -> n <> 0 ->
  exists m e, binary_normalize 53 1024 n 0 false = S754_finite (n <? 0) m e /\
              e <= 0 /\ Zpos m = Z.abs n * 2 ^ (- e).
Proof.
  intros Hn H0. destruct n as [|p|p]; [congruence| |].
  - destruct (binary_round_small false p) as (m & e & Hr & He & Hm); [lia|].
    exists m, e. cbn [binary_normalize Z.ltb Z.compare Z.abs]. auto.
  - destruct (binary_round_small true p) as (m & e & Hr & He & Hm); [lia|].
    exists m, e. cbn [binary_normalize Z.ltb Z.compare Z.abs]. auto.
Qed.

(** X2.  A cell that holds an integer between -2^53 and 2^53 keeps its value
    through both coercions: [safe_int] returns the integer itself, and
    [safe_float] the float of exactly that value. *)
Theorem integer_cell_kept (n : Z) :
  - 2 ^ 53 < n < 2 ^ 53 ->
  safe_int (CInt n) = Ok n /\
  exists x, safe_float (CInt n) = Ok x /\ int_of_float x = Ok n /\
    ((n = 0 /\ x = float_zero) \/
     exists m e, x = S754_finite (n <? 0) m e /\ e <= 0 /\
                 Zpos m = Z.abs n * 2 ^ (- e)).
Proof.
  intros Hn. destruct (Z.eq_dec n 0) as [->|H0].
  - split; [reflexivity|]. exists float_zero. repeat split. left. auto.
  - destruct (binary_normalize_small n Hn H0) as (m & e & Hr & He & Hm).
    assert (Hi : int_of_float (S754_finite (n <? 0) m e) = Ok n).
    { cbn [int_of_float]. rewrite Hm.
      assert (Ha : (if 0 <=? e then Z.abs n * 2 ^ (- e) * 2 ^ e
                    else Z.abs n * 2 ^ (- e) / 2 ^ (- e)) = Z.abs n).
      { destruct (Z.leb_spec 0 e).
        - replace e with 0 by lia. simpl. lia.
        - apply Z.div_mul, Z.pow_nonzero; lia. }
      rewrite Ha. f_equal. destruct (Z.ltb_spec n 0); lia. }
    assert (Hf : safe_float (CInt n) = Ok (S754_finite (n <? 0) m e)).
    { unfold safe_float. cbn [is_blank py_float]. unfold float_of_int. rewrite Hr.
      reflexivity. }
    split.
    + unfold safe_int. cbn [is_blank py_float]. unfold float_of_int. rewrite Hr.
      cbn [bind]. rewrite Hi. reflexivity.
    + exists (S754_finite (n <? 0) m e). split; [exact Hf|]. split; [exact Hi|].
      right. eauto.
Qed.

(** ** The date of the header, again *)

Lemma decimal_number_bound (s : string) :
  all_digits s = true -> 0 <= decimal_number s < 10 ^ Z.of_nat (String.length s).
Proof.
  unfold decimal_number, all_digits.
  assert (H : forall acc, 0 <= acc -> string_forallb is_digit s = true ->
            0 <= fold_left (fun a c => 10 * a + digit_val c) (list_ascii_of_string s) acc
              < (acc + 1) * 10 ^ Z.of_nat (String.length s)).
  { induction s as [|c s IH]; intros acc Hacc Hd.
    - simpl. lia.
    - simpl in Hd. apply andb_true_iff in Hd. destruct Hd as [Hc Hs].
      cbn [list_ascii_of_string fold_left String.length].
      assert (Hv : 0 <= digit_val c <= 9).
      { unfold is_digit in Hc. unfold digit_val.
        apply andb_true_iff in Hc. rewrite !Z.leb_le in Hc. lia. }
      destruct (IH (10 * acc + digit_val c) ltac:(lia) Hs) as [H1 H2].
      split; [exact H1|].
      rewrite Nat2Z.inj_succ, Z.pow_succ_r by lia.
      pose proof (Z.pow_pos_nonneg 10 (Z.of_nat (String.length s)) ltac:(lia) ltac:(lia)).
      nia. }
  intros Hd. specialize (H 0 ltac:(lia) Hd). lia.
Qed.

Lemma days_in_month_le (y m : Z) : days_in_month y m <= 31.
Proof.
  unfold days_in_month.
  destruct (m =? 2); [destruct (is_leap y); lia|].
  destruct ((m =? 4) || (m =? 6) || (m =? 9) || (m =? 11)); lia.
Qed.

(** X3.  A date that [parse_date_from_cell] returns is a date of the
    calendar: its month is between 1 and 12, its day is a day of that month
    in that year, and its year is between 1 and 9999. *)
Theorem parsed_date_is_valid (v : cell) (d : date) :
  parse_date_from_cell v = Ok (Some d) ->
  valid_date (year d) (month d) (day d) = true /\
  1 <= year d <= 9999 /\ 1 <= month d <= 12 /\
  1 <= day d <= days_in_month (year d) (month d) /\ day d <= 31.
Proof.
  unfold parse_date_from_cell. destruct (negb (truthy v)); [discriminate|].
  destruct (search_date (py_str v)) as [[[m dd] y]|] eqn:Es; [|discriminate].
  unfold strptime_mdy.
  destruct (valid_date (number_of y) (number_of m) (number_of dd)) eqn:Ev;
    [|discriminate].
  cbn [bind]. intros H. injection H as <-. cbn [year month day].
  split; [exact Ev|].
  destruct (search_date_some _ _ Es) as (pre & rest & _ & Hm).
  destruct (match_date_at_sound _ _ _ _ Hm) as (Ht & _).
  apply date_token_iff in Ht. destruct Ht as (_ & _ & Hy & _ & _ & Hly).
  pose proof (decimal_number_bound y Hy) as Hb. rewrite Hly in Hb.
  rewrite <- (number_of_digits y Hy) in Hb.
  unfold valid_date in Ev. rewrite !andb_true_iff, !Z.leb_le in Ev.
  pose proof (days_in_month_le (number_of y) (number_of m)).
  change (10 ^ Z.of_nat 4) with 10000 in Hb. lia.
Qed.

Lemma list_ascii_app (s t : string) :
  list_ascii_of_string (s ++ t) = list_ascii_of_string s ++ list_ascii_of_string t.
Proof. induction s as [|c s IH]; simpl; [reflexivity | now rewrite IH]. Qed.

Lemma token_has_slash (s : string) :
  has_date_token s -> In "/"%char (list_ascii_of_string s).
Proof.
  intros (pre & rest & -> & m & d & y & post & _ & ->).
  unfold token_text. rewrite !list_ascii_app. simpl.
  apply in_or_app. right. apply in_or_app. left. apply in_or_app. right. now left.
Qed.

Lemma uint_text_no_slash (u : Decimal.uint) :
  ~ In "/"%char (list_ascii_of_string (NilEmpty.string_of_uint u)).
Proof.
  induction u; simpl; [tauto|..]; intros [H|H]; first [discriminate H | auto].
Qed.

Lemma int_text_no_slash (n : Z) :
  ~ In "/"%char (list_ascii_of_string (NilZero.string_of_int (Z.to_int n))).
Proof.
  assert (H : forall u, ~ In "/"%char (list_ascii_of_string (NilZero.string_of_uint u))).
  { intros u. unfold NilZero.string_of_uint. destruct u; try apply uint_text_no_slash.
    simpl. intros [H|[]]. discriminate H. }
  unfold NilZero.string_of_int. destruct (Z.to_int n) as [u|u].
  - apply H.
  - simpl. intros [E|E]; [discriminate E | exact (H u E)].
Qed.

(** X4.  A header cell that is empty or holds an integer or a boolean gives
    no date, whatever its value: [parse_flash_report] returns no result and
    raises nothing. *)
Theorem header_without_text (sheets : list (string * worksheet))
        (chartsheets : list string) (ws : worksheet) :
  get_sheet sheet_name sheets = Ok ws ->
  ws 2 1 = CNone \/ (exists n, ws 2 1 = CInt n) \/ (exists b, ws 2 1 = CBool b) ->
  parse_date_from_cell (ws 2 1) = Ok None /\
  parse_flash_report (Workbook sheets chartsheets) = Ok None.
Proof.
  intros Hs Hv.
  assert (Hd : parse_date_from_cell (ws 2 1) = Ok None).
  { destruct Hv as [->|[(n & ->)|([|] & ->)]]; try reflexivity.
    unfold parse_date_from_cell. rewrite search_date_none.
    - destruct (negb (truthy (CInt n))); reflexivity.
    - intros Ht. apply token_has_slash in Ht. exact (int_text_no_slash n Ht). }
  split; [exact Hd|]. cbn [parse_flash_report].
  rewrite workbook_getitem_bind, Hs. cbn [bind]. rewrite Hd. reflexivity.
Qed.

(** ** What the parser raises *)

Lemma coerce_raises (c : coercion) (v : cell) (e : exn) :
  coerce c v = Raise e -> e = OverflowError.
Proof.
  destruct c; simpl.
  - destruct (safe_float_cases v) as [[x ->]| ->]; simpl; [discriminate|].
    intros H. injection H as <-. reflexivity.
  - destruct (safe_int_cases v) as [[x ->]| ->]; simpl; [discriminate|].
    intros H. injection H as <-. reflexivity.
Qed.

Lemma read_fields_raises (ws : worksheet) (row : Z) (sch : schema) (e : exn) :
  read_fields ws row sch = Raise e -> e = OverflowError.
Proof.
  unfold read_fields. induction sch as [|[[k col] c] sch IH]; simpl; [discriminate|].
  destruct (coerce c (ws row col)) as [v|e'] eqn:E; simpl.
  - destruct (mapM _ sch) as [fs|e'']; simpl; [discriminate|].
    intros H. injection H as <-. apply IH. reflexivity.
  - intros H. injection H as <-. eapply coerce_raises, E.
Qed.

Lemma scan_rows_raises (k : kind) (ws : worksheet) (d : date) (rows : list Z) (e : exn) :
  scan_rows k ws d rows = Raise e -> e = OverflowError.
Proof.
  induction rows as [|row rows IH]; simpl; [discriminate|].
  destruct (negb (truthy (ws row 1)) || skip_label k (py_str (ws row 1))); [exact IH|].
  unfold store_record.
  destruct (read_fields ws row (kind_schema k)) as [fs|e'] eqn:E; simpl.
  - destruct (scan_rows k ws d rows) as [rs|e'']; simpl; [discriminate|].
    intros H. injection H as <-. apply IH. reflexivity.
  - intros H. injection H as <-. eapply read_fields_raises, E.
Qed.




(** Once the header gives a date, the parse returns a report of that date
    unless a coercion overflows. *)
Lemma parse_dated_sheet (sheets : list (string * worksheet)) (chartsheets : list string)
      (ws : worksheet) (d : date) :
  get_sheet sheet_name sheets = Ok ws ->
  parse_date_from_cell (ws 2 1) = Ok (Some d) ->
  parse_flash_report (Workbook sheets chartsheets) = Raise OverflowError \/
  exists p, parse_flash_report (Workbook sheets chartsheets) = Ok (Some p) /\
            p_date p = d.
Proof.
  intros Hs Hd. cbn [parse_flash_report].
  rewrite workbook_getitem_bind, Hs. cbn [bind]. rewrite Hd. cbn [bind].
  unfold store_records, brand_total_record.
  destruct (scan_rows Sales ws d (kind_rows Sales)) as [s|e1] eqn:E1; cbn [bind];
    [|left; rewrite (scan_rows_raises _ _ _ _ _ E1); reflexivity].
  destruct (read_fields ws 16 brand_total_schema) as [b|e1] eqn:E2; cbn [bind];
    [|left; rewrite (read_fields_raises _ _ _ _ E2); reflexivity].
  destruct (scan_rows Transactions ws d (kind_rows Transactions)) as [t|e1] eqn:E3;
    cbn [bind]; [|left; rewrite (scan_rows_raises _ _ _ _ _ E3); reflexivity].
  destruct (scan_rows Channels ws d (kind_rows Channels)) as [c|e1] eqn:E4;
    cbn [bind]; [|left; rewrite (scan_rows_raises _ _ _ _ _ E4); reflexivity].
  destruct (scan_rows Labor ws d (kind_rows Labor)) as [l|e1] eqn:E5;
    cbn [bind]; [|left; rewrite (scan_rows_raises _ _ _ _ _ E5); reflexivity].
  right. eexists. split; reflexivity.
Qed.


(** ** The stores of a section *)

Lemma store_record_store (k : kind) (ws : worksheet) (d : date) (row : Z) (rec : record) :
  store_record k ws d row = Ok rec ->
  lookup "store" rec = Some (VStr (py_strip (py_str (ws row 1)))).
Proof.
  unfold store_record. destruct (read_fields ws row (kind_schema k)); simpl;
    [|discriminate].
  intros H. injection H as <-. reflexivity.
Qed.

Lemma scan_rows_stores (k : kind) (ws : worksheet) (d : date) (rows : list Z)
      (recs : list record) :
  scan_rows k ws d rows = Ok recs ->
  map (lookup "store") recs
  = map (fun row => Some (VStr (py_strip (py_str (ws row 1)))))
        (filter (fun row => negb (skipped k ws row)) rows).
Proof.
  revert recs. induction rows as [|row rows IH]; intros recs H.
  - injection H as <-. reflexivity.
  - cbn [scan_rows] in H. fold (skipped k ws row) in H. cbn [filter].
    destruct (skipped k ws row); cbn [negb].
    + apply IH, H.
    + destruct (store_record k ws d row) as [r|e] eqn:E; [|discriminate].
      cbn [bind] in H.
      destruct (scan_rows k ws d rows) as [rs|e]; [|discriminate].
      cbn [bind] in H. injection H as <-. cbn [map].
      rewrite (store_record_store _ _ _ _ _ E), (IH rs eq_refl). reflexivity.
Qed.

(** X6.  The stores of a section of a report are the labels, stripped, of
    the rows of the section that are not skipped, in the order of the rows;
    so a section has at most eight records, and each carries the date of
    the report. *)
Theorem section_stores (k : kind) (ws : worksheet) (d : date) (recs : list record) :
  store_records k ws d = Ok recs ->
  map (lookup "store") recs
  = map (fun row => Some (VStr (py_strip (py_str (ws row 1)))))
        (filter (fun row => negb (skipped k ws row)) (kind_rows k)) /\
  (List.length recs <= 8)%nat /\
  Forall (dated d) recs.
Proof.
  intros H. pose proof (scan_rows_stores k ws d _ recs H) as Hs.
  split; [exact Hs|]. split.
  - rewrite <- (length_map (lookup "store")), Hs, length_map.
    etransitivity; [apply filter_length_le|]. destruct k; simpl; lia.
  - apply Forall_forall. intros rec Hin.
    destruct (scan_rows_origin k ws d _ recs H rec Hin) as (row & _ & _ & Hrec).
    eapply store_record_dated, Hrec.
Qed.

(** ** The groups of the first loop *)

Lemma setdefault_append_count (d : date) (e : entry) (g : groups) :
  List.length (List.concat (map snd (setdefault_append d e g)))
  = S (List.length (List.concat (map snd g))).
Proof.
  induction g as [|[d0 es] g IH]; simpl; [reflexivity|].
  destruct (date_eqb d d0); simpl.
  - rewrite !length_app. simpl. lia.
  - rewrite !length_app, IH. lia.
Qed.

Lemma fold_group_step_count (files : list dir_entry) (acc : groups) :
  List.length (List.concat (map snd (fold_left group_step files acc)))
  = (List.length (List.concat (map snd acc)) + List.length (filter parses files))%nat.
Proof.
  revert acc. induction files as [|f files IH]; intros acc; simpl; [lia|].
  rewrite IH. unfold group_step, parses.
  destruct (parse_flash_report (fcontent f)) as [[r|]|e]; simpl; try lia.
  rewrite setdefault_append_count. lia.
Qed.

(** X7.  The first loop of [load_all_reports] raises nothing and groups the
    reports by date: no date has two groups; the group of a date holds the
    candidates of that date, at least one, in the order in which the files
    were enumerated; every date with a candidate has its group; and every
    file that parses is a candidate of one group and one only (the groups
    hold as many candidates as there are files that parse). *)
Theorem first_pass_groups (files : list dir_entry) :
  exists g,
    first_pass files = Ok g /\
    NoDup (map fst g) /\
    (forall d es, In (d, es) g -> es = candidates_of d files /\ es <> []) /\
    (forall d, candidates_of d files <> [] -> In (d, candidates_of d files) g) /\
    List.length (List.concat (map snd g)) = List.length (filter parses files).
Proof.
  exists (fold_left group_step files []).
  pose proof (fold_group_step_well_grouped files [] well_grouped_nil) as [Hnd Hg].
  split; [apply first_pass_ok|]. split; [exact Hnd|].
  assert (Hc : forall d, group_of d (fold_left group_step files []) = candidates_of d files).
  { intros d. rewrite group_of_fold. reflexivity. }
  split; [|split].
  - intros d es Hin. split; [|apply (Hg d es Hin)].
    rewrite <- Hc. symmetry. apply group_of_In; assumption.
  - intros d Hne. rewrite <- Hc. apply group_of_nonempty. rewrite Hc. exact Hne.
  - rewrite fold_group_step_count. reflexivity.
Qed.

(** ** The preferred tag *)






(** ** The cells the parser reads *)

Lemma read_fields_cols_ext (a b : worksheet) (row : Z) (sch : schema) :
  (forall col, In col (map (fun f => snd (fst f)) sch) -> a row col = b row col) ->
  read_fields a row sch = read_fields b row sch.
Proof.
  unfold read_fields. induction sch as [|[[k col] c] sch IH]; intros H; simpl;
    [reflexivity|].
  rewrite (H col) by now left. rewrite IH; [reflexivity|].
  intros col' Hin. apply H. now right.
Qed.

Lemma scan_rows_region_ext (k : kind) (a b : worksheet) (d : date) (rows : list Z) :
  (forall row col, In row rows ->
     col = 1 \/ In col (map (fun f => snd (fst f)) (kind_schema k)) ->
     a row col = b row col) ->
  scan_rows k a d rows = scan_rows k b d rows.
Proof.
  induction rows as [|row rows IH]; intros H; simpl; [reflexivity|].
  unfold store_record.
  rewrite (H row 1) by (auto; now left).
  rewrite (read_fields_cols_ext a b row (kind_schema k))
    by (intros col Hc; apply H; [now left | now right]).
  rewrite IH; [reflexivity|].
  intros r c Hr Hc. apply H; [now right | exact Hc].
Qed.

Lemma section_cells_read (k : kind) (row col : Z) :
  In row (kind_rows k) ->
  col = 1 \/ In col (map (fun f => snd (fst f)) (kind_schema k)) ->
  cell_read row col = true.
Proof.
  intros Hr Hc.
  assert (H : forallb (fun r => forallb (cell_read r)
                                  (1 :: map (fun f => snd (fst f)) (kind_schema k)))
                      (kind_rows k) = true)
    by (destruct k; vm_compute; reflexivity).
  rewrite forallb_forall in H. specialize (H row Hr).
  rewrite forallb_forall in H. apply H. simpl. destruct Hc as [->|Hc]; auto.
Qed.

Lemma brand_cells_read (col : Z) :
  In col (map (fun f => snd (fst f)) brand_total_schema) -> cell_read 16 col = true.
Proof.
  intros Hc.
  assert (H : forallb (cell_read 16) (map (fun f => snd (fst f)) brand_total_schema)
              = true) by (vm_compute; reflexivity).
  rewrite forallb_forall in H. apply H, Hc.
Qed.

(** X9.  The parser reads the sheet [Multibrand_DailyFlashReport] of the
    workbook and, of that sheet, only the header cell A2, the rows 8-15,
    54-61 and 66-73 in the columns 1-21, the row 16 in the columns 2-21 and
    the rows 78-85 in the columns 1-11: two workbooks whose sheets of that
    name agree on these cells give the same result, be it a report, no
    report or an exception. *)
Theorem parser_reads_regions (sheets sheets' : list (string * worksheet))
        (chartsheets chartsheets' : list string) (a b : worksheet) :
  get_sheet sheet_name sheets = Ok a ->
  get_sheet sheet_name sheets' = Ok b ->
  (forall row col, cell_read row col = true -> a row col = b row col) ->
  parse_flash_report (Workbook sheets chartsheets)
  = parse_flash_report (Workbook sheets' chartsheets').
Proof.
  intros Ha Hb H. cbn [parse_flash_report].
  rewrite !workbook_getitem_bind, Ha, Hb. cbn [bind].
  rewrite (H 2 1) by reflexivity.
  destruct (parse_date_from_cell (b 2 1)) as [[d|]|e]; cbn [bind]; try reflexivity.
  unfold store_records, brand_total_record.
  rewrite !(scan_rows_region_ext _ a b d)
    by (intros row col Hr Hc; apply H; eapply section_cells_read; eassumption).
  rewrite (read_fields_cols_ext a b 16)
    by (intros col Hc; apply H, brand_cells_read, Hc).
  reflexivity.
Qed.

(** ** The winner and the order of enumeration *)

(** X10.  When no two candidates of a date have both the same preference and
    the same modification time, the winner does not depend on the order in
    which the files were enumerated. *)
Theorem winner_order_independent (l l' : list entry) :
  Permutation l l' ->
  (forall a b, In a l -> In b l ->
     e_preferred a = e_preferred b -> e_mtime a = e_mtime b -> a = b) ->
  winner l = winner l'.
Proof.
  intros Hp Hties.
  destruct l as [|x l0].
  { apply Permutation_nil in Hp. subst l'. reflexivity. }
  set (l := x :: l0) in *.
  assert (Hne : l <> []) by discriminate.
  assert (Hne' : l' <> []).
  { intros E. subst l'. apply Permutation_sym, Permutation_nil in Hp. discriminate Hp. }
  assert (Hmax : forall es w, es <> [] -> winner es = Ok w ->
            forall e, In e es -> key_lt w e = false).
  { intros es w H Hw.
    destruct (winner_position es H) as (w0 & before & after & Hw0 & Hes & Hb & Ha).
    rewrite Hw in Hw0. injection Hw0 as <-.
    intros e He. rewrite Hes in He. apply in_app_or in He.
    destruct He as [He|[<-|He]].
    - specialize (Hb e He). unfold key_lt in *.
      destruct (e_preferred e), (e_preferred w); try discriminate; try reflexivity; lia.
    - apply key_lt_irrefl.
    - apply Ha, He. }
  destruct (winner_position l Hne) as (w & _ & _ & Hw & _).
  destruct (winner_position l' Hne') as (w' & _ & _ & Hw' & _).
  rewrite Hw, Hw'. f_equal.
  assert (Hin : In w l) by (apply winner_In, Hw).
  assert (Hin' : In w' l).
  { apply (Permutation_in w' (Permutation_sym Hp)), winner_In, Hw'. }
  pose proof (Hmax l w Hne Hw w' Hin') as H1.
  pose proof (Hmax l' w' Hne' Hw' w (Permutation_in w Hp Hin)) as H2.
  apply Hties; try assumption; unfold key_lt in H1, H2;
    destruct (e_preferred w), (e_preferred w'); try discriminate; try reflexivity; lia.
Qed.

(** ** Prefixes *)

Lemma prefix_iff (p s : string) :
  prefix p s = true <-> exists rest, s = (p ++ rest)%string.
Proof.
  revert s. induction p as [|a p IH]; intros s.
  - split; [intros _; exists s; reflexivity | intros _; destruct s; reflexivity].
  - destruct s as [|b s]; [split; [discriminate | intros (r & H); discriminate H]|].
    cbn [prefix append].
    destruct (ascii_dec a b) as [->|Hab].
    + rewrite IH. split; intros (r & H); exists r; [now rewrite H | now injection H].
    + split; [discriminate | intros (r & H); injection H as -> _; contradiction].
Qed.

(** ** The tables, row by row *)

Lemma winner_of_group (g : groups) (winners : list entry) (w : entry) :
  well_grouped g ->
  Forall2 (fun grp w => winner (snd grp) = Ok w) g winners ->
  In w winners ->
  parse_result (e_result w) /\
  group_of (p_date (e_result w)) g <> [] /\
  winner (group_of (p_date (e_result w)) g) = Ok w.
Proof.
  intros [Hnd Hg] H Hin.
  destruct (Forall2_In_right _ _ _ _ H Hin) as ((d & es) & Hges & Hwin).
  simpl in Hwin.
  destruct (Hg d es Hges) as [Hne He].
  destruct (He w (winner_In _ _ Hwin)) as [Hd Hr].
  rewrite Hd, (group_of_In d es g Hnd Hges). auto.
Qed.

Lemma brand_total_keys (r : parsed) :
  parse_result r -> map fst (p_brand_total r) = brand_columns.
Proof.
  intros (f & Hf).
  destruct (parse_flash_report_ok f r Hf) as (_ & _ & ws & _ & _ & _ & _ & Hb).
  unfold brand_total_record in Hb.
  destruct (read_fields ws 16 brand_total_schema) as [fs|e] eqn:E; [|discriminate].
  simpl in Hb. injection Hb as <-. simpl.
  rewrite (read_fields_keys _ _ _ _ E). reflexivity.
Qed.

Lemma frame_columns (cols : list string) (l : list record) :
  NoDup cols -> Forall (fun r => map fst r = cols) l -> l <> [] ->
  columns (sort_by_date (frame_of l)) = cols.
Proof.
  intros Hnd Hl Hne. destruct l as [|r l]; [congruence|].
  rewrite columns_sort_by_date. apply pd_DataFrame_columns; assumption.
Qed.

Lemma frame_without_rows (l : list record) :
  rows (sort_by_date (frame_of l)) = [] -> sort_by_date (frame_of l) = empty_frame.
Proof.
  intros H. pose proof (sort_by_date_perm (frame_of l)) as Hp.
  rewrite H, rows_frame_of in Hp. apply Permutation_nil in Hp. subst l. reflexivity.
Qed.

Lemma frame_rows_keys (cols : list string) (l : list record) :
  Forall (fun r => map fst r = cols) l ->
  Forall (fun r => map fst r = cols) (rows (sort_by_date (frame_of l))).
Proof.
  intros Hl. rewrite Forall_forall in *. intros r Hr. apply Hl.
  pose proof (sort_by_date_perm (frame_of l)) as Hp. rewrite rows_frame_of in Hp.
  apply (Permutation_in r Hp Hr).
Qed.

Lemma brand_totals_tables (winners : list entry) :
  brand_totals (tables (collect (mkcollected [] [] [] [] []) winners))
  = sort_by_date (frame_of (map (fun w => p_brand_total (e_result w)) winners)).
Proof. reflexivity. Qed.

Lemma winners_section_keys (k : kind) (g : groups) (winners : list entry) :
  well_grouped g ->
  Forall2 (fun grp w => winner (snd grp) = Ok w) g winners ->
  Forall (fun rec => map fst rec = kind_columns k)
         (flat_map (fun w => section_of k (e_result w)) winners).
Proof.
  intros Hg Hws. apply Forall_flat_map, Forall_forall. intros w Hw.
  apply report_records_keys. apply (winner_of_group g winners w Hg Hws Hw).
Qed.

Lemma winners_brand_keys (g : groups) (winners : list entry) :
  well_grouped g ->
  Forall2 (fun grp w => winner (snd grp) = Ok w) g winners ->
  Forall (fun rec => map fst rec = brand_columns)
         (map (fun w => p_brand_total (e_result w)) winners).
Proof.
  intros Hg Hws. apply Forall_map, Forall_forall. intros w Hw.
  apply brand_total_keys. apply (winner_of_group g winners w Hg Hws Hw).
Qed.

Lemma kind_columns_NoDup (k : kind) : NoDup (kind_columns k).
Proof. apply distinct_NoDup. destruct k; reflexivity. Qed.

Lemma brand_columns_NoDup : NoDup brand_columns.
Proof. apply distinct_NoDup. reflexivity. Qed.

(** X12.  Each of the five tables is either the table without rows and
    without columns, or a table with rows whose columns are those of its
    kind, in the order of the record of the parser, every row having a
    value under each of these columns and under no other key. *)
Theorem tables_column_uniform (folder : list dir_entry) :
  exists t,
    load_all_reports folder = Ok t /\
    (forall k,
       table_of k t = empty_frame \/
       (rows (table_of k t) <> [] /\
        columns (table_of k t) = kind_columns k /\
        Forall (fun r => map fst r = kind_columns k) (rows (table_of k t)))) /\
    (brand_totals t = empty_frame \/
     (rows (brand_totals t) <> [] /\
      columns (brand_totals t) = brand_columns /\
      Forall (fun r => map fst r = brand_columns) (rows (brand_totals t)))).
Proof.
  destruct (load_all_reports_run folder) as (Hg & ws & Hws & Hload).
  eexists. split; [exact Hload|].
  assert (Hcases : forall cols l,
            NoDup cols -> Forall (fun r => map fst r = cols) l ->
            sort_by_date (frame_of l) = empty_frame \/
            (rows (sort_by_date (frame_of l)) <> [] /\
             columns (sort_by_date (frame_of l)) = cols /\
             Forall (fun r => map fst r = cols) (rows (sort_by_date (frame_of l))))).
  { intros cols l Hnd Hl.
    destruct (rows (sort_by_date (frame_of l))) as [|r rs] eqn:E.
    - left. apply frame_without_rows, E.
    - right. split; [discriminate|]. split.
      + apply frame_columns; try assumption. intros ->.
        pose proof (sort_by_date_perm (frame_of [])) as Hp.
        rewrite E in Hp. apply Permutation_sym, Permutation_nil in Hp. discriminate Hp.
      + rewrite <- E. apply frame_rows_keys, Hl. }
  split.
  - intros k. rewrite table_of_tables.
    apply Hcases; [apply kind_columns_NoDup | eapply winners_section_keys; eassumption].
  - rewrite brand_totals_tables.
    apply Hcases; [apply brand_columns_NoDup | eapply winners_brand_keys; eassumption].
Qed.

Lemma table_row_origin (folder : list dir_entry) (winners : list entry) (k : kind)
      (r : record) :
  let g := fold_left group_step (filter (fun f => glob_match (fname f)) folder) [] in
  well_grouped g ->
  Forall2 (fun grp w => winner (snd grp) = Ok w) g winners ->
  In r (rows (table_of k (tables (collect (mkcollected [] [] [] [] []) winners)))) ->
  exists d w,
    dated d r /\
    candidates_of d (filter (fun f => glob_match (fname f)) folder) <> [] /\
    winner (candidates_of d (filter (fun f => glob_match (fname f)) folder)) = Ok w /\
    In r (section_of k (e_result w)).
Proof.
  intros g Hg Hws Hr.
  apply (Permutation_in r (table_rows k winners)) in Hr.
  apply in_flat_map in Hr. destruct Hr as (w & Hw & Hr).
  destruct (winner_of_group g winners w Hg Hws Hw) as (Hp & Hne & Hwin).
  assert (Hgroup : group_of (p_date (e_result w)) g
                   = candidates_of (p_date (e_result w))
                                   (filter (fun f => glob_match (fname f)) folder)).
  { unfold g. rewrite group_of_fold. reflexivity. }
  rewrite Hgroup in Hne, Hwin.
  exists (p_date (e_result w)), w. split; [|auto].
  pose proof (report_records_dated k (e_result w) Hp) as Hd.
  rewrite Forall_forall in Hd. apply Hd, Hr.
Qed.

(** X13.  Every row of a table of store records is a record of the winner
    of the date it carries: it is dated, some file of the folder parses to a
    report of that date, and the row is one of the records of that kind in
    the report of the winner among these files.  A date of which no file
    holds a report has no row. *)
Theorem table_rows_reported (folder : list dir_entry) :
  let files := filter (fun f => glob_match (fname f)) folder in
  exists t,
    load_all_reports folder = Ok t /\
    (forall k r, In r (rows (table_of k t)) ->
       exists d w,
         dated d r /\ candidates_of d files <> [] /\
         winner (candidates_of d files) = Ok w /\
         In r (section_of k (e_result w))) /\
    (forall k d, candidates_of d files = [] ->
       filter (has_date d) (rows (table_of k t)) = []).
Proof.
  intros files.
  destruct (load_all_reports_run folder) as (Hg & ws & Hws & Hload).
  eexists. split; [exact Hload|]. split.
  - intros k r Hr. apply (table_row_origin folder ws k r Hg Hws Hr).
  - intros k d Hnone.
    destruct (filter (has_date d) _) as [|r rs] eqn:E; [reflexivity|]. exfalso.
    assert (Hin : In r (filter (has_date d)
              (rows (table_of k (tables (collect (mkcollected [] [] [] [] []) ws))))))
      by (rewrite E; now left).
    apply filter_In in Hin. destruct Hin as [Hin Hd].
    destruct (table_row_origin folder ws k r Hg Hws Hin) as (d' & w & Hd' & Hne & _).
    unfold has_date in Hd. unfold dated in Hd'. rewrite Hd' in Hd.
    apply date_eqb_eq in Hd. subst d'. apply Hne, Hnone.
Qed.

(** ** Dates and stores *)

Lemma candidates_from_files (d : date) (files : list dir_entry) (e : entry) :
  In e (candidates_of d files) ->
  exists f, In f files /\ parse_flash_report (fcontent f) = Ok (Some (e_result e)) /\
            p_date (e_result e) = d.
Proof.
  unfold candidates_of. rewrite in_flat_map. intros (f & Hf & He). exists f.
  split; [exact Hf|].
  destruct (parse_flash_report (fcontent f)) as [[r|]|x]; try contradiction.
  destruct (date_eqb (p_date r) d) eqn:E; [|contradiction].
  destruct He as [<-|[]]. simpl. apply date_eqb_eq in E. auto.
Qed.

Lemma winners_date_store (proj : parsed -> list record) (g : groups)
      (winners : list entry) :
  (forall r, parse_result r -> Forall (dated (p_date r)) (proj r)) ->
  well_grouped g ->
  Forall2 (fun grp w => winner (snd grp) = Ok w) g winners ->
  (forall w, In w winners -> NoDup (map (lookup "store") (proj (e_result w)))) ->
  NoDup (map date_store (flat_map (fun w => proj (e_result w)) winners)).
Proof.
  intros Hproj [Hnd Hg] H.
  induction H as [|[d es] w g ws Hw Hws IH]; intros Hst; [constructor|].
  simpl in Hw. inversion Hnd as [|? ? Hn Hnd']; subst.
  assert (Hg' : forall d1 es1, In (d1, es1) g ->
            es1 <> [] /\
            forall e, In e es1 -> p_date (e_result e) = d1 /\ parse_result (e_result e)).
  { intros d1 es1 Hin. apply Hg. now right. }
  destruct (Hg d es (or_introl eq_refl)) as [_ He].
  destruct (He w (winner_In _ _ Hw)) as [Hd Hr].
  cbn [flat_map]. rewrite map_app. apply NoDup_app.
  - apply (NoDup_map_inv snd). rewrite map_map. apply Hst. now left.
  - apply IH; [exact Hnd' | exact Hg' | intros w' Hw'; apply Hst; now right].
  - intros key Hin Hin'.
    apply in_map_iff in Hin. destruct Hin as (r & <- & Hr1).
    apply in_map_iff in Hin'. destruct Hin' as (r' & Heq & Hr2).
    apply in_flat_map in Hr2. destruct Hr2 as (w' & Hw' & Hr2).
    destruct (Forall2_In_right _ _ _ _ Hws Hw') as ((d' & es') & Hges & Hwin).
    simpl in Hwin.
    destruct (Hg' d' es' Hges) as [_ He'].
    destruct (He' w' (winner_In _ _ Hwin)) as [Hd' Hr'].
    pose proof (Hproj _ Hr) as F. rewrite Forall_forall in F. specialize (F r Hr1).
    pose proof (Hproj _ Hr') as F'. rewrite Forall_forall in F'. specialize (F' r' Hr2).
    unfold date_store, dated in *. rewrite F, F', Hd, Hd' in Heq.
    injection Heq as Hdd _. subst d'. apply Hn.
    apply (in_map fst) in Hges. exact Hges.
Qed.

(** X18.  When the stores of each winning report are distinct within a
    section, the table of that section has no two rows of the same date and
    store.  (The loader itself does not compare the labels of the rows of a
    section: a label repeated in the section of a winner is a pair repeated
    in the table.) *)
Theorem date_store_pairs_distinct (folder : list dir_entry) (k : kind) :
  let files := filter (fun f => glob_match (fname f)) folder in
  (forall d w, winner (candidates_of d files) = Ok w ->
     NoDup (map (lookup "store") (section_of k (e_result w)))) ->
  exists t,
    load_all_reports folder = Ok t /\
    NoDup (map date_store (rows (table_of k t))).
Proof.
  intros files Hst.
  destruct (load_all_reports_run folder) as (Hg & ws & Hws & Hload).
  set (g := fold_left group_step (filter (fun f => glob_match (fname f)) folder) [])
    in Hg, Hws.
  eexists. split; [exact Hload|].
  apply (Permutation_NoDup
           (Permutation_sym (Permutation_map date_store (table_rows k ws)))).
  apply (winners_date_store (section_of k) g ws (report_records_dated k) Hg Hws).
  intros w Hw. destruct (winner_of_group g ws w Hg Hws Hw) as (_ & _ & Hwin).
  apply (Hst (p_date (e_result w))).
  unfold g in Hwin. rewrite group_of_fold in Hwin. exact Hwin.
Qed.

(** ** The brand total *)

Lemma read_fields_lookup (ws : worksheet) (row : Z) (sch : schema) (fs : record) :
  read_fields ws row sch = Ok fs ->
  NoDup (map (fun f => fst (fst f)) sch) ->
  forall k col c, In (k, col, c) sch ->
    exists v, coerce c (ws row col) = Ok v /\ lookup k fs = Some v.
Proof.
  unfold read_fields. revert fs.
  induction sch as [|[[k0 col0] c0] sch IH]; intros fs H Hnd k col c Hin;
    [destruct Hin|].
  cbn [mapM] in H.
  destruct (coerce c0 (ws row col0)) as [v0|e] eqn:E0; [|discriminate]. cbn [bind] in H.
  destruct (mapM _ sch) as [fs'|e] eqn:E; [|discriminate]. cbn [bind] in H.
  injection H as <-. inversion Hnd as [|? ? Hn Hnd']; subst.
  destruct Hin as [Heq|Hin].
  - injection Heq as <- <- <-. exists v0. split; [exact E0|].
    cbn [lookup]. rewrite String.eqb_refl. reflexivity.
  - destruct (IH fs' eq_refl Hnd' k col c Hin) as (v & Hv & Hl).
    exists v. split; [exact Hv|]. cbn [lookup].
    destruct (String.eqb_spec k0 k) as [->|_]; [|exact Hl].
    exfalso. apply Hn.
    apply (in_map (fun f : string * Z * coercion => fst (fst f)) _ (k, col, c)), Hin.
Qed.

Lemma brand_total_read (ws : worksheet) (d : date) (b : record) :
  brand_total_record ws d = Ok b ->
  map fst b = "date" :: map fst brand_total_cells /\
  forall key col, In (key, col) brand_total_cells ->
    exists x, safe_float (ws 16 col) = Ok x /\ lookup key b = Some (VFloat x).
Proof.
  unfold brand_total_record.
  destruct (read_fields ws 16 brand_total_schema) as [fs|e] eqn:E; [|discriminate].
  cbn [bind]. intros H. injection H as <-. split.
  - cbn [map fst]. rewrite (read_fields_keys _ _ _ _ E). reflexivity.
  - intros key col Hin.
    assert (Hs : In (key, col, AsFloat) brand_total_schema).
    { change brand_total_schema
        with (map (fun kc : string * Z => (fst kc, snd kc, AsFloat)) brand_total_cells).
      apply in_map_iff. exists (key, col). split; [reflexivity | exact Hin]. }
    assert (Hnd : NoDup (map (fun f => fst (fst f)) brand_total_schema))
      by (apply distinct_NoDup; reflexivity).
    destruct (read_fields_lookup ws 16 _ fs E Hnd key col AsFloat Hs) as (v & Hv & Hl).
    cbn [coerce] in Hv.
    destruct (safe_float (ws 16 col)) as [x|e]; [|discriminate].
    cbn [bind] in Hv. injection Hv as <-.
    exists x. split; [reflexivity|]. cbn [lookup].
    destruct (String.eqb_spec "date" key) as [<-|_]; [|exact Hl].
    exfalso. cbn [brand_total_cells In] in Hin.
    repeat (destruct Hin as [Hin|Hin]; [discriminate Hin|]). exact Hin.
Qed.

(** C10.  Once the header of the sheet gives a date, [parse_flash_report]
    returns a report of that date unless a coercion raises [OverflowError].
    Every report it returns carries one brand total, read from row 16 of the
    sheet whatever that row holds: the record has the key [date], with the
    date of the report, and the twenty keys of the brand total, each with
    the float that [safe_float] gives for the cell of row 16 in the column
    of the key; when the cells of that row are empty all these fields are
    0.0.  Provided [sort_values] permutes the rows, the table of brand
    totals has, for every date, one row if some matching file parses to a
    report of that date and none otherwise, every row carries such a date,
    and the row of a date is the brand total of the winner of the date,
    whatever the store records of the winner are. *)
Theorem one_brand_total_per_date (folder : list dir_entry) :
  (forall sheets chartsheets ws d,
     get_sheet sheet_name sheets = Ok ws ->
     parse_date_from_cell (ws 2 1) = Ok (Some d) ->
     parse_flash_report (Workbook sheets chartsheets) = Raise OverflowError \/
     exists p, parse_flash_report (Workbook sheets chartsheets) = Ok (Some p) /\
               p_date p = d) /\
  (forall f p, parse_flash_report f = Ok (Some p) ->
     exists sheets chartsheets ws,
       f = Workbook sheets chartsheets /\ get_sheet sheet_name sheets = Ok ws /\
       map fst (p_brand_total p) = "date" :: map fst brand_total_cells /\
       lookup "date" (p_brand_total p) = Some (VDate (p_date p)) /\
       (forall key col, In (key, col) brand_total_cells ->
          exists x, safe_float (ws 16 col) = Ok x /\
                    lookup key (p_brand_total p) = Some (VFloat x)) /\
       ((forall col, 2 <= col <= 21 -> ws 16 col = CNone) ->
        p_brand_total p
        = ("date", VDate (p_date p))
            :: map (fun kc => (fst kc, VFloat float_zero)) brand_total_cells)) /\
  exists t,
    load_all_reports folder = Ok t /\
    (forall r, In r (rows (brand_totals t)) ->
       exists dd, lookup "date" r = Some (VDate dd) /\ In dd (parsed_dates folder)) /\
    (forall dd,
       List.length (filter (has_date dd) (rows (brand_totals t)))
       = if existsb (date_eqb dd) (parsed_dates folder) then 1%nat else 0%nat) /\
    (forall dd w,
       winner (candidates_of dd (filter (fun f => glob_match (fname f)) folder)) = Ok w ->
       filter (has_date dd) (rows (brand_totals t)) = [p_brand_total (e_result w)]).
Proof.
  split; [exact parse_dated_sheet|]. split.
  { intros f p H.
    destruct (brand_total_of_report f p H) as (sheets & cs & ws & Hf & Hs & Hb & Hl & Hz).
    exists sheets, cs, ws. split; [exact Hf|]. split; [exact Hs|].
    destruct (brand_total_read ws (p_date p) _ Hb) as [Hk Hr].
    split; [exact Hk|]. split; [exact Hl|]. split; [exact Hr|exact Hz]. }
  destruct (load_all_reports_run folder) as (Hg & ws & Hws & Hload).
  set (g := fold_left group_step (filter (fun f => glob_match (fname f)) folder) [])
    in Hg, Hws.
  eexists. split; [exact Hload|].
  pose proof (winners_brand_dates g ws Hg Hws) as Hdates.
  assert (Hperm : Permutation
            (rows (brand_totals (tables (collect (mkcollected [] [] [] [] []) ws))))
            (map (fun w => p_brand_total (e_result w)) ws)).
  { cbn [tables brand_totals collect all_brand_totals app].
    rewrite sort_by_date_perm, rows_frame_of. reflexivity. }
  set (bt := map (fun w => p_brand_total (e_result w)) ws) in *.
  assert (Hkeys : forall dd, In dd (map fst g) <-> In dd (parsed_dates folder)).
  { intros dd. unfold g. rewrite fold_group_step_keys. simpl. unfold parsed_dates. tauto. }
  split; [|split].
  - intros r Hr. apply (Permutation_in _ Hperm) in Hr.
    apply (in_map (lookup "date")) in Hr. rewrite Hdates in Hr.
    apply in_map_iff in Hr. destruct Hr as (dd & Hdd & Hin).
    exists dd. split; [congruence|]. apply Hkeys, Hin.
  - intros dd.
    rewrite (Permutation_length (filter_perm (has_date dd) _ _ Hperm)).
    rewrite (count_dates dd bt (map fst g) Hdates).
    rewrite count_NoDup by apply Hg.
    destruct (existsb (date_eqb dd) (map fst g)) eqn:E1,
             (existsb (date_eqb dd) (parsed_dates folder)) eqn:E2; try reflexivity.
    + apply existsb_date_In, Hkeys, existsb_date_In in E1. congruence.
    + apply existsb_date_In, Hkeys, existsb_date_In in E2. congruence.
  - intros dd w Hw. apply (brand_rows_of_date dd g ws w Hg Hws).
    unfold g. rewrite group_of_fold. exact Hw.
Qed.

(** * Properties of the dashboard *)

(** ** The short name of a store *)

Lemma length_append (s t : string) :
  String.length (s ++ t) = (String.length s + String.length t)%nat.
Proof. induction s as [|c s IH]; simpl; congruence. Qed.

Lemma prefix_short (p x y : string) :
  (String.length p <= String.length x)%nat -> prefix p (x ++ y) = prefix p x.
Proof.
  revert x. induction p as [|a p IH]; intros x H.
  - destruct x, y; reflexivity.
  - destruct x as [|b x]; simpl in H; [lia|]. cbn [append prefix].
    destruct (ascii_dec a b); [apply IH; lia | reflexivity].
Qed.

Lemma split_from_none (sep s cur : string) :
  contains sep s = false -> split_from sep s 0 cur = [(string_rev cur ++ s)%string].
Proof.
  revert cur. induction s as [|c s IH]; intros cur H.
  - simpl. rewrite append_nil_r. reflexivity.
  - cbn [contains] in H. apply orb_false_iff in H. destruct H as [Hp Hc].
    cbn [split_from]. rewrite Hp, (IH _ Hc), string_rev_cons, append_assoc.
    reflexivity.
Qed.

Lemma split_from_first (a rest cur : string) :
  contains " - " (a ++ " -") = false ->
  split_from " - " (a ++ " - " ++ rest) 0 cur
  = (string_rev cur ++ a)%string :: split_from " - " rest 0 "".
Proof.
  revert cur. induction a as [|c a IH]; intros cur H.
  - cbn [append split_from].
    replace (prefix " - " (String " " (String "-" (String " " rest)))) with true
      by (symmetry; apply prefix_iff; exists rest; reflexivity).
    rewrite append_nil_r. reflexivity.
  - cbn [append contains] in H. apply orb_false_iff in H. destruct H as [Hp Hc].
    cbn [append split_from].
    assert (Hp' : prefix " - " (String c (a ++ " - " ++ rest)) = false).
    { replace (String c (a ++ " - " ++ rest))
        with ((String c (a ++ " -")) ++ String " " rest)%string
        by (cbn [append]; rewrite append_assoc; reflexivity).
      rewrite prefix_short; [exact Hp|].
      cbn [String.length]. rewrite length_append. simpl. lia. }
    cbn [append] in Hp', IH. rewrite Hp', (IH _ Hc), string_rev_cons, append_assoc.
    reflexivity.
Qed.

Lemma py_split_none (s : string) :
  contains " - " s = false -> py_split " - " s = [s].
Proof. intros H. unfold py_split. rewrite (split_from_none _ _ _ H). reflexivity. Qed.

Lemma py_split_first (a rest : string) :
  contains " - " (a ++ " -") = false ->
  py_split " - " (a ++ " - " ++ rest) = a :: py_split " - " rest.
Proof. intros H. unfold py_split. rewrite (split_from_first _ _ _ H). reflexivity. Qed.

(** X14.  [short_store] returns a name without the separator [ - ] as it
    is; of a name with the separator it returns the text between the first
    separator and the second, or the end of the name: the number of the
    store before the first separator is dropped, and so is what follows a
    second one.  (The first separator of [a - b] stands after [a] when none
    begins in [a -].) *)
Theorem short_store_cases (name : string) :
  (contains " - " name = false -> short_store name = name) /\
  (forall a b,
     name = (a ++ " - " ++ b)%string ->
     contains " - " (a ++ " -") = false -> contains " - " b = false ->
     short_store name = b) /\
  (forall a b c,
     name = (a ++ " - " ++ b ++ " - " ++ c)%string ->
     contains " - " (a ++ " -") = false -> contains " - " (b ++ " -") = false ->
     short_store name = b).
Proof.
  split; [|split].
  - intros H. unfold short_store. rewrite (py_split_none _ H). reflexivity.
  - intros a b -> Ha Hb. unfold short_store.
    rewrite (py_split_first _ _ Ha), (py_split_none _ Hb). reflexivity.
  - intros a b c -> Ha Hb. unfold short_store.
    rewrite (py_split_first _ _ Ha), (py_split_first _ _ Hb). reflexivity.
Qed.

(** ** The filters on the tables of the loader *)

Lemma select_rows_map (p : option value -> bool) (key : string) (l : list record) :
  select_rows l (map p (map (lookup key) l)) = filter (fun r => p (lookup key r)) l.
Proof.
  induction l as [|r l IH]; simpl; [reflexivity|].
  rewrite IH. reflexivity.
Qed.

Lemma select_rows_and (p q : option value -> bool) (k1 k2 : string) (l : list record) :
  select_rows l (mask_and (map p (map (lookup k1) l)) (map q (map (lookup k2) l)))
  = filter (fun r => p (lookup k1 r) && q (lookup k2 r)) l.
Proof.
  induction l as [|r l IH]; simpl; [reflexivity|].
  rewrite IH. reflexivity.
Qed.

Lemma filter_andb {A : Type} (p q : A -> bool) (l : list A) :
  filter (fun x => p x && q x) l = filter q (filter p l).
Proof.
  induction l as [|x l IH]; simpl; [reflexivity|].
  destruct (p x); simpl; [destruct (q x)|]; rewrite IH; reflexivity.
Qed.

Lemma get_column_ok (df : DataFrame) (key : string) :
  In key (columns df) -> get_column df key = Ok (map (lookup key) (rows df)).
Proof.
  intros H. unfold get_column.
  replace (existsb (String.eqb key) (columns df)) with true; [reflexivity|].
  symmetry. apply existsb_string_In, H.
Qed.

Lemma filter_df_rows (cols : list string) (sd : date) (ss : list string)
      (df : DataFrame) :
  columns df = cols -> In "date" cols -> In "store" cols ->
  filter_df sd ss df
  = Ok (mkframe cols (filter (fun r => has_date sd r && store_selected ss r) (rows df))) /\
  filter_stores ss df = Ok (mkframe cols (filter (store_selected ss) (rows df))).
Proof.
  intros Hc Hd Hs. unfold filter_df, filter_stores.
  rewrite !get_column_ok by (rewrite Hc; assumption). cbn [bind].
  unfold df_mask. rewrite select_rows_and, select_rows_map, Hc. split; reflexivity.
Qed.

(** X15.  On a table of store records of the loader, [filter_df] and
    [filter_stores] raise [KeyError] when the table has no row, since it has
    no column then; otherwise they return the table of the same columns
    with, in their order, the rows of the selected date and stores, and the
    rows of the selected stores. *)
Theorem filters_on_tables (folder : list dir_entry) :
  exists t,
    load_all_reports folder = Ok t /\
    forall k selected_date selected_stores,
      (rows (table_of k t) = [] ->
       filter_df selected_date selected_stores (table_of k t) = Raise KeyError /\
       filter_stores selected_stores (table_of k t) = Raise KeyError) /\
      (rows (table_of k t) <> [] ->
       filter_df selected_date selected_stores (table_of k t)
       = Ok (mkframe (kind_columns k)
               (filter (fun r => has_date selected_date r
                                 && store_selected selected_stores r)
                       (rows (table_of k t)))) /\
       filter_stores selected_stores (table_of k t)
       = Ok (mkframe (kind_columns k)
               (filter (store_selected selected_stores) (rows (table_of k t))))).
Proof.
  destruct (load_all_reports_run folder) as (Hg & ws & Hws & Hload).
  eexists. split; [exact Hload|].
  intros k sd ss. rewrite table_of_tables. split.
  - intros H. rewrite (frame_without_rows _ H). split; reflexivity.
  - intros H. apply filter_df_rows.
    + apply frame_columns;
        [apply kind_columns_NoDup | eapply winners_section_keys; eassumption |].
      intros E. rewrite E in H. apply H. reflexivity.
    + now left.
    + right. now left.
Qed.

(** X16.  For a date of which some file holds a report, [filter_df] on a
    table of the loader that has rows returns, up to their order, the
    records of the selected stores in the report of the winner of the
    date. *)
Theorem filter_df_winner (folder : list dir_entry) (d : date)
        (selected_stores : list string) :
  let candidates := candidates_of d (filter (fun f => glob_match (fname f)) folder) in
  candidates <> [] ->
  exists w t,
    winner candidates = Ok w /\
    load_all_reports folder = Ok t /\
    forall k, rows (table_of k t) <> [] ->
      exists df,
        filter_df d selected_stores (table_of k t) = Ok df /\
        columns df = kind_columns k /\
        Permutation (rows df)
                    (filter (store_selected selected_stores)
                            (section_of k (e_result w))).
Proof.
  intros candidates Hne.
  destruct (load_all_reports_run folder) as (Hg & ws & Hws & Hload).
  set (g := fold_left group_step (filter (fun f => glob_match (fname f)) folder) [])
    in Hg, Hws.
  assert (Hgroup : group_of d g = candidates).
  { unfold g. rewrite group_of_fold. reflexivity. }
  destruct (winner_position candidates Hne) as (w & _ & _ & Hw & _).
  exists w. eexists. split; [exact Hw|]. split; [exact Hload|].
  intros k. rewrite table_of_tables. intros Hrows.
  eexists. split; [|split].
  - apply filter_df_rows with (cols := kind_columns k); [|now left|right; now left].
    apply frame_columns;
      [apply kind_columns_NoDup | eapply winners_section_keys; eassumption |].
    intros E. rewrite E in Hrows. apply Hrows. reflexivity.
  - reflexivity.
  - cbn [rows]. rewrite filter_andb. apply filter_perm.
    apply (table_rows_of_date (section_of k) d g ws w);
      [apply report_records_dated | exact Hg | exact Hws | | reflexivity].
    rewrite Hgroup. exact Hw.
Qed.

(** X17.  For every date that a row of the sales table carries, [day_brand]
    raises nothing and is the table of the columns of the brand totals with
    one row, the brand total of the report of the winner of the date. *)
Theorem day_brand_of_sales_date (folder : list dir_entry) :
  let files := filter (fun f => glob_match (fname f)) folder in
  exists t,
    load_all_reports folder = Ok t /\
    forall r d, In r (rows (sales t)) -> dated d r ->
      exists w,
        winner (candidates_of d files) = Ok w /\
        day_brand d (brand_totals t)
        = Ok (mkframe brand_columns [p_brand_total (e_result w)]).
Proof.
  intros files.
  destruct (load_all_reports_run folder) as (Hg & ws & Hws & Hload).
  set (g := fold_left group_step (filter (fun f => glob_match (fname f)) folder) [])
    in Hg, Hws.
  eexists. split; [exact Hload|].
  intros r d Hr Hd.
  destruct (table_row_origin folder ws Sales r Hg Hws Hr) as (d' & w & Hd' & _ & Hw & _).
  unfold dated in Hd, Hd'. rewrite Hd in Hd'. injection Hd' as <-.
  exists w. split; [exact Hw|].
  assert (Hgroup : group_of d g = candidates_of d files).
  { unfold g. rewrite group_of_fold. reflexivity. }
  rewrite brand_totals_tables.
  set (bt := map (fun w => p_brand_total (e_result w)) ws).
  assert (Hbt : filter (has_date d) (rows (sort_by_date (frame_of bt)))
                = [p_brand_total (e_result w)]).
  { apply Permutation_length_1_inv, Permutation_sym.
    apply (table_rows_of_date (fun r => [p_brand_total r]) d g ws w).
    - intros p (f & Hf). constructor; [|constructor].
      destruct (brand_total_of_report f p Hf) as (_ & _ & _ & _ & _ & _ & Hl & _).
      exact Hl.
    - exact Hg.
    - exact Hws.
    - rewrite Hgroup. exact Hw.
    - unfold bt. clear. induction ws as [|x ws IH]; simpl; congruence. }
  assert (Hcols : columns (sort_by_date (frame_of bt)) = brand_columns).
  { apply frame_columns;
      [apply brand_columns_NoDup | eapply winners_brand_keys; eassumption |].
    intros E. rewrite E in Hbt. discriminate Hbt. }
  unfold day_brand.
  rewrite get_column_ok by (rewrite Hcols; now left). cbn [bind].
  unfold df_mask. rewrite select_rows_map, Hcols.
  change (fun r0 => eq_date d (lookup "date" r0)) with (has_date d).
  rewrite Hbt. reflexivity.
Qed.

End Loader.

(** * Worked cases *)

(** The sort of the examples permutes the rows. *)
Lemma insert_by_date_perm (r : record) (l : list record) :
  Permutation (insert_by_date r l) (r :: l).
Proof.
  induction l as [|x l IH]; simpl; [reflexivity|].
  destruct (date_ltb (row_date x) (row_date r)); [|reflexivity].
  rewrite IH. apply perm_swap.
Qed.

Lemma example_sort_perm (l : list record) : Permutation (example_sort l) l.
Proof.
  induction l as [|r l IH]; simpl; [reflexivity|].
  rewrite insert_by_date_perm. constructor. exact IH.
Qed.

(** The scenario of the specification: of the two files for 6/1/2026 the
    older one with the tag [[74]] wins, and its records fill the tables. *)
Example scenario_tables :
  exists d,
    load_all_reports example_repr example_sort scenario_folder = Ok d /\
    map (lookup "date") (rows (sales d))
    = [Some (VDate (mkdate 2026 6 1)); Some (VDate (mkdate 2026 6 2))] /\
    map (lookup "day_sales_ty") (rows (sales d))
    = [Some (VFloat (S754_finite false 8796093022208000 (-45)));
       Some (VFloat (S754_finite false 4925812092436480 (-46)))] /\
    columns (sales d) = kind_columns Sales /\
    columns (brand_totals d) = "date" :: map (fun f => fst (fst f)) brand_total_schema /\
    columns (labor d) = [].
Proof. eexists. split; [vm_compute; reflexivity|]. vm_compute. repeat split. Qed.

(** The text 1234.5 is read as the float of that value: [m * 2 ^ e] with
    [m * 10 = 12345 * 2 ^ (- e)]. *)
Example float_keeps_1234_5 :
  safe_float (CStr "1234.5") = Ok (S754_finite false 5429388417957888 (-42)) /\
  5429388417957888 * 10 = 12345 * 2 ^ 42.
Proof. split; vm_compute; reflexivity. Qed.

(** The fraction is discarded toward zero, for negative numbers too. *)
Example truncation_toward_zero :
  safe_int (CStr "12.7") = Ok 12 /\ safe_int (CStr "-12.9") = Ok (-12) /\
  safe_int (CStr "0.99") = Ok 0 /\ safe_int (CFloat (S754_finite true 3 (-1))) = Ok (-1).
Proof. repeat split. Qed.

(** The blank cells and the cells that are no number give the defaults. *)
Example coercion_defaults :
  safe_float CNone = Ok float_zero /\ safe_float (CStr "") = Ok float_zero /\
  safe_float (CStr "-") = Ok float_zero /\ safe_float (CStr "n/a") = Ok float_zero /\
  safe_float (COther true "2026-06-01 00:00:00") = Ok float_zero /\
  safe_int CNone = Ok 0 /\ safe_int (CStr "") = Ok 0 /\ safe_int (CStr "-") = Ok 0 /\
  safe_int (CStr "#DIV/0!") = Ok 0 /\ safe_int (CStr "nan") = Ok 0.
Proof. repeat split. Qed.

(** A file that cannot be read changes nothing. *)
Example broken_file_is_skipped :
  load_all_reports example_repr example_sort mixed_folder
  = load_all_reports example_repr example_sort scenario_folder.
Proof. vm_compute. reflexivity. Qed.

(** A report with [inf] for a count raises from [safe_int], and the
    aggregator drops the whole report. *)
Example overflow_drops_report :
  parse_flash_report example_repr (Workbook [(sheet_name, overflow_sheet)] [])
  = Raise OverflowError /\
  load_all_reports example_repr example_sort
    [report_file "Multibrand_FlashReport[9].xlsx" 1 overflow_sheet]
  = Ok empty_data.
Proof. split; vm_compute; reflexivity. Qed.

(** A workbook in which the name of the report sheet is that of a chartsheet
    raises [TypeError] at the header cell, and the aggregator leaves the
    file out. *)
Example chartsheet_is_skipped :
  parse_flash_report example_repr chart_workbook = Raise TypeError /\
  load_all_reports example_repr example_sort
    (mkfile "Multibrand_FlashReport[8].xlsx" 9 chart_workbook :: scenario_folder)
  = load_all_reports example_repr example_sort scenario_folder.
Proof. split; vm_compute; reflexivity. Qed.

(** A report without a store still has its brand total: the sales table has
    no row and the table of brand totals has one. *)
Example brand_total_without_stores :
  exists t,
    load_all_reports example_repr example_sort
      [report_file "Multibrand_FlashReport[9].xlsx" 1 brand_sheet] = Ok t /\
    rows (sales t) = [] /\
    map (lookup "date") (rows (brand_totals t)) = [Some (VDate (mkdate 2026 6 1))] /\
    map (lookup "day_sales_ty") (rows (brand_totals t)) = [Some (VFloat float_zero)].
Proof. eexists. split; [vm_compute; reflexivity|]. vm_compute. repeat split. Qed.

(** Only the first bracketed number of a name is compared with the preferred
    tags. *)
Example preferred_tags :
  is_preferred "Multibrand_FlashReport[74].xlsx" = true /\
  is_preferred "Multibrand_FlashReport[50].xlsx" = false /\
  is_preferred "Multibrand_FlashReport.xlsx" = false /\
  is_preferred "Multibrand_FlashReport[50][74].xlsx" = false.
Proof. repeat split. Qed.

(** Winner selection on the folder of the scenario, for 6/1/2026: the file
    with the tag [[74]] wins, and the sales rows of the date are its
    records. *)
Lemma winner_selection_witness :
  candidates_of example_repr (mkdate 2026 6 1)
    (filter (fun f => glob_match (fname f)) scenario_folder) <> [] /\
  exists w t,
    winner (candidates_of example_repr (mkdate 2026 6 1)
              (filter (fun f => glob_match (fname f)) scenario_folder)) = Ok w /\
    e_path w = "Multibrand_FlashReport[74].xlsx" /\
    load_all_reports example_repr example_sort scenario_folder = Ok t /\
    Permutation (filter (has_date (mkdate 2026 6 1)) (rows (sales t)))
                (p_sales (e_result w)) /\
    filter (has_date (mkdate 2026 6 1)) (rows (brand_totals t))
    = [p_brand_total (e_result w)].
Proof.
  split; [vm_compute; discriminate|].
  destruct (winner_selection example_repr example_sort example_sort_perm
              scenario_folder (mkdate 2026 6 1))
    as (g & w & b & a & t & _ & _ & _ & _ & Hw & _ & _ & _ & _ & Ht & Hk & Hb).
  - vm_compute. discriminate.
  - exists w, t. split; [exact Hw|]. split; [|split; [exact Ht|]].
    + vm_compute in Hw. injection Hw as <-. reflexivity.
    + split; [exact (Hk Sales) | exact Hb].
Defined.

(** A row labelled [Grand Totals] gives no sales record. *)
Lemma totals_row_excluded_witness :
  contains "Totals" (py_str example_repr (grand_totals_sheet 8 1)) = true /\
  store_records example_repr Sales grand_totals_sheet (mkdate 2026 6 1) = Ok [].
Proof.
  split; [reflexivity|].
  destruct (totals_row_excluded example_repr Sales grand_totals_sheet
              (mkdate 2026 6 1) 8) as [H _].
  - reflexivity.
  - rewrite H. reflexivity.
Defined.

(** A row labelled [TOTALS] contains the marker in another letter case, and
    is kept as a store. *)
Lemma totals_any_case_counterexample :
  In 8 (kind_rows Sales) /\
  contains "totals"
    (string_map to_lower (py_str example_repr (upper_totals_sheet 8 1))) = true /\
  exists rec,
    store_records example_repr Sales upper_totals_sheet (mkdate 2026 6 1) = Ok [rec] /\
    lookup "store" rec = Some (VStr "TOTALS").
Proof.
  split; [vm_compute; auto|]. split; [reflexivity|].
  eexists. split; [vm_compute; reflexivity|]. reflexivity.
Qed.

(** The folder without a usable file gives the five empty tables. *)
Lemma no_usable_file_witness :
  (forall f, In f unusable_folder -> glob_match (fname f) = true ->
             parses example_repr f = false) /\
  load_all_reports example_repr example_sort unusable_folder = Ok empty_data.
Proof.
  assert (H : forall f, In f unusable_folder -> glob_match (fname f) = true ->
                        parses example_repr f = false).
  { intros f Hin Hg. simpl in Hin.
    destruct Hin as [<-|[<-|[<-|[<-|[]]]]]; first [discriminate Hg | reflexivity]. }
  split; [exact H|].
  apply (no_usable_file example_repr example_sort unusable_folder H).
Defined.

(** The tables of the empty folder do not have the columns of their kinds. *)
Lemma empty_tables_counterexample :
  exists d,
    load_all_reports example_repr example_sort [] = Ok d /\
    rows (sales d) = [] /\
    columns (sales d) <> kind_columns Sales /\
    columns (brand_totals d) <> "date" :: map (fun f => fst (fst f)) brand_total_schema /\
    columns (transactions d) <> kind_columns Transactions /\
    columns (channels d) <> kind_columns Channels /\
    columns (labor d) <> kind_columns Labor.
Proof.
  exists empty_data. split; [reflexivity|]. vm_compute. repeat split; discriminate.
Qed.

(** The header of the scenario: 2/22/2026. *)
Lemma header_date_witness :
  get_sheet sheet_name [(sheet_name, feb22_sheet)] = Ok feb22_sheet /\
  feb22_sheet 2 1 = CStr "Selected Date:2/22/2026" /\
  parse_date_from_cell example_repr (feb22_sheet 2 1) = Ok (Some (mkdate 2026 2 22)).
Proof.
  split; [reflexivity|]. split; [reflexivity|].
  destruct (header_date example_repr [(sheet_name, feb22_sheet)] [] feb22_sheet
              eq_refl) as [_ H].
  destruct (search_date_finds_first
              (py_str example_repr (feb22_sheet 2 1)) "2" "22" "2026" eq_refl)
    as (pre & post & Hf).
  destruct (H pre "2" "22" "2026" post eq_refl Hf) as [Hv _].
  apply Hv. reflexivity.
Defined.

(** The header holds a token of the shape M/D/YYYY, 13/45/2026, and the
    parse raises instead of returning a date or no result. *)
Lemma invalid_token_counterexample :
  has_date_token (py_str example_repr (bad_date_sheet 2 1)) /\
  parse_date_from_cell example_repr (bad_date_sheet 2 1) = Raise ValueError /\
  parse_flash_report example_repr (Workbook [(sheet_name, bad_date_sheet)] [])
  = Raise ValueError.
Proof.
  split; [|split; reflexivity].
  exists "Selected Date:", "13/45/2026". split; [reflexivity|].
  exists "13", "45", "2026", "". split; reflexivity.
Qed.

(** The coercions on the texts 12.9 and 1234. *)
Lemma numeric_text_coercion_witness :
  safe_float (CStr "12.9") = Ok (S754_finite false 7262054399134925 (-49)) /\
  safe_int (CStr "12.9") = Ok 12 /\
  safe_int (CStr "1234") = Ok 1234.
Proof.
  destruct (numeric_text_coercion "" "12" "9") as (Hf & Hi & _).
  - simpl. auto.
  - discriminate.
  - reflexivity.
  - reflexivity.
  - change "12.9" with (numeric_text "" "12" "9").
    split; [rewrite Hf; vm_compute; reflexivity|]. split.
    + destruct (Hi false 7262054399134925%positive (-49)) as (n & Hn & Hs & Ht);
        [vm_compute; reflexivity|].
      rewrite Hn. f_equal.
      change (Z.max 0 (- -49)) with 49 in Ht. change (Z.max 0 (-49)) with 0 in Ht.
      change (2 ^ 0) with 1 in Ht. change (2 ^ 49) with 562949953421312 in Ht. lia.
    + destruct (numeric_text_coercion "" "1234" "") as (_ & _ & _ & Hs);
        [simpl; auto | discriminate | reflexivity | reflexivity |].
      destruct (Hs eq_refl) as [Hn _]; [vm_compute; split; reflexivity|].
      exact Hn.
Defined.

(** A number of 401 digits is read as infinity, on which [safe_int] raises;
    and the float read from 0.1 is not one tenth. *)
Lemma numeric_text_counterexample :
  all_digits huge_number_text = true /\
  numeric_text "" huge_number_text "" = huge_number_text /\
  safe_float (CStr huge_number_text) = Ok (S754_infinity false) /\
  safe_int (CStr huge_number_text) = Raise OverflowError /\
  safe_float (CStr "0.1") = Ok (S754_finite false 7205759403792794 (-56)) /\
  7205759403792794 * 10 <> 1 * 2 ^ 56.
Proof. vm_compute. repeat split; discriminate. Qed.

(** A row labelled [Brand Total] gives no sales record. *)
Lemma brand_row_excluded_witness :
  contains "Brand" (py_str example_repr (brand_sheet 10 1)) = true /\
  store_records example_repr Sales brand_sheet (mkdate 2026 6 1) = Ok [].
Proof.
  split; [reflexivity|].
  destruct (brand_row_excluded example_repr brand_sheet (mkdate 2026 6 1) 10) as [H _].
  - reflexivity.
  - rewrite H. reflexivity.
Defined.

(** The row labelled [Brand Total] holds 100, and neither the sales records
    nor the brand total of the report have it: the brand total is the empty
    row 16. *)
Lemma brand_row_counterexample :
  In 10 (kind_rows Sales) /\
  contains "Brand" (py_str example_repr (brand_sheet 10 1)) = true /\
  safe_float (brand_sheet 10 2) = Ok (S754_finite false 7036874417766400 (-46)) /\
  exists p,
    parse_flash_report example_repr (Workbook [(sheet_name, brand_sheet)] []) = Ok (Some p) /\
    p_sales p = [] /\
    lookup "day_sales_ty" (p_brand_total p) = Some (VFloat float_zero).
Proof.
  split; [vm_compute; auto 10|]. split; [reflexivity|]. split; [reflexivity|].
  eexists. split; [vm_compute; reflexivity|]. split; reflexivity.
Qed.

(** The two listings of the June 1 sheet have the same cells. *)
Lemma sheet_of_june1_same : same_cells june1_sheet june1_sheet_again.
Proof.
  intros row col. unfold june1_sheet, june1_sheet_again, report_sheet, sheet_of.
  cbn [find fst snd].
  destruct (Z.eqb_spec 2 row), (Z.eqb_spec 8 row), (Z.eqb_spec 16 row),
    (Z.eqb_spec 54 row); try lia;
    destruct (Z.eqb_spec 1 col), (Z.eqb_spec 2 col); try lia; reflexivity.
Qed.

(** Two runs on the same file, its cells listed in two orders. *)
Lemma runs_agree_witness :
  same_folder [report_file "Multibrand_FlashReport[50].xlsx" 2000 june1_sheet]
              [report_file "Multibrand_FlashReport[50].xlsx" 2000 june1_sheet_again] /\
  load_all_reports example_repr example_sort
    [report_file "Multibrand_FlashReport[50].xlsx" 2000 june1_sheet]
  = load_all_reports example_repr example_sort
      [report_file "Multibrand_FlashReport[50].xlsx" 2000 june1_sheet_again].
Proof.
  assert (H : same_folder
                [report_file "Multibrand_FlashReport[50].xlsx" 2000 june1_sheet]
                [report_file "Multibrand_FlashReport[50].xlsx" 2000 june1_sheet_again]).
  { constructor; [|constructor]. split; [reflexivity|]. split; [reflexivity|].
    simpl. split; [|reflexivity]. constructor; [|constructor].
    split; [reflexivity|]. exact sheet_of_june1_same. }
  split; [exact H|].
  apply (runs_agree example_repr example_sort _ _ H).
Defined.

(** The brand totals of the scenario: one row for each of the two dates,
    and the row of 6/1/2026 is the brand total of the file with the tag
    [[74]], whose row 16 holds 250. *)
Lemma one_brand_total_per_date_witness :
  (forall l, Permutation (example_sort l) l) /\
  exists d w,
    load_all_reports example_repr example_sort scenario_folder = Ok d /\
    List.length (filter (has_date (mkdate 2026 6 1)) (rows (brand_totals d))) = 1%nat /\
    List.length (filter (has_date (mkdate 2026 6 2)) (rows (brand_totals d))) = 1%nat /\
    List.length (filter (has_date (mkdate 2026 6 3)) (rows (brand_totals d))) = 0%nat /\
    e_path w = "Multibrand_FlashReport[74].xlsx" /\
    filter (has_date (mkdate 2026 6 1)) (rows (brand_totals d))
    = [p_brand_total (e_result w)] /\
    safe_float (june1_rerun_sheet 16 2)
    = Ok (S754_finite false 8796093022208000 (-45)) /\
    lookup "day_sales_ty" (p_brand_total (e_result w))
    = Some (VFloat (S754_finite false 8796093022208000 (-45))).
Proof.
  split; [exact example_sort_perm|].
  destruct (one_brand_total_per_date example_repr example_sort example_sort_perm
              scenario_folder) as (_ & _ & d & Hd & _ & Hc & Hw).
  set (w := mkentry "Multibrand_FlashReport[74].xlsx" 1000 true
              (match parse_flash_report example_repr
                       (Workbook [(sheet_name, june1_rerun_sheet)] []) with
               | Ok (Some p) => p
               | _ => mkparsed (mkdate 2026 6 1) [] [] [] [] []
               end)).
  assert (Hwin : winner (candidates_of example_repr (mkdate 2026 6 1)
                           (filter (fun f => glob_match (fname f)) scenario_folder))
                 = Ok w) by (vm_compute; reflexivity).
  exists d, w. split; [exact Hd|]. rewrite !Hc.
  split; [vm_compute; reflexivity|]. split; [vm_compute; reflexivity|].
  split; [vm_compute; reflexivity|]. split; [reflexivity|].
  split; [exact (Hw _ _ Hwin)|]. split; vm_compute; reflexivity.
Defined.

(** * Examples for the further properties *)

(** An integer cell within the range of the exact floats. *)
Lemma integer_cell_kept_witness :
  - 2 ^ 53 < 12345 < 2 ^ 53 /\
  safe_int (CInt 12345) = Ok 12345 /\
  exists x, safe_float (CInt 12345) = Ok x /\ int_of_float x = Ok 12345.
Proof.
  assert (H : - 2 ^ 53 < 12345 < 2 ^ 53) by (split; reflexivity).
  split; [exact H|].
  destruct (integer_cell_kept 12345 H) as (Hi & x & Hx & Hb & _).
  split; [exact Hi|]. exists x. split; assumption.
Defined.

(** The date of the header [Selected Date:2/22/2026] is a day of the
    calendar. *)
Lemma parsed_date_is_valid_witness :
  parse_date_from_cell example_repr (CStr "Selected Date:2/22/2026")
  = Ok (Some (mkdate 2026 2 22)) /\
  valid_date 2026 2 22 = true /\ 22 <= days_in_month 2026 2.
Proof.
  assert (H : parse_date_from_cell example_repr (CStr "Selected Date:2/22/2026")
              = Ok (Some (mkdate 2026 2 22))) by reflexivity.
  split; [exact H|].
  destruct (parsed_date_is_valid example_repr _ _ H) as (Hv & _ & _ & [_ Hd] & _).
  split; [exact Hv | exact Hd].
Defined.

(** A header cell that holds the number 20260601 gives no report. *)
Lemma header_without_text_witness :
  get_sheet sheet_name [(sheet_name, number_header_sheet)] = Ok number_header_sheet /\
  number_header_sheet 2 1 = CInt 20260601 /\
  parse_flash_report example_repr (Workbook [(sheet_name, number_header_sheet)] [])
  = Ok None.
Proof.
  split; [reflexivity|]. split; [reflexivity|].
  apply (header_without_text example_repr [(sheet_name, number_header_sheet)] []
           number_header_sheet eq_refl).
  right. left. exists 20260601. reflexivity.
Defined.


(** The sales section of the sheet of 6/1/2026 has one store. *)
Lemma section_stores_witness :
  exists recs,
    store_records example_repr Sales june1_sheet (mkdate 2026 6 1) = Ok recs /\
    map (lookup "store") recs = [Some (VStr "Store A")] /\
    Forall (dated (mkdate 2026 6 1)) recs.
Proof.
  pose proof (section_stores example_repr Sales june1_sheet (mkdate 2026 6 1)) as H.
  destruct (store_records example_repr Sales june1_sheet (mkdate 2026 6 1))
    as [recs|e] eqn:E; [|vm_compute in E; discriminate E].
  exists recs. split; [reflexivity|].
  destruct (H recs eq_refl) as (Hs & _ & Hd).
  split; [rewrite Hs; vm_compute; reflexivity | exact Hd].
Defined.

(** Notes in the cells that are not read do not change the report. *)
Lemma parser_reads_regions_witness :
  parse_flash_report example_repr (Workbook [(sheet_name, june1_sheet)] [])
  = parse_flash_report example_repr (Workbook [(sheet_name, annotated_sheet)] [sheet_name]).
Proof.
  apply (parser_reads_regions example_repr [(sheet_name, june1_sheet)]
           [(sheet_name, annotated_sheet)] [] [sheet_name]
           june1_sheet annotated_sheet eq_refl eq_refl).
  intros row col H. unfold annotated_sheet. rewrite H. reflexivity.
Defined.

(** The preferred candidate wins in both orders of enumeration. *)
Lemma winner_order_independent_witness :
  winner [newer_entry; tagged_entry] = winner [tagged_entry; newer_entry] /\
  winner [newer_entry; tagged_entry] = Ok tagged_entry.
Proof.
  split; [|reflexivity].
  apply winner_order_independent; [apply perm_swap|].
  intros a b [<-|[<-|[]]] [<-|[<-|[]]] Hp Hm;
    try reflexivity; discriminate Hp.
Defined.

(** The scenario: the rows of 6/1/2026 are the records of the file with the
    tag [[74]]. *)
Lemma winner_records_in_tables_witness :
  candidates_of example_repr (mkdate 2026 6 1)
    (filter (fun f => glob_match (fname f)) scenario_folder) <> [] /\
  exists w t,
    load_all_reports example_repr example_sort scenario_folder = Ok t /\
    e_path w = "Multibrand_FlashReport[74].xlsx" /\
    Permutation (filter (has_date (mkdate 2026 6 1)) (rows (sales t)))
                (p_sales (e_result w)) /\
    filter (has_date (mkdate 2026 6 1)) (rows (brand_totals t))
    = [p_brand_total (e_result w)].
Proof.
  split; [vm_compute; discriminate|].
  destruct (winner_records_in_tables example_repr example_sort example_sort_perm
              scenario_folder (mkdate 2026 6 1))
    as (w & t & Hw & Ht & Hk & Hb).
  - vm_compute. discriminate.
  - exists w, t. split; [exact Ht|]. split; [|split; [exact (Hk Sales) | exact Hb]].
    vm_compute in Hw. injection Hw as <-. reflexivity.
Defined.

(** The scenario: the sales table has the columns of the sales records, and
    the labor table, for which no file has a row, has none. *)
Lemma tables_column_uniform_witness :
  exists t,
    load_all_reports example_repr example_sort scenario_folder = Ok t /\
    columns (sales t) = kind_columns Sales /\
    labor t = empty_frame /\
    columns (brand_totals t) = brand_columns.
Proof.
  destruct (tables_column_uniform example_repr example_sort example_sort_perm
              scenario_folder) as (t & Ht & Hk & Hb).
  exists t. split; [exact Ht|].
  assert (Hrows : rows (sales t) <> [] /\ rows (labor t) = [] /\
                  rows (brand_totals t) <> []).
  { vm_compute in Ht. injection Ht as <-. vm_compute.
    split; [discriminate|]. split; [reflexivity | discriminate]. }
  destruct Hrows as (Hs & Hl & Hbr). split; [|split].
  - destruct (Hk Sales) as [He|(_ & Hc & _)]; [|exact Hc].
    exfalso. apply Hs. cbn [table_of] in He. rewrite He. reflexivity.
  - destruct (Hk Labor) as [He|(Hr & _)]; [exact He|].
    exfalso. apply Hr, Hl.
  - destruct Hb as [He|(_ & Hc & _)]; [|exact Hc].
    exfalso. apply Hbr. rewrite He. reflexivity.
Defined.

(** The scenario: every row of the sales table is a record of a winner, and
    no row carries 6/3/2026. *)
Lemma table_rows_reported_witness :
  exists t,
    load_all_reports example_repr example_sort scenario_folder = Ok t /\
    (forall r, In r (rows (sales t)) ->
       exists d w,
         dated d r /\
         winner (candidates_of example_repr d
                   (filter (fun f => glob_match (fname f)) scenario_folder)) = Ok w /\
         In r (p_sales (e_result w))) /\
    filter (has_date (mkdate 2026 6 3)) (rows (sales t)) = [].
Proof.
  destruct (table_rows_reported example_repr example_sort example_sort_perm
              scenario_folder) as (t & Ht & Hr & Hn).
  exists t. split; [exact Ht|]. split.
  - intros r Hin. destruct (Hr Sales r Hin) as (d & w & Hd & _ & Hw & Hs).
    exists d, w. auto.
  - apply (Hn Sales). vm_compute. reflexivity.
Defined.

(** The scenario: the sales table has rows, so that the script goes on, and
    [filter_df] raises on the labor table. *)
Lemma filters_on_tables_witness :
  exists t,
    load_all_reports example_repr example_sort scenario_folder = Ok t /\
    df_empty (sales t) = false /\
    filter_df (mkdate 2026 6 1) ["Store A"] (labor t) = Raise KeyError /\
    filter_stores ["Store A"] (labor t) = Raise KeyError.
Proof.
  destruct (filters_on_tables example_repr example_sort example_sort_perm
              scenario_folder) as (t & Ht & H).
  exists t. split; [exact Ht|].
  assert (Hrows : df_empty (sales t) = false /\ rows (labor t) = []).
  { vm_compute in Ht. injection Ht as <-. vm_compute. split; reflexivity. }
  destruct Hrows as [Hs Hl]. split; [exact Hs|].
  apply (H Labor (mkdate 2026 6 1) ["Store A"]). exact Hl.
Defined.

(** The scenario: the sales of the selected store on 6/1/2026 are those of
    the file with the tag [[74]]. *)
Lemma filter_df_winner_witness :
  candidates_of example_repr (mkdate 2026 6 1)
    (filter (fun f => glob_match (fname f)) scenario_folder) <> [] /\
  exists w t df,
    load_all_reports example_repr example_sort scenario_folder = Ok t /\
    e_path w = "Multibrand_FlashReport[74].xlsx" /\
    filter_df (mkdate 2026 6 1) ["Store A"] (sales t) = Ok df /\
    Permutation (rows df) (filter (store_selected ["Store A"]) (p_sales (e_result w))).
Proof.
  split; [vm_compute; discriminate|].
  destruct (filter_df_winner example_repr example_sort example_sort_perm
              scenario_folder (mkdate 2026 6 1) ["Store A"])
    as (w & t & Hw & Ht & Hk).
  - vm_compute. discriminate.
  - destruct (Hk Sales) as (df & Hdf & _ & Hp).
    + pose proof Ht as Ht'. vm_compute in Ht'. injection Ht' as <-.
      vm_compute. discriminate.
    + exists w, t, df. split; [exact Ht|]. split; [|split; [exact Hdf | exact Hp]].
      vm_compute in Hw. injection Hw as <-. reflexivity.
Defined.

(** The scenario: the brand total of each date of the sales table. *)
Lemma day_brand_of_sales_date_witness :
  exists t,
    load_all_reports example_repr example_sort scenario_folder = Ok t /\
    forall r d, In r (rows (sales t)) -> dated d r ->
      exists row, day_brand d (brand_totals t) = Ok (mkframe brand_columns [row]).
Proof.
  destruct (day_brand_of_sales_date example_repr example_sort example_sort_perm
              scenario_folder) as (t & Ht & H).
  exists t. split; [exact Ht|].
  intros r d Hr Hd. destruct (H r d Hr Hd) as (w & _ & Hb).
  exists (p_brand_total (e_result w)). exact Hb.
Defined.

(** The scenario: every report has one store, and no date and store come
    twice in the sales table. *)
Lemma date_store_pairs_distinct_witness :
  exists t,
    load_all_reports example_repr example_sort scenario_folder = Ok t /\
    NoDup (map date_store (rows (sales t))).
Proof.
  apply (date_store_pairs_distinct example_repr example_sort example_sort_perm
           scenario_folder Sales).
  intros d w Hw. apply winner_In in Hw.
  apply (candidates_from_files example_repr) in Hw.
  destruct Hw as (f & Hf & Hp & _).
  revert Hp. generalize (e_result w). intros r Hp.
  vm_compute in Hf.
  destruct Hf as [<-|[<-|[<-|[]]]]; vm_compute in Hp; injection Hp as <-;
    vm_compute; (constructor; [intros [] | constructor]).
Defined.
